(** * Gartner-Finance-Agent: the quote fetcher and the chat proxy

    A shallow embedding of the two Lambda handlers of the repository,
    [lambda_function.py] (the quote fetcher) and
    [lambda_proxy_function.py] (the chat proxy), and the properties of
    them that the specification states.

    Conventions of the embedding.
    - A Python value that comes out of [json.loads] is a [value]: a
      JSON document; a [dict] with string keys is a [gmap string value].
      The [body] of a response is the document that [json.dumps] writes,
      given as the [value] it encodes, not as text.
    - A [string] is a sequence of characters, one [ascii] per character
      (code points below 256); comparison is by code point, as in Python.
    - A float is an IEEE 754 binary64 number ([spec_float]), with its
      infinities and its NaN, and float arithmetic rounds as the format
      says.  A reading of the clock is given as the rational it equals;
      the 30 seconds of the stream are measured on these rationals, the
      milliseconds of a save are computed on the float.
    - A value that the conversation store returns is a [stored]: there a
      number is a [decimal.Decimal], which is no [int] and which
      [json.dumps] refuses.
    - Code that may raise returns an [outcome]; code that also talks to a
      service runs in the state-and-exception monad [M].
    - The services the handlers call (Secrets Manager, the market-data
      API, S3, the Bedrock agent runtime, DynamoDB, the clock) are what a
      world provides: their replies are data, and each call may fail. *)

From Stdlib Require Import Ascii String QArith SpecFloat.
From stdpp Require Import gmap strings list fin_maps sorting.

Local Open Scope string_scope.
Local Open Scope Z_scope.

(** ** Python values, exceptions and builtins *)

Module Py.

#[warnings="-register-all"]
Inductive value : Type :=
| VNone
| VBool (b : bool)
| VInt (n : Z)
| VFloat (f : spec_float)
| VStr (s : string)
| VList (l : list value)
| VDict (m : gmap string value).

(** An exception: a [botocore] [ClientError] with the code and message of
    its [response['Error']], or any other subclass of [Exception], named
    by its class.  [text] is what [str(e)] gives. *)
Inductive exn : Type :=
| ClientError (code msg text : string)
| PyError (cls text : string).

Definition exn_str (e : exn) : string :=
  match e with
  | ClientError _ _ text => text
  | PyError _ text => text
  end.

Inductive outcome (A : Type) : Type :=
| Return (a : A)
| Raise (e : exn).
Arguments Return {A} a.
Arguments Raise {A} e.

#[export] Instance outcome_ret : MRet outcome := λ A a, Return a.
#[export] Instance outcome_bind : MBind outcome := λ A B f o,
  match o with
  | Return a => f a
  | Raise e => Raise e
  end.

Definition type_name (v : value) : string :=
  match v with
  | VNone => "NoneType"
  | VBool _ => "bool"
  | VInt _ => "int"
  | VFloat _ => "float"
  | VStr _ => "str"
  | VList _ => "list"
  | VDict _ => "dict"
  end.

Definition TypeError (text : string) : exn := PyError "TypeError" text.
Definition AttributeError (v : value) (attr : string) : exn :=
  PyError "AttributeError"
    ("'" ++ type_name v ++ "' object has no attribute '" ++ attr ++ "'").
Definition KeyError (k : string) : exn := PyError "KeyError" ("'" ++ k ++ "'").
Definition IndexError (text : string) : exn := PyError "IndexError" text.
Definition ValueError (text : string) : exn := PyError "ValueError" text.
Definition OverflowError (text : string) : exn := PyError "OverflowError" text.

(** [bool(v)]: the truth value of [v] in [if v] and [not v]. *)
Definition truthy (v : value) : bool :=
  match v with
  | VNone => false
  | VBool b => b
  | VInt n => negb (Z.eqb n 0)
  | VFloat f => match f with S754_zero _ => false | _ => true end
  | VStr s => negb (String.eqb s "")
  | VList l => match l with [] => false | _ => true end
  | VDict m => negb (bool_decide (m = ∅))
  end.

(** [v == s] for a string literal [s]. *)
Definition eq_str (v : value) (s : string) : bool :=
  match v with
  | VStr s' => String.eqb s' s
  | _ => false
  end.

(** [needle in s] on strings: [needle] occurs in [s]. *)
Fixpoint str_contains (needle s : string) : bool :=
  String.prefix needle s ||
  match s with
  | EmptyString => false
  | String _ s' => str_contains needle s'
  end.

(** [k in d] for a string [k]: a key of a dict, an element of a list, a
    substring of a string; the other values are not containers. *)
Definition contains (k : string) (d : value) : outcome bool :=
  match d with
  | VDict m => Return (bool_decide (is_Some (m !! k)))
  | VList l => Return (existsb (λ v, eq_str v k) l)
  | VStr s => Return (str_contains k s)
  | _ => Raise (TypeError ("argument of type '" ++ type_name d ++ "' is not iterable"))
  end.

(** [d[k]] for a string [k]. *)
Definition getitem (d : value) (k : string) : outcome value :=
  match d with
  | VDict m =>
      match m !! k with
      | Some v => Return v
      | None => Raise (KeyError k)
      end
  | VList _ => Raise (TypeError "list indices must be integers or slices, not str")
  | VStr _ => Raise (TypeError "string indices must be integers, not 'str'")
  | _ => Raise (TypeError ("'" ++ type_name d ++ "' object is not subscriptable"))
  end.

(** [d.get(k, default)]. *)
Definition get (d : value) (k : string) (default : value) : outcome value :=
  match d with
  | VDict m => Return (from_option id default (m !! k))
  | _ => Raise (AttributeError d "get")
  end.

(** [d.keys()], in some order. *)
Definition keys (d : value) : outcome (list string) :=
  match d with
  | VDict m => Return (map_to_list m).*1
  | _ => Raise (AttributeError d "keys")
  end.

(** [str.isspace] on one character: tab to carriage return, the four
    separators 28..31, space, and in the Latin-1 range NEL and NBSP. *)
Definition isspace (c : ascii) : bool :=
  let n := N_of_ascii c in
  (N.leb 9 n && N.leb n 13) || (N.leb 28 n && N.leb n 32)
  || N.eqb n 133 || N.eqb n 160.

Fixpoint lstrip (s : string) : string :=
  match s with
  | String c s' => if isspace c then lstrip s' else s
  | EmptyString => EmptyString
  end.

(** [s.rstrip()]: drops the trailing run of whitespace. *)
Fixpoint rstrip (s : string) : string :=
  match s with
  | EmptyString => EmptyString
  | String c s' =>
      match rstrip s' with
      | EmptyString => if isspace c then EmptyString else String c EmptyString
      | r => String c r
      end
  end.

(** [s.strip()]. *)
Definition strip (s : string) : string := rstrip (lstrip s).

(** [v.strip()]: only a string has the method. *)
Definition strip_method (v : value) : outcome string :=
  match v with
  | VStr s => Return (strip s)
  | _ => Raise (AttributeError v "strip")
  end.

(** [s[:n]]. *)
Fixpoint slice_to (n : nat) (s : string) : string :=
  match n, s with
  | S n', String c s' => String c (slice_to n' s')
  | _, _ => EmptyString
  end.

Arguments slice_to : simpl nomatch.

(** The float nearest to [m * 2^e], ties to even. *)
Definition binary64 (m e : Z) : spec_float := binary_normalize 53 1024 m e false.

(** [float(n)] on an int: the nearest float; an int beyond the range of
    the floats raises. *)
Definition float_of_int (n : Z) : outcome spec_float :=
  match binary64 n 0 with
  | S754_infinity _ => Raise (OverflowError "int too large to convert to float")
  | f => Return f
  end.

(** [x * y] on floats. *)
Definition float_mul (x y : spec_float) : spec_float := SFmul 53 1024 x y.

(** [int(x)] on a float: truncation towards zero. *)
Definition int_of_float (x : spec_float) : outcome Z :=
  match x with
  | S754_zero _ => Return 0
  | S754_finite s m e =>
      let n := match e with
               | Zneg p => Z.shiftr (Zpos m) (Zpos p)
               | _ => Z.shiftl (Zpos m) e
               end in
      Return (if s then - n else n)
  | S754_infinity _ => Raise (OverflowError "cannot convert float infinity to integer")
  | S754_nan => Raise (ValueError "cannot convert float NaN to integer")
  end.

(** The float that a rational stands for: the float itself when the
    rational is one, a float next to it otherwise. *)
Definition float_of_Q (q : Q) : spec_float :=
  SFdiv 53 1024 (binary64 (Qnum q) 0) (binary64 (Zpos (Qden q)) 0).

(** The stable sort behind [sorted] and [list.sort]: [le x y] says that
    [x] may stand before [y].  An element is put in front of the first
    one it may stand before, so elements that compare equal keep their
    order; a stable sort has one result, whatever the algorithm. *)
Section Sort.
Context {A : Type} (le : A → A → bool).

Fixpoint insert_sorted (x : A) (l : list A) : list A :=
  match l with
  | [] => [x]
  | y :: l' => if le x y then x :: l else y :: insert_sorted x l'
  end.

Fixpoint sort (l : list A) : list A :=
  match l with
  | [] => []
  | x :: l' => insert_sorted x (sort l')
  end.
End Sort.

(** [sorted(l)] on strings. *)
Definition sorted (l : list string) : list string := sort String.leb l.

(** [l[0]]. *)
Definition first {A} (l : list A) : outcome A :=
  match l with
  | x :: _ => Return x
  | [] => Raise (IndexError "list index out of range")
  end.

(** *** Values on the side of the conversation store

    A Python value that is handed to the table resource of [boto3] or
    comes back from it.  The store keeps a number whatever its Python
    type was and the resource returns it as a [decimal.Decimal]: [SInt]
    is an [int], as the handlers write it and as the defaults of their
    [.get] are, [SDecimal] is a [Decimal], as they read it.  The numbers
    are whole numbers; floats, sets and binary values, which the handlers
    never write, are left out. *)
#[warnings="-register-all"]
Inductive stored : Type :=
| SNone
| SBool (b : bool)
| SInt (n : Z)
| SDecimal (n : Z)
| SStr (s : string)
| SList (l : list stored)
| SDict (m : gmap string stored).

Definition stored_type_name (v : stored) : string :=
  match v with
  | SNone => "NoneType"
  | SBool _ => "bool"
  | SInt _ => "int"
  | SDecimal _ => "decimal.Decimal"
  | SStr _ => "str"
  | SList _ => "list"
  | SDict _ => "dict"
  end.

(** The [AttributeError] of a value that has no method [attr]. *)
Definition no_attribute (v : stored) (attr : string) : exn :=
  PyError "AttributeError"
    ("'" ++ stored_type_name v ++ "' object has no attribute '" ++ attr ++ "'").

(** [d.get(k, default)] on that side. *)
Definition stored_get (d : stored) (k : string) (default : stored) : outcome stored :=
  match d with
  | SDict m => Return (from_option id default (m !! k))
  | _ => Raise (no_attribute d "get")
  end.

(** What the resource returns for a value that the store keeps: every
    number is a [Decimal], at any depth. *)
Fixpoint as_read (v : stored) : stored :=
  match v with
  | SInt n => SDecimal n
  | SList l => SList (as_read <$> l)
  | SDict m => SDict (as_read <$> m)
  | _ => v
  end.

(** The JSON document of a value, if it has one: a [Decimal] has none. *)
Fixpoint to_json (v : stored) : option value :=
  match v with
  | SNone => Some VNone
  | SBool b => Some (VBool b)
  | SInt n => Some (VInt n)
  | SDecimal _ => None
  | SStr s => Some (VStr s)
  | SList l => VList <$> mapM to_json l
  | SDict m =>
      VDict <$> map_fold (λ k v acc, j ← to_json v; (<[k := j]>) <$> acc) (Some ∅) m
  end.

Definition not_serializable : exn :=
  TypeError "Object of type Decimal is not JSON serializable".

(** [json.dumps(v)], given by the document it writes. *)
Definition dumps (v : stored) : outcome value :=
  match to_json v with
  | Some j => Return j
  | None => Raise not_serializable
  end.

(** A Python number on that side: an [int] or a [Decimal]. *)
Inductive number : Type :=
| Int (n : Z)
| Decimal (n : Z).

Definition number_value (x : number) : Z :=
  match x with
  | Int n => n
  | Decimal n => n
  end.

(** [json.dumps] on a number. *)
Definition dumps_number (x : number) : outcome value :=
  match x with
  | Int n => Return (VInt n)
  | Decimal _ => Raise not_serializable
  end.

End Py.
Import Py.

(** ** The state-and-exception monad *)

Definition M (S A : Type) : Type := S → outcome A * S.

#[export] Instance M_ret {S} : MRet (M S) := λ A a s, (Return a, s).
#[export] Instance M_bind {S} : MBind (M S) := λ A B f m s,
  match m s with
  | (Return a, s') => f a s'
  | (Raise e, s') => (Raise e, s')
  end.

Definition raise {S A} (e : exn) : M S A := λ s, (Raise e, s).
Definition lift {S A} (o : outcome A) : M S A := λ s, (o, s).
Definition gets {S A} (f : S → A) : M S A := λ s, (Return (f s), s).
Definition modify {S} (f : S → S) : M S unit := λ s, (Return tt, f s).

(** [try: m except Exception as e: h e]. *)
Definition try_except {S A} (m : M S A) (h : exn → M S A) : M S A := λ s,
  match m s with
  | (Return a, s') => (Return a, s')
  | (Raise e, s') => h e s'
  end.

(** What a handler returns to the platform. *)
Record response := {
  statusCode : Z;
  isBase64Encoded : option bool;
  headers : option (list (string * string));
  body : value
}.

(** ** The quote fetcher, [lambda_function.py] *)

Module QuoteFetcher.

(** The services behind the quote fetcher.  [get_secret_value id] is the
    decoded [SecretString] of the secret; [urlopen symbol api_key] is the
    decoded body of the GET whose URL carries that symbol and that key;
    [put_object bucket key] tells whether the put goes through. *)
Record services := {
  get_secret_value : string → outcome value;
  urlopen : string → value → outcome value;
  put_object : string → string → outcome unit
}.

(** The contents of the bucket ["stock-agent-sriram"]: the payload last
    stored under each key. *)
Abbreviation bucket := (gmap string value).

Definition reply (status : Z) (b : value) : response :=
  {| statusCode := status; isBase64Encoded := None; headers := None; body := b |}.

Section Handler.
(** The builtins that are taken as given: [str.upper], and the parsers
    of [float] and [int] for a string argument ([None] where Python
    raises [ValueError]; the float of a string may be an infinity or
    NaN). *)
Variable str_upper : string → string.
Variable parse_float : string → option spec_float.
Variable parse_int : string → option Z.

Definition upper (v : value) : outcome string :=
  match v with
  | VStr s => Return (str_upper s)
  | _ => Raise (AttributeError v "upper")
  end.

Definition float (v : value) : outcome spec_float :=
  match v with
  | VFloat f => Return f
  | VInt n => float_of_int n
  | VBool b => float_of_int (if b then 1 else 0)
  | VStr s =>
      match parse_float s with
      | Some f => Return f
      | None => Raise (ValueError ("could not convert string to float: '" ++ s ++ "'"))
      end
  | _ => Raise (TypeError ("float() argument must be a string or a real number, not '"
                           ++ type_name v ++ "'"))
  end.

Definition int (v : value) : outcome Z :=
  match v with
  | VInt n => Return n
  | VBool b => Return (if b then 1 else 0)
  | VFloat f => int_of_float f
  | VStr s =>
      match parse_int s with
      | Some n => Return n
      | None => Raise (ValueError ("invalid literal for int() with base 10: '" ++ s ++ "'"))
      end
  | _ => Raise (TypeError ("int() argument must be a string, a bytes-like object or a real number, not '"
                           ++ type_name v ++ "'"))
  end.

(** The [result] of lines 36 to 44: the Daily Bar. *)
Definition daily_bar (symbol date : string) (open high low close : spec_float) (volume : Z)
  : value :=
  VDict {[ "symbol" := VStr symbol;
           "date" := VStr date;
           "open" := VFloat open;
           "high" := VFloat high;
           "low" := VFloat low;
           "close" := VFloat close;
           "volume" := VInt volume ]}.

(** Lines 31 to 54: the success path. *)
Definition success_path (sv : services) (symbol : string) (data : value)
  : M bucket response :=
  time_series ← lift (getitem data "Time Series (Daily)");
  ks ← lift (keys time_series);
  latest_date ← lift (first (sorted ks));
  latest ← lift (getitem time_series latest_date);
  open ← lift (getitem latest "1. open" ≫= float);
  high ← lift (getitem latest "2. high" ≫= float);
  low ← lift (getitem latest "3. low" ≫= float);
  close ← lift (getitem latest "4. close" ≫= float);
  volume ← lift (getitem latest "6. volume" ≫= int);
  let result := daily_bar symbol latest_date open high low close volume in
  lift (put_object sv "stock-agent-sriram" (symbol ++ ".json"));;
  modify (<[symbol ++ ".json" := data]>);;
  mret (reply 200 result).

(** Lines 21 to 29, then the success path. *)
Definition classify (sv : services) (symbol : string) (data : value)
  : M bucket response :=
  error_message ← lift (contains "Error Message" data);
  if error_message : bool then
    mret (reply 400 (VDict {[ "error" := VStr ("Invalid symbol: " ++ symbol) ]}))
  else
  note ← lift (contains "Note" data);
  limited ← (if note : bool then mret true else lift (contains "Information" data));
  if limited : bool then
    mret (reply 429 (VDict {[ "error" :=
      VStr "Alpha Vantage rate limit – wait 60 seconds or use a different key" ]}))
  else
  time_series ← lift (contains "Time Series (Daily)" data);
  if negb time_series then
    mret (reply 500 (VDict {[ "error" := VStr "Unexpected response"; "raw" := data ]}))
  else
  success_path sv symbol data.

Definition lambda_handler (sv : services) (event : value) : M bucket response :=
  secret ← lift (get_secret_value sv "/api/key");
  api_key ← lift (getitem secret "api_key");
  symbol ← lift (get event "symbol" (VStr "TSLA") ≫= upper);
  match urlopen sv symbol api_key with
  | Raise e => mret (reply 500 (VDict {[ "error" := VStr (exn_str e) ]}))
  | Return data => classify sv symbol data
  end.

(** The handler got as far as a decoded payload: the secret was read,
    the symbol upper-cased, and the GET answered with [data]. *)
Definition fetched (sv : services) (event : value) (symbol : string) (data : value) : Prop :=
  ∃ secret api_key,
    get_secret_value sv "/api/key" = Return secret ∧
    getitem secret "api_key" = Return api_key ∧
    get event "symbol" (VStr "TSLA") ≫= upper = Return symbol ∧
    urlopen sv symbol api_key = Return data.

End Handler.

(** [k] is a key of the payload. *)
Definition has_key (k : string) (data : value) : Prop :=
  ∃ m, data = VDict m ∧ is_Some (m !! k).

End QuoteFetcher.

(** ** The chat proxy, [lambda_proxy_function.py] *)

Module ChatProxy.

(** *** The conversation store

    An item of the table [StockAgent-History], under its key [sessionId],
    as the store keeps it.  An attribute may be absent ([None]): the
    handlers read every one of them with [.get].  The six attributes
    that the handlers name hold what the handlers write into them:
    strings, whole numbers, and a list of message dicts.  [extra] holds
    the attributes that the handlers never name.

    [as_read] is the item as the table resource returns it: the numbers
    in its messages and in [extra] come back as [Decimal]s; so do
    [messageCount], [createdAt] and [updatedAt], which the one handler
    that reads them ([handle_list_conversations]) takes as such. *)
Module Item.
Record t := {
  title : option string;
  messages : option (list stored);
  lastMessage : option string;
  messageCount : option Z;
  createdAt : option Z;
  updatedAt : option Z;
  extra : gmap string stored
}.
Definition empty : t :=
  {| title := None; messages := None; lastMessage := None;
     messageCount := None; createdAt := None; updatedAt := None; extra := ∅ |}.
Definition as_read (it : t) : t :=
  {| title := title it;
     messages := (λ msgs : list stored, Py.as_read <$> msgs) <$> messages it;
     lastMessage := lastMessage it;
     messageCount := messageCount it;
     createdAt := createdAt it;
     updatedAt := updatedAt it;
     extra := Py.as_read <$> extra it |}.
End Item.

(** *** The agent's reply

    The bytes of a chunk are given by what [decode('utf-8')] makes of
    them: a text, or a [UnicodeDecodeError]. *)
Inductive decoded := Text (s : string) | Undecodable.

(** An event of the stream: a dict with a ['chunk'] (whose ['bytes'] may
    be absent), or without one. *)
Inductive event := Chunk (bytes : option decoded) | OtherEvent.

(** What the iterator does when the loop asks for the next event. *)
Inductive stream_item := Yield (ev : event) | Throw (e : exn).

Record agent_response := { completion : option (list stream_item) }.

(** *** The world of the chat proxy

    [db_fault n] is the exception, if any, that the [n]-th call to the
    store raises; [clock n] is the [n]-th reading of [time.time()], in
    seconds; [invoke_agent session text] is what the agent runtime does
    with a request, and [invoked] lists the requests made to it, the
    last one last.  Of the lines printed, [stdout] keeps the ones that
    report a failure or the stream timeout (not the dumps of the
    exception type and of the traceback). *)
Record world := {
  table : gmap string Item.t;
  db_fault : nat → option exn;
  db_calls : nat;
  clock : nat → Q;
  ticks : nat;
  invoke_agent : value → string → outcome agent_response;
  invoked : list (value * string);
  stdout : list string
}.

Definition set_table (f : gmap string Item.t → gmap string Item.t) (w : world) : world :=
  {| table := f (table w); db_fault := db_fault w; db_calls := db_calls w;
     clock := clock w; ticks := ticks w; invoke_agent := invoke_agent w;
     invoked := invoked w; stdout := stdout w |}.

Definition count_call (w : world) : world :=
  {| table := table w; db_fault := db_fault w; db_calls := S (db_calls w);
     clock := clock w; ticks := ticks w; invoke_agent := invoke_agent w;
     invoked := invoked w; stdout := stdout w |}.

Definition tick (w : world) : world :=
  {| table := table w; db_fault := db_fault w; db_calls := db_calls w;
     clock := clock w; ticks := S (ticks w); invoke_agent := invoke_agent w;
     invoked := invoked w; stdout := stdout w |}.

Definition write_line (line : string) (w : world) : world :=
  {| table := table w; db_fault := db_fault w; db_calls := db_calls w;
     clock := clock w; ticks := ticks w; invoke_agent := invoke_agent w;
     invoked := invoked w; stdout := (stdout w ++ [line])%list |}.

Definition log_invocation (session_id : value) (input_text : string) (w : world) : world :=
  {| table := table w; db_fault := db_fault w; db_calls := db_calls w;
     clock := clock w; ticks := ticks w; invoke_agent := invoke_agent w;
     invoked := (invoked w ++ [(session_id, input_text)])%list; stdout := stdout w |}.

Definition print (line : string) : M world unit := modify (write_line line).

(** [time.time()]. *)
Definition time_time : M world Q := λ w, (Return (clock w (ticks w)), tick w).

(** Every operation on the table is a call to the store, which may fail
    before it has any effect. *)
Definition store_call : M world unit := λ w,
  match db_fault w (db_calls w) with
  | Some e => (Raise e, count_call w)
  | None => (Return tt, count_call w)
  end.

(** Modelled from the spec: the key schema of the table, which the
    repository does not declare.  [sessionId] is a string (the primary
    key), so the store refuses a key of another type. *)
Definition key_of (session_id : value) : M world string :=
  match session_id with
  | VStr k => mret k
  | _ => raise (ClientError "ValidationException"
                  "The provided key element does not match the schema"
                  "An error occurred (ValidationException): The provided key element does not match the schema")
  end.

(** [table.get_item(Key={'sessionId': session_id})]: the ['Item'] of the
    reply, if it has one, as the resource returns it. *)
Definition get_item (session_id : value) : M world (option Item.t) :=
  store_call;;
  k ← key_of session_id;
  gets (λ w, Item.as_read <$> table w !! k).

(** [table.put_item(Item=...)]: the item replaces what the key held. *)
Definition put_item (session_id : value) (it : Item.t) : M world unit :=
  store_call;;
  k ← key_of session_id;
  modify (set_table (<[k := it]>)).

(** [table.update_item(Key=..., UpdateExpression='SET ...')]: [set]
    assigns the attributes named by the expression and leaves the others;
    an absent item is created with them. *)
Definition update_item (session_id : value) (set : Item.t → Item.t) : M world unit :=
  store_call;;
  k ← key_of session_id;
  modify (set_table (λ t, <[k := set (default Item.empty (t !! k))]> t)).

(** [table.delete_item(Key=...)]. *)
Definition delete_item (session_id : value) : M world unit :=
  store_call;;
  k ← key_of session_id;
  modify (set_table (delete k)).

(** [table.scan()]: the ['Items'] of the reply, in the store's order and
    as the resource returns them; the reply is taken to hold every item
    of the table. *)
Definition scan : M world (list (string * Item.t)) :=
  store_call;;
  gets (λ w, prod_map id Item.as_read <$> map_to_list (table w)).

(** *** Responses *)

Definition cors : list (string * string) :=
  [("Content-Type", "application/json"); ("Access-Control-Allow-Origin", "*")].

Definition reply (status : Z) (b : value) : response :=
  {| statusCode := status; isBase64Encoded := None; headers := Some cors; body := b |}.

Record context := { aws_request_id : string }.

(** *** [save_message_to_db] *)

Definition DEFAULT_TITLE : string := "New Chat".

Definition message (role content : string) (timestamp : Z) : stored :=
  SDict {[ "role" := SStr role; "content" := SStr content; "timestamp" := SInt timestamp ]}.

(** [not title]: the attribute is absent or the empty string. *)
Definition not_title (title : option string) : bool :=
  match title with
  | Some s => String.eqb s ""
  | None => true
  end.

(** [user_message[:50] if len(user_message) > 0 else 'New Chat']. *)
Definition title_of (user_message : string) : string :=
  if (0 <? String.length user_message)%nat then slice_to 50 user_message
  else DEFAULT_TITLE.

(** The title that the update branch writes (lines 164 to 167). *)
Definition updated_title (title : option string) (user_message : string) : string :=
  if not_title title || bool_decide (title = Some DEFAULT_TITLE)
  then title_of user_message
  else default "" title.

(** The [SET] of line 171. *)
Definition set_conversation (msgs : list stored) (last : string) (count updated : Z)
    (new_title : string) (it : Item.t) : Item.t :=
  {| Item.title := Some new_title;
     Item.messages := Some msgs;
     Item.lastMessage := Some last;
     Item.messageCount := Some count;
     Item.createdAt := Item.createdAt it;
     Item.updatedAt := Some updated;
     Item.extra := Item.extra it |}.

(** [int(now * 1000)] for a reading [now] of the clock: the product is
    the float product. *)
Definition millis (now : Q) : outcome Z :=
  int_of_float (float_mul (float_of_Q now) (binary64 1000 0)).

Arguments millis : simpl never.

Definition save_message_to_db (session_id : value) (user_message bot_response : string)
  : M world unit :=
  try_except
    (now ← time_time;
     timestamp ← lift (millis now);
     found ← get_item session_id;
     match found with
     | Some it =>
         let messages := default [] (Item.messages it) in
         let messages := (messages ++ [message "user" user_message timestamp])%list in
         let messages :=
           (messages ++ [message "assistant" bot_response (timestamp + 1)])%list in
         let title := updated_title (Item.title it) user_message in
         update_item session_id
           (set_conversation messages (slice_to 100 bot_response)
              (Z.of_nat (length messages)) timestamp title)
     | None =>
         let messages := [message "user" user_message timestamp;
                          message "assistant" bot_response (timestamp + 1)] in
         put_item session_id
           {| Item.title := Some (title_of user_message);
              Item.messages := Some messages;
              Item.lastMessage := Some (slice_to 100 bot_response);
              Item.messageCount := Some 2;
              Item.createdAt := Some timestamp;
              Item.updatedAt := Some timestamp;
              Item.extra := ∅ |}
     end)
    (λ e,
      print ("❌ Error saving to DynamoDB: " ++ exn_str e);;
      raise e).

(** *** [handle_send_message] *)

(** [time.time() - stream_start > 30]. *)
Definition timed_out (stream_start now : Q) : bool :=
  negb (Qle_bool (now - stream_start) 30).

(** The loop of lines 82 to 93 over the events still to come, with the
    text accumulated so far. *)
Fixpoint accumulate (stream_start : Q) (events : list stream_item) (completion : string)
  : M world string :=
  match events with
  | [] => mret completion
  | item :: events' =>
      match item with
      | Throw e => raise e
      | Yield ev =>
          now ← time_time;
          if timed_out stream_start now then
            print "Stream timeout after 30s";;
            mret completion
          else
            match ev with
            | Chunk (Some (Text text)) => accumulate stream_start events' (completion ++ text)
            | Chunk (Some Undecodable) => accumulate stream_start events' completion
            | Chunk None => accumulate stream_start events' completion
            | OtherEvent => accumulate stream_start events' completion
            end
      end
  end.

Definition NO_RESPONSE : string := "Agent returned no response. Try rephrasing your query.".

(** [try: m except ClientError as e: h code msg], with the code and the
    message of [e.response['Error']]; another exception goes through. *)
Definition try_except_ClientError {A} (m : M world A) (h : string → string → M world A)
  : M world A := λ w,
  match m w with
  | (Raise (ClientError code msg _), w') => h code msg w'
  | r => r
  end.

Definition send_headers : list (string * string) :=
  [("Content-Type", "application/json");
   ("Access-Control-Allow-Origin", "*");
   ("Access-Control-Allow-Headers", "Content-Type,x-api-key");
   ("Access-Control-Allow-Methods", "POST,OPTIONS")].

(** The response of lines 108 to 121. *)
Definition ok_response (text : string) (session_id : value) : response :=
  {| statusCode := 200; isBase64Encoded := Some false;
     headers := Some send_headers;
     body := VDict {[ "response" := VStr text; "sessionId" := session_id ]} |}.

(** Lines 100 to 106: the save, whose failure is reported and dropped. *)
Definition save_best_effort (session_id : value) (user_message bot_response : string)
  : M world unit :=
  try_except
    (save_message_to_db session_id user_message bot_response)
    (λ save_error,
      print ("Failed to save message (non-critical): " ++ exn_str save_error)).

(** Lines 71 to 98: the agent is invoked and its stream accumulated; a
    blank text gives way to the fixed notice. *)
Definition agent_reply (session_id : value) (user_message : string) : M world string :=
  response ← (λ w, (invoke_agent w session_id user_message,
                    log_invocation session_id user_message w));
  stream_start ← time_time;
  completion ← accumulate stream_start (default [] (completion response)) "";
  mret (if String.eqb (strip completion) "" then NO_RESPONSE else completion).

Definition handle_send_message (body : value) (ctx : context) : M world response :=
  user_message ← lift (get body "message" (VStr "") ≫= strip_method);
  session_id ← lift (get body "sessionId" (VStr ("session-" ++ aws_request_id ctx)));
  if String.eqb user_message "" then
    mret {| statusCode := 400; isBase64Encoded := Some false; headers := Some cors;
            body := VDict {[ "error" := VStr "Empty message" ]} |}
  else
    try_except_ClientError
      (completion ← agent_reply session_id user_message;
       save_best_effort session_id user_message (strip completion);;
       mret (ok_response (strip completion) session_id))
      (λ error_code error_msg,
        print ("Bedrock ClientError " ++ error_code ++ ": " ++ error_msg);;
        mret (reply 500 (VDict {[ "error" := VStr "Bedrock service error";
                                  "details" := VStr error_msg ]}))).

(** The text that the chunks of a stream carry: what decodes, in order. *)
Definition chunk_text (ev : event) : string :=
  match ev with
  | Chunk (Some (Text text)) => text
  | _ => ""
  end.

Definition texts (events : list event) : string :=
  foldr (λ ev rest, chunk_text ev ++ rest) "" events.

(** The text that goes into the response when [text] was accumulated. *)
Definition response_text (text : string) : string :=
  strip (if String.eqb (strip text) "" then NO_RESPONSE else text).

(** Modelled from the spec's words, to be compared with [accumulate]: the
    budget is "measured from the arrival of the first chunk", so the
    start is the reading at which the first chunk is there. *)
Fixpoint accumulate_from_first_chunk (events : list stream_item) (completion : string)
  : M world string :=
  match events with
  | [] => mret completion
  | Throw e :: _ => raise e
  | Yield (Chunk _) :: _ =>
      λ w, accumulate (clock w (ticks w)) events completion w
  | Yield OtherEvent :: events' =>
      time_time;;
      accumulate_from_first_chunk events' completion
  end.

(** The item that a save leaves under the key, given what was there:
    the messages found come back as they were read. *)
Definition saved (found : option Item.t) (user_message bot_response : string)
    (timestamp : Z) : Item.t :=
  match found with
  | Some it =>
      set_conversation
        ((as_read <$> default [] (Item.messages it)) ++
           [message "user" user_message timestamp;
            message "assistant" bot_response (timestamp + 1)])%list
        (slice_to 100 bot_response)
        (Z.of_nat (length (default [] (Item.messages it))) + 2)
        timestamp (updated_title (Item.title it) user_message) it
  | None =>
      {| Item.title := Some (title_of user_message);
         Item.messages := Some [message "user" user_message timestamp;
                                message "assistant" bot_response (timestamp + 1)];
         Item.lastMessage := Some (slice_to 100 bot_response);
         Item.messageCount := Some 2;
         Item.createdAt := Some timestamp;
         Item.updatedAt := Some timestamp;
         Item.extra := ∅ |}
  end.

(** A computation that leaves the table alone, whatever it returns or
    raises. *)
Definition keeps_table {A} (m : M world A) : Prop :=
  ∀ w, table (m w).2 = table w.

(** A computation that lets no exception out. *)
Definition always_returns {A} (m : M world A) : Prop :=
  ∀ w, ∃ a, (m w).1 = Return a.

(** Successive sends to one session, as far as the store goes: each
    exchange (user message, response) is saved as line 102 saves it. *)
Fixpoint save_each (session_id : value) (exchanges : list (string * string))
  : M world unit :=
  match exchanges with
  | [] => mret tt
  | (user_message, bot_response) :: exchanges' =>
      save_best_effort session_id user_message bot_response;;
      save_each session_id exchanges'
  end.

(** *** [handle_list_conversations] *)

(** The dict of lines 299 to 305.  The two numbers are [Decimal]s when
    they come from the item and the [int] 0 when they are defaults. *)
Module Conversation.
Record t := {
  sessionId : string;
  title : string;
  lastMessage : string;
  timestamp : number;
  messageCount : number
}.
(** [json.dumps] on the dict. *)
Definition dumps (c : t) : outcome value :=
  timestamp ← dumps_number (timestamp c);
  messageCount ← dumps_number (messageCount c);
  Return (VDict {[ "sessionId" := VStr (sessionId c);
                   "title" := VStr (title c);
                   "lastMessage" := VStr (lastMessage c);
                   "timestamp" := timestamp;
                   "messageCount" := messageCount ]}).
End Conversation.

(** The dict of lines 299 to 305, for the item [it] read under the key
    [k]. *)
Definition project (entry : string * Item.t) : Conversation.t :=
  let '(k, it) := entry in
  {| Conversation.sessionId := k;
     Conversation.title := default DEFAULT_TITLE (Item.title it);
     Conversation.lastMessage := default "" (Item.lastMessage it);
     Conversation.timestamp :=
       from_option Decimal (from_option Decimal (Int 0) (Item.createdAt it))
         (Item.updatedAt it);
     Conversation.messageCount := from_option Decimal (Int 0) (Item.messageCount it) |}.

(** [x] may stand before [y] under [sort(key=timestamp, reverse=True)]:
    an [int] and a [Decimal] compare by what they are worth. *)
Definition newer_first (x y : Conversation.t) : bool :=
  Z.leb (number_value (Conversation.timestamp y)) (number_value (Conversation.timestamp x)).

Definition handle_list_conversations : M world response :=
  try_except
    (items ← scan;
     let conversations := project <$> items in
     let conversations := sort newer_first conversations in
     body ← lift (conversations ← mapM Conversation.dumps conversations;
                  Return (VDict {[ "conversations" := VList conversations ]}));
     mret (reply 200 body))
    (λ e,
      print ("Error listing conversations: " ++ exn_str e);;
      mret (reply 500 (VDict {[ "error" := VStr (exn_str e) ]}))).

(** The conversations that the list handler has sorted when it comes to
    line 310. *)
Definition listed (w : world) : list Conversation.t :=
  sort newer_first (project <$> (prod_map id Item.as_read <$> map_to_list (table w))).

(** The JSON document of a projection whose two numbers are the
    defaults. *)
Definition plain (c : Conversation.t) : value :=
  VDict {[ "sessionId" := VStr (Conversation.sessionId c);
           "title" := VStr (Conversation.title c);
           "lastMessage" := VStr (Conversation.lastMessage c);
           "timestamp" := VInt 0;
           "messageCount" := VInt 0 ]}.

(** *** [handle_delete_conversation] and [handle_rename_conversation] *)

Definition handle_delete_conversation (body : value) : M world response :=
  try_except
    (session_id ← lift (get body "sessionId" VNone);
     if negb (truthy session_id) then
       mret (reply 400 (VDict {[ "error" := VStr "sessionId required" ]}))
     else
       delete_item session_id;;
       mret (reply 200 (VDict {[ "success" := VBool true ]})))
    (λ e,
      print ("Error deleting conversation: " ++ exn_str e);;
      mret (reply 500 (VDict {[ "error" := VStr (exn_str e) ]}))).

(** The [SET title = :title] of line 375. *)
Definition set_title (new_title : string) (it : Item.t) : Item.t :=
  {| Item.title := Some new_title;
     Item.messages := Item.messages it;
     Item.lastMessage := Item.lastMessage it;
     Item.messageCount := Item.messageCount it;
     Item.createdAt := Item.createdAt it;
     Item.updatedAt := Item.updatedAt it;
     Item.extra := Item.extra it |}.

Definition handle_rename_conversation (body : value) : M world response :=
  try_except
    (session_id ← lift (get body "sessionId" VNone);
     new_title ← lift (get body "title" (VStr "") ≫= strip_method);
     if negb (truthy session_id) then
       mret (reply 400 (VDict {[ "error" := VStr "sessionId required" ]}))
     else if String.eqb new_title "" then
       mret (reply 400 (VDict {[ "error" := VStr "title required" ]}))
     else
       update_item session_id (set_title new_title);;
       mret (reply 200 (VDict {[ "success" := VBool true ]})))
    (λ e,
      print ("Error renaming conversation: " ++ exn_str e);;
      mret (reply 500 (VDict {[ "error" := VStr (exn_str e) ]}))).

(** *** [handle_load_conversation] and the dispatcher *)

(** The dict appended to [formatted_messages] (lines 252 to 270): the
    role and the content are what the message holds. *)
Module Formatted.
Record t := {
  role : stored;
  content : stored;
  timestamp : string
}.
(** [json.dumps] on the dict. *)
Definition dumps (f : t) : outcome value :=
  role ← Py.dumps (role f);
  content ← Py.dumps (content f);
  Return (VDict {[ "role" := role; "content" := content;
                   "timestamp" := VStr (timestamp f) ]}).
End Formatted.

Section Formatting.
(** Taken as given: [datetime.fromtimestamp(x).isoformat()] in the
    local time zone, [str(v)] on a value of the request and on a value
    of the store, and [json.loads]. *)
Variable isoformat : Q → outcome string.
Variable str_of : value → string.
Variable str_of_stored : stored → string.
Variable json_loads : value → outcome value.

(** [isinstance(ts, (int, float))], with the number it is: a [bool] is
    an [int], a [Decimal] is not. *)
Definition number (ts : stored) : option Q :=
  match ts with
  | SInt n => Some (inject_Z n)
  | SBool b => Some (inject_Z (if b then 1 else 0))
  | _ => None
  end.

(** The body of the loop of lines 246 to 270. *)
Definition format_message (msg : stored) : M world Formatted.t :=
  try_except
    (ts ← lift (stored_get msg "timestamp" (SInt 0));
     role ← lift (stored_get msg "role" (SStr "user"));
     content ← lift (stored_get msg "content" (SStr ""));
     match number ts with
     | Some q =>
         timestamp ← lift (isoformat (q / 1000)%Q);
         mret {| Formatted.role := role; Formatted.content := content;
                 Formatted.timestamp := timestamp |}
     | None =>
         mret {| Formatted.role := role; Formatted.content := content;
                 Formatted.timestamp := str_of_stored ts |}
     end)
    (λ ts_error,
      print ("Error formatting message timestamp: " ++ exn_str ts_error);;
      role ← lift (stored_get msg "role" (SStr "user"));
      content ← lift (stored_get msg "content" (SStr ""));
      now ← time_time;
      timestamp ← lift (isoformat now);
      mret {| Formatted.role := role; Formatted.content := content;
              Formatted.timestamp := timestamp |}).

Fixpoint format_messages (msgs : list stored) : M world (list Formatted.t) :=
  match msgs with
  | [] => mret []
  | msg :: msgs' =>
      m ← format_message msg;
      ms ← format_messages msgs';
      mret (m :: ms)
  end.

Definition handle_load_conversation (body : value) : M world response :=
  try_except
    (session_id ← lift (get body "sessionId" VNone);
     if negb (truthy session_id) then
       print "❌ No sessionId provided";;
       mret (reply 400 (VDict {[ "error" := VStr "sessionId required" ]}))
     else
       found ← get_item session_id;
       match found with
       | None =>
           print ("❌ No item found for sessionId: " ++ str_of session_id);;
           mret (reply 200 (VDict {[ "messages" := VList [] ]}))
       | Some item =>
           let messages := default [] (Item.messages item) in
           formatted_messages ← format_messages messages;
           body ← lift (messages ← mapM Formatted.dumps formatted_messages;
                        Return (VDict {[ "messages" := VList messages ]}));
           mret (reply 200 body)
       end)
    (λ e,
      print ("❌ Error loading conversation: " ++ exn_str e);;
      mret (reply 500 (VDict {[ "error" := VStr (exn_str e) ]}))).

Definition is_JSONDecodeError (e : exn) : bool :=
  match e with
  | PyError cls _ => String.eqb cls "JSONDecodeError"
  | ClientError _ _ _ => false
  end.

Definition lambda_handler (event : value) (ctx : context) : M world response :=
  try_except
    (text ← lift (get event "body" (VStr "{}"));
     body ← lift (json_loads text);
     action ← lift (get body "action" (VStr "send"));
     if eq_str action "send" then handle_send_message body ctx
     else if eq_str action "load" then handle_load_conversation body
     else if eq_str action "list" then handle_list_conversations
     else if eq_str action "delete" then handle_delete_conversation body
     else if eq_str action "rename" then handle_rename_conversation body
     else mret (reply 400 (VDict {[ "error" := VStr ("Unknown action: " ++ str_of action) ]})))
    (λ e,
      if is_JSONDecodeError e then
        mret (reply 400 (VDict {[ "error" := VStr "Invalid JSON in request" ]}))
      else
        print ("Unexpected error: " ++ exn_str e);;
        mret (reply 500 (VDict {[ "error" := VStr "Internal server error" ]}))).

End Formatting.

End ChatProxy.

(** ** Sample inputs

    Concrete services, payloads and worlds on which the handlers are run
    below. *)

Module Samples.

(** Services that know the key, answer every GET with [data] and
    accept every put. *)
Definition services_with (data : value) : QuoteFetcher.services :=
  {| QuoteFetcher.get_secret_value := λ _, Return (VDict {[ "api_key" := VStr "demo" ]});
     QuoteFetcher.urlopen := λ _ _, Return data;
     QuoteFetcher.put_object := λ _ _, Return tt |}.

Definition ibm_event : value := VDict {[ "symbol" := VStr "IBM" ]}.

(** A parser of decimal integers without sign, enough for the samples. *)
Fixpoint digits (acc : Z) (s : string) : option Z :=
  match s with
  | EmptyString => Some acc
  | String c s' =>
      let n := Z.of_N (N_of_ascii c) in
      if (48 <=? n) && (n <=? 57) then digits (10 * acc + (n - 48)) s' else None
  end.
Definition parse_int (s : string) : option Z :=
  match s with
  | EmptyString => None
  | _ => digits 0 s
  end.
Definition parse_float (s : string) : option spec_float :=
  (λ n, binary64 n 0) <$> parse_int s.

Definition bar (price : string) : value :=
  VDict {[ "1. open" := VStr price; "2. high" := VStr price; "3. low" := VStr price;
           "4. close" := VStr price; "5. adjusted close" := VStr price;
           "6. volume" := VStr "1000" ]}.

(** The series of the specification's example: two dates. *)
Definition two_days : value :=
  VDict {[ "Meta Data" := VDict ∅;
           "Time Series (Daily)" :=
             VDict {[ "2024-01-01" := bar "101"; "2024-01-02" := bar "102" ]} ]}.

(** A rate-limit note next to a valid series. *)
Definition limited : gmap string value :=
  {[ "Note" := VStr "Thank you for using Alpha Vantage!";
     "Time Series (Daily)" :=
       VDict {[ "2024-01-01" := bar "101"; "2024-01-02" := bar "102" ]} ]}.

(** Services that know the key and whose GET fails with a timeout. *)
Definition services_offline : QuoteFetcher.services :=
  {| QuoteFetcher.get_secret_value := λ _, Return (VDict {[ "api_key" := VStr "demo" ]});
     QuoteFetcher.urlopen := λ _ _, Raise (PyError "URLError" "<urlopen error timed out>");
     QuoteFetcher.put_object := λ _ _, Return tt |}.

(** A payload whose series is empty. *)
Definition no_days : gmap string value :=
  {[ "Meta Data" := VDict ∅; "Time Series (Daily)" := VDict ∅ ]}.

(** The payload of an unknown symbol. *)
Definition unknown_symbol : gmap string value :=
  {[ "Error Message" := VStr "Invalid API call." ]}.

(** A world whose store holds [t] and never fails, whose clock reads
    [clock], and whose agent answers every request with [stream]. *)
Definition world_with (t : gmap string ChatProxy.Item.t) (clock : nat → Q)
    (stream : list ChatProxy.stream_item) : ChatProxy.world :=
  {| ChatProxy.table := t;
     ChatProxy.db_fault := λ _, None;
     ChatProxy.db_calls := 0;
     ChatProxy.clock := clock;
     ChatProxy.ticks := 0;
     ChatProxy.invoke_agent := λ _ _, Return {| ChatProxy.completion := Some stream |};
     ChatProxy.invoked := [];
     ChatProxy.stdout := [] |}.

(** The same world with a store that is down. *)
Definition world_down (clock : nat → Q) (stream : list ChatProxy.stream_item)
  : ChatProxy.world :=
  {| ChatProxy.table := ∅;
     ChatProxy.db_fault := λ _, Some (ClientError "ServiceUnavailable" "down" "store is down");
     ChatProxy.db_calls := 0;
     ChatProxy.clock := clock;
     ChatProxy.ticks := 0;
     ChatProxy.invoke_agent := λ _ _, Return {| ChatProxy.completion := Some stream |};
     ChatProxy.invoked := [];
     ChatProxy.stdout := [] |}.

(** What a throttled agent runtime raises. *)
Definition throttling : exn :=
  ClientError "ThrottlingException" "Rate exceeded"
    "An error occurred (ThrottlingException): Rate exceeded".

(** A world whose store holds [t] and never fails, whose clock counts
    seconds, and whose agent does [agent]. *)
Definition world_of (t : gmap string ChatProxy.Item.t)
    (agent : value → string → outcome ChatProxy.agent_response) : ChatProxy.world :=
  {| ChatProxy.table := t;
     ChatProxy.db_fault := λ _, None;
     ChatProxy.db_calls := 0;
     ChatProxy.clock := λ n, inject_Z (Z.of_nat n);
     ChatProxy.ticks := 0;
     ChatProxy.invoke_agent := agent;
     ChatProxy.invoked := [];
     ChatProxy.stdout := [] |}.

(** A clock that reads one second more at every reading. *)
Definition seconds (n : nat) : Q := inject_Z (Z.of_nat n).

(** A clock that stands at the float next to 1700000000.123. *)
Definition november (n : nat) : Q := 7130316800515899 # 4194304.

(** A conversation whose title is [title], with no other attribute. *)
Definition titled (title : string) : ChatProxy.Item.t :=
  {| ChatProxy.Item.title := Some title; ChatProxy.Item.messages := None;
     ChatProxy.Item.lastMessage := None; ChatProxy.Item.messageCount := None;
     ChatProxy.Item.createdAt := None; ChatProxy.Item.updatedAt := None;
     ChatProxy.Item.extra := ∅ |}.

(** A conversation as a first send leaves it, created at [created], with
    one attribute more, which the handlers do not know. *)
Definition started (created : Z) : ChatProxy.Item.t :=
  {| ChatProxy.Item.title := Some "Price of IBM";
     ChatProxy.Item.messages :=
       Some [ChatProxy.message "user" "Price of IBM" created;
             ChatProxy.message "assistant" "It closed at 101." (created + 1)];
     ChatProxy.Item.lastMessage := Some "It closed at 101.";
     ChatProxy.Item.messageCount := Some 2;
     ChatProxy.Item.createdAt := Some created;
     ChatProxy.Item.updatedAt := Some created;
     ChatProxy.Item.extra := {[ "pinned" := SBool true ]} |}.

(** A record whose messages are [msgs], as another writer may have
    left it. *)
Definition with_messages (msgs : list stored) : ChatProxy.Item.t :=
  {| ChatProxy.Item.title := Some "Imported"; ChatProxy.Item.messages := Some msgs;
     ChatProxy.Item.lastMessage := None; ChatProxy.Item.messageCount := None;
     ChatProxy.Item.createdAt := None; ChatProxy.Item.updatedAt := None;
     ChatProxy.Item.extra := ∅ |}.

(** A formatter of times that overflows after the first second. *)
Definition isoformat_first_second (q : Q) : outcome string :=
  if Qle_bool q 1 then Return "1970-01-01T00:00:00"
  else Raise (PyError "OverflowError" "timestamp out of range").

Definition answer : list ChatProxy.stream_item :=
  [ChatProxy.Yield (ChatProxy.Chunk (Some (ChatProxy.Text "It closed ")));
   ChatProxy.Yield (ChatProxy.Chunk (Some (ChatProxy.Text "at 102.")))].

Definition send_body : value :=
  VDict {[ "action" := VStr "send"; "message" := VStr " And today? ";
           "sessionId" := VStr "s1" ]}.

Definition request : ChatProxy.context := {| ChatProxy.aws_request_id := "r-1" |}.

End Samples.

(** * Properties *)

(** ** The order on strings and the sort *)

Lemma ascii_compare_refl (c : ascii) : Ascii.compare c c = Eq.
Proof. apply N.compare_refl. Qed.

Lemma ascii_compare_Lt_trans (a b c : ascii) :
  Ascii.compare a b = Lt → Ascii.compare b c = Lt → Ascii.compare a c = Lt.
Proof.
  unfold Ascii.compare. rewrite !N.compare_lt_iff. apply N.lt_trans.
Qed.

Lemma string_compare_refl (s : string) : String.compare s s = Eq.
Proof.
  induction s as [|c s IH]; [done|]. simpl. by rewrite ascii_compare_refl.
Qed.

Lemma string_compare_Lt_trans (s1 s2 s3 : string) :
  String.compare s1 s2 = Lt → String.compare s2 s3 = Lt → String.compare s1 s3 = Lt.
Proof.
  revert s2 s3. induction s1 as [|a s1 IH]; intros [|b s2] [|c s3]; simpl; try done.
  destruct (Ascii.compare a b) eqn:Hab; try done.
  - apply Ascii.compare_eq_iff in Hab as ->.
    destruct (Ascii.compare b c); try done. apply IH.
  - destruct (Ascii.compare b c) eqn:Hbc; try done.
    + apply Ascii.compare_eq_iff in Hbc as <-. by rewrite Hab.
    + by rewrite (ascii_compare_Lt_trans a b c).
Qed.

Lemma string_leb_refl (s : string) : String.leb s s = true.
Proof. unfold String.leb. by rewrite string_compare_refl. Qed.

Lemma string_leb_trans (s1 s2 s3 : string) :
  String.leb s1 s2 = true → String.leb s2 s3 = true → String.leb s1 s3 = true.
Proof.
  unfold String.leb.
  destruct (String.compare s1 s2) eqn:H12; try done;
    destruct (String.compare s2 s3) eqn:H23; try done; intros _ _.
  - apply String.compare_eq_iff in H12 as ->. by rewrite H23.
  - apply String.compare_eq_iff in H12 as ->. by rewrite H23.
  - apply String.compare_eq_iff in H23 as <-. by rewrite H12.
  - by rewrite (string_compare_Lt_trans s1 s2 s3).
Qed.

Section SortFacts.
Context {A : Type} (le : A → A → bool).

Lemma insert_sorted_perm (x : A) (l : list A) : insert_sorted le x l ≡ₚ x :: l.
Proof.
  induction l as [|y l IH]; simpl; [done|].
  destruct (le x y); [done|]. rewrite IH. apply Permutation_swap.
Qed.

Lemma sort_perm (l : list A) : sort le l ≡ₚ l.
Proof.
  induction l as [|x l IH]; simpl; [done|].
  by rewrite insert_sorted_perm, IH.
Qed.

Hypothesis le_total : ∀ x y, le x y = true ∨ le y x = true.
Hypothesis le_trans : ∀ x y z, le x y = true → le y z = true → le x z = true.

Lemma insert_sorted_sorted (x : A) (l : list A) :
  StronglySorted (λ a b, le a b = true) l →
  StronglySorted (λ a b, le a b = true) (insert_sorted le x l).
Proof.
  induction 1 as [|y l Hl IH Hy]; simpl.
  - repeat constructor.
  - destruct (le x y) eqn:Hxy.
    + constructor; [by constructor|].
      constructor; [done|].
      eapply Forall_impl; [exact Hy|]. intros z Hz. by eapply le_trans.
    + constructor; [done|].
      rewrite insert_sorted_perm. constructor; [|done].
      destruct (le_total x y); congruence.
Qed.

Lemma sort_sorted (l : list A) : StronglySorted (λ a b, le a b = true) (sort le l).
Proof.
  induction l as [|x l IH]; simpl; [constructor|].
  by apply insert_sorted_sorted.
Qed.

(** The first element of a sorted list may stand before every element
    of the list that was sorted. *)
Lemma sort_first (l : list A) (x : A) :
  (∀ a, le a a = true) →
  first (sort le l) = Return x → x ∈ l ∧ ∀ y, y ∈ l → le x y = true.
Proof.
  intros le_refl Hfirst.
  pose proof (sort_sorted l) as Hs. pose proof (sort_perm l) as Hp.
  destruct (sort le l) as [|x' l'] eqn:E; simpl in Hfirst; [done|].
  injection Hfirst as ->.
  apply StronglySorted_inv in Hs as [_ Hx]. split.
  - rewrite <- Hp. left.
  - intros y Hy. rewrite <- Hp in Hy.
    apply elem_of_cons in Hy as [->|Hy]; [done|].
    rewrite Forall_forall in Hx. by apply Hx.
Qed.
End SortFacts.

(** [sorted(l)[0]] is the smallest string of [l]. *)
Lemma sorted_first (l : list string) (x : string) :
  first (sorted l) = Return x → x ∈ l ∧ ∀ y, y ∈ l → String.leb x y = true.
Proof.
  apply sort_first.
  - apply String.leb_total.
  - apply string_leb_trans.
  - apply string_leb_refl.
Qed.

(** ** Running the monads *)

Lemma bind_Return {S A B} (m : M S A) (f : A → M S B) (s s' : S) (b : B) :
  (m ≫= f) s = (Return b, s') → ∃ a s1, m s = (Return a, s1) ∧ f a s1 = (Return b, s').
Proof.
  unfold mbind, M_bind. destruct (m s) as [[a|e] s1]; [eauto|done].
Qed.

Lemma bind_run {S A B} (m : M S A) (f : A → M S B) (s s1 : S) (a : A) :
  m s = (Return a, s1) → (m ≫= f) s = f a s1.
Proof. unfold mbind, M_bind. by intros ->. Qed.

Lemma bind_raise {S A B} (m : M S A) (f : A → M S B) (s s1 : S) (e : exn) :
  m s = (Raise e, s1) → (m ≫= f) s = (Raise e, s1).
Proof. unfold mbind, M_bind. by intros ->. Qed.

Lemma lift_Return {S A} (o : outcome A) (s s' : S) (a : A) :
  lift o s = (Return a, s') → o = Return a ∧ s' = s.
Proof. unfold lift. by intros [= -> ->]. Qed.

(** ** The quote fetcher *)

Section QuoteFetcherFacts.
Import QuoteFetcher.
Context (str_upper : string → string).
Context (parse_float : string → option spec_float) (parse_int : string → option Z).

(** Once the payload is there, the handler is its classification. *)
Lemma lambda_handler_fetched sv event symbol data (b : bucket) :
  fetched str_upper sv event symbol data →
  lambda_handler str_upper parse_float parse_int sv event b
  = classify parse_float parse_int sv symbol data b.
Proof.
  intros (secret & api_key & Hsecret & Hkey & Hsymbol & Hget).
  unfold lambda_handler.
  erewrite bind_run; [|unfold lift; by rewrite Hsecret].
  erewrite bind_run; [|unfold lift; by rewrite Hkey].
  erewrite bind_run; [|unfold lift; by rewrite Hsymbol].
  by rewrite Hget.
Qed.

(** A handler that returns has fetched a payload or reports the failure
    of the GET. *)
Lemma lambda_handler_Return sv event (b b' : bucket) r :
  lambda_handler str_upper parse_float parse_int sv event b = (Return r, b') →
  (∃ symbol data, fetched str_upper sv event symbol data ∧
     classify parse_float parse_int sv symbol data b = (Return r, b')) ∨
  statusCode r = 500.
Proof.
  unfold lambda_handler. intros H.
  apply bind_Return in H as (secret & b1 & [Hsecret ->]%lift_Return & H).
  apply bind_Return in H as (api_key & b2 & [Hkey ->]%lift_Return & H).
  apply bind_Return in H as (symbol & b3 & [Hsymbol ->]%lift_Return & H).
  destruct (urlopen sv symbol api_key) as [data|e] eqn:Hget.
  - left. exists symbol, data. split; [|done]. by exists secret, api_key.
  - right. by injection H as <- _.
Qed.

Lemma classify_dict sv symbol (m : gmap string value) (b : bucket) :
  classify parse_float parse_int sv symbol (VDict m) b =
  if bool_decide (is_Some (m !! "Error Message")) then
    (Return (reply 400 (VDict {[ "error" := VStr ("Invalid symbol: " ++ symbol) ]})), b)
  else if bool_decide (is_Some (m !! "Note")) || bool_decide (is_Some (m !! "Information")) then
    (Return (reply 429 (VDict {[ "error" :=
       VStr "Alpha Vantage rate limit – wait 60 seconds or use a different key" ]})), b)
  else if bool_decide (is_Some (m !! "Time Series (Daily)")) then
    success_path parse_float parse_int sv symbol (VDict m) b
  else
    (Return (reply 500 (VDict {[ "error" := VStr "Unexpected response";
                                 "raw" := VDict m ]})), b).
Proof.
  unfold classify, mbind, M_bind, lift, contains.
  destruct (bool_decide (is_Some (m !! "Error Message"))); [done|].
  destruct (bool_decide (is_Some (m !! "Note"))); simpl; [done|].
  destruct (bool_decide (is_Some (m !! "Information"))); simpl; [done|].
  by destruct (bool_decide (is_Some (m !! "Time Series (Daily)"))).
Qed.

(** A payload that gets through the three checks into the success path
    and out of it is a dict. *)
Lemma classify_200 sv symbol data (b b' : bucket) r :
  classify parse_float parse_int sv symbol data b = (Return r, b') →
  statusCode r = 200 →
  success_path parse_float parse_int sv symbol data b = (Return r, b').
Proof.
  unfold classify. intros H Hr.
  apply bind_Return in H as ([] & b1 & [_ ->]%lift_Return & H);
    [injection H as <- _; done|].
  apply bind_Return in H as (note & b1 & [_ ->]%lift_Return & H).
  apply bind_Return in H as ([] & b1 & Hlimited & H);
    [injection H as <- _; done|].
  assert (b1 = b) as ->.
  { destruct note; [by injection Hlimited|by apply lift_Return in Hlimited as [_ ->]]. }
  apply bind_Return in H as ([] & b1 & [_ ->]%lift_Return & H); simpl in H; [done|].
  by injection H as <- _.
Qed.

Lemma success_path_Return sv symbol data (b b' : bucket) r :
  success_path parse_float parse_int sv symbol data b = (Return r, b') →
  ∃ (m series : gmap string value) date bar open high low close volume,
    data = VDict m ∧
    m !! "Time Series (Daily)" = Some (VDict series) ∧
    first (sorted (map_to_list series).*1) = Return date ∧
    series !! date = Some bar ∧
    getitem bar "1. open" ≫= float parse_float = Return open ∧
    getitem bar "2. high" ≫= float parse_float = Return high ∧
    getitem bar "3. low" ≫= float parse_float = Return low ∧
    getitem bar "4. close" ≫= float parse_float = Return close ∧
    getitem bar "6. volume" ≫= int parse_int = Return volume ∧
    r = reply 200 (daily_bar symbol date open high low close volume) ∧
    b' = <[symbol ++ ".json" := data]> b.
Proof.
  unfold success_path. intros H.
  apply bind_Return in H as (time_series & b1 & [Hts ->]%lift_Return & H).
  apply bind_Return in H as (ks & b1 & [Hks ->]%lift_Return & H).
  apply bind_Return in H as (date & b1 & [Hdate ->]%lift_Return & H).
  apply bind_Return in H as (bar & b1 & [Hbar ->]%lift_Return & H).
  apply bind_Return in H as (open & b1 & [Hopen ->]%lift_Return & H).
  apply bind_Return in H as (high & b1 & [Hhigh ->]%lift_Return & H).
  apply bind_Return in H as (low & b1 & [Hlow ->]%lift_Return & H).
  apply bind_Return in H as (close & b1 & [Hclose ->]%lift_Return & H).
  apply bind_Return in H as (volume & b1 & [Hvolume ->]%lift_Return & H).
  apply bind_Return in H as ([] & b1 & [_ ->]%lift_Return & H).
  apply bind_Return in H as ([] & b1 & Hput & H).
  injection Hput as <-. injection H as <- <-.
  destruct data as [| | | | | |m]; try done. simpl in Hts.
  destruct (m !! "Time Series (Daily)") as [ts|] eqn:Hm; [|done].
  injection Hts as ->.
  destruct time_series as [| | | | | |series]; try done.
  injection Hks as <-. simpl in Hbar.
  destruct (series !! date) as [bar'|] eqn:Hseries; [|done].
  injection Hbar as ->.
  by exists m, series, date, bar, open, high, low, close, volume.
Qed.
End QuoteFetcherFacts.

(** C1, as stated, fails on a payload that is not an object: [null] has
    none of the four keys, and the handler raises [TypeError] at the first
    membership test instead of returning 500. *)
Lemma null_payload_is_not_classified :
  let sv := Samples.services_with VNone in
  let run := QuoteFetcher.lambda_handler id Samples.parse_float Samples.parse_int
               sv Samples.ibm_event ∅ in
  QuoteFetcher.fetched id sv Samples.ibm_event "IBM" VNone ∧
  ¬ QuoteFetcher.has_key "Error Message" VNone ∧
  ¬ QuoteFetcher.has_key "Note" VNone ∧
  ¬ QuoteFetcher.has_key "Information" VNone ∧
  ¬ QuoteFetcher.has_key "Time Series (Daily)" VNone ∧
  run = (Raise (TypeError "argument of type 'NoneType' is not iterable"), ∅) ∧
  ∀ r, run.1 ≠ Return r.
Proof.
  assert (∀ k, ¬ QuoteFetcher.has_key k VNone) as Hno by (by intros k (m & ? & _)).
  repeat split; try apply Hno; try done.
  by eexists _, _.
Qed.

(** C1 (amended): for every decoded payload that is a JSON object, the
    quote fetcher classifies it in fixed precedence order: an
    "Error Message" key gives 400 whatever the other keys; otherwise a
    "Note" or "Information" key gives 429, also next to a
    "Time Series (Daily)" key; otherwise a missing "Time Series (Daily)"
    key gives 500 with the raw payload in the body; otherwise the handler
    is its success path. *)
Theorem classify_precedence
    (str_upper : string → string)
    (parse_float : string → option spec_float) (parse_int : string → option Z)
    (sv : QuoteFetcher.services) (event : value) (symbol : string)
    (m : gmap string value) (b : QuoteFetcher.bucket) :
  QuoteFetcher.fetched str_upper sv event symbol (VDict m) →
  let run := QuoteFetcher.lambda_handler str_upper parse_float parse_int sv event b in
  (is_Some (m !! "Error Message") →
     run = (Return (QuoteFetcher.reply 400
                      (VDict {[ "error" := VStr ("Invalid symbol: " ++ symbol) ]})), b)) ∧
  (m !! "Error Message" = None →
   is_Some (m !! "Note") ∨ is_Some (m !! "Information") →
     run = (Return (QuoteFetcher.reply 429
                      (VDict {[ "error" := VStr
                         "Alpha Vantage rate limit – wait 60 seconds or use a different key" ]})),
            b)) ∧
  (m !! "Error Message" = None → m !! "Note" = None → m !! "Information" = None →
   m !! "Time Series (Daily)" = None →
     run = (Return (QuoteFetcher.reply 500
                      (VDict {[ "error" := VStr "Unexpected response";
                                "raw" := VDict m ]})), b)) ∧
  (m !! "Error Message" = None → m !! "Note" = None → m !! "Information" = None →
   is_Some (m !! "Time Series (Daily)") →
     run = QuoteFetcher.success_path parse_float parse_int sv symbol (VDict m) b).
Proof.
  intros Hfetched run. subst run.
  rewrite (lambda_handler_fetched _ _ _ _ _ _ _ _ Hfetched), classify_dict.
  repeat split.
  - intros Hem. by rewrite bool_decide_eq_true_2.
  - intros Hem Hlimited.
    rewrite bool_decide_eq_false_2 by (rewrite Hem; by intros [? ?]).
    destruct Hlimited as [H|H].
    + by rewrite (bool_decide_eq_true_2 _ H).
    + rewrite (bool_decide_eq_true_2 _ H). by rewrite orb_true_r.
  - intros -> -> -> ->. by rewrite !bool_decide_eq_false_2 by (by intros [? ?]).
  - intros -> -> -> Hts.
    rewrite !bool_decide_eq_false_2 by (by intros [? ?]).
    by rewrite bool_decide_eq_true_2.
Qed.

Lemma classify_precedence_witness :
  let sv := Samples.services_with (VDict Samples.limited) in
  let run := QuoteFetcher.lambda_handler id Samples.parse_float Samples.parse_int
               sv Samples.ibm_event ∅ in
  QuoteFetcher.fetched id sv Samples.ibm_event "IBM" (VDict Samples.limited) ∧
  is_Some (Samples.limited !! "Time Series (Daily)") ∧
  run = (Return (QuoteFetcher.reply 429
                   (VDict {[ "error" := VStr
                      "Alpha Vantage rate limit – wait 60 seconds or use a different key" ]})),
         ∅).
Proof.
  assert (QuoteFetcher.fetched id (Samples.services_with (VDict Samples.limited))
            Samples.ibm_event "IBM" (VDict Samples.limited)) as Hfetched
    by (by eexists _, _).
  split; [exact Hfetched|]. split; [by eexists|].
  apply (classify_precedence id Samples.parse_float Samples.parse_int _ _ _ _ ∅ Hfetched).
  - reflexivity.
  - left. by eexists.
Defined.

(** C2: for every successful response of the quote fetcher, the Daily Bar
    of the 200 body is extracted from the entry of the payload's
    "Time Series (Daily)" map whose date key is the lexicographically
    smallest of the map's keys, and its "date" field is that key. *)
Theorem latest_is_smallest_date
    (str_upper : string → string)
    (parse_float : string → option spec_float) (parse_int : string → option Z)
    (sv : QuoteFetcher.services) (event : value)
    (b b' : QuoteFetcher.bucket) (r : response) :
  QuoteFetcher.lambda_handler str_upper parse_float parse_int sv event b = (Return r, b') →
  statusCode r = 200 →
  ∃ symbol (m series : gmap string value) date bar open high low close volume,
    QuoteFetcher.fetched str_upper sv event symbol (VDict m) ∧
    m !! "Time Series (Daily)" = Some (VDict series) ∧
    series !! date = Some bar ∧
    (∀ k, is_Some (series !! k) → String.leb date k = true) ∧
    getitem bar "1. open" ≫= QuoteFetcher.float parse_float = Return open ∧
    getitem bar "2. high" ≫= QuoteFetcher.float parse_float = Return high ∧
    getitem bar "3. low" ≫= QuoteFetcher.float parse_float = Return low ∧
    getitem bar "4. close" ≫= QuoteFetcher.float parse_float = Return close ∧
    getitem bar "6. volume" ≫= QuoteFetcher.int parse_int = Return volume ∧
    body r = VDict {[ "symbol" := VStr symbol;
                      "date" := VStr date;
                      "open" := VFloat open;
                      "high" := VFloat high;
                      "low" := VFloat low;
                      "close" := VFloat close;
                      "volume" := VInt volume ]}.
Proof.
  intros Hrun H200.
  apply lambda_handler_Return in Hrun as [(symbol & data & Hfetched & Hrun)|H500];
    [|by rewrite H500 in H200].
  apply classify_200 in Hrun; [|done].
  apply success_path_Return in Hrun
    as (m & series & date & bar & open & high & low & close & volume
        & -> & Hm & Hdate & Hbar & Hopen & Hhigh & Hlow & Hclose & Hvolume & -> & _).
  apply sorted_first in Hdate as [_ Hleast].
  exists symbol, m, series, date, bar, open, high, low, close, volume.
  repeat split; try done.
  intros k [v Hk]. apply Hleast.
  apply list_elem_of_fmap. exists (k, v). split; [done|].
  by apply elem_of_map_to_list.
Qed.

Lemma latest_is_smallest_date_witness :
  let sv := Samples.services_with Samples.two_days in
  let price := VFloat (binary64 101 0) in
  let r := {| statusCode := 200; isBase64Encoded := None; headers := None;
              body := VDict {[ "symbol" := VStr "IBM"; "date" := VStr "2024-01-01";
                               "open" := price; "high" := price; "low" := price;
                               "close" := price; "volume" := VInt 1000 ]} |} in
  QuoteFetcher.lambda_handler id Samples.parse_float Samples.parse_int sv
    Samples.ibm_event ∅ = (Return r, {[ "IBM.json" := Samples.two_days ]}) ∧
  ∃ symbol (m series : gmap string value) date bar open high low close volume,
    QuoteFetcher.fetched id sv Samples.ibm_event symbol (VDict m) ∧
    m !! "Time Series (Daily)" = Some (VDict series) ∧
    series !! date = Some bar ∧
    (∀ k, is_Some (series !! k) → String.leb date k = true) ∧
    getitem bar "1. open" ≫= QuoteFetcher.float Samples.parse_float = Return open ∧
    getitem bar "2. high" ≫= QuoteFetcher.float Samples.parse_float = Return high ∧
    getitem bar "3. low" ≫= QuoteFetcher.float Samples.parse_float = Return low ∧
    getitem bar "4. close" ≫= QuoteFetcher.float Samples.parse_float = Return close ∧
    getitem bar "6. volume" ≫= QuoteFetcher.int Samples.parse_int = Return volume ∧
    body r = VDict {[ "symbol" := VStr symbol;
                      "date" := VStr date;
                      "open" := VFloat open;
                      "high" := VFloat high;
                      "low" := VFloat low;
                      "close" := VFloat close;
                      "volume" := VInt volume ]}.
Proof.
  assert (QuoteFetcher.lambda_handler id Samples.parse_float Samples.parse_int
            (Samples.services_with Samples.two_days) Samples.ibm_event ∅
          = (Return {| statusCode := 200; isBase64Encoded := None; headers := None;
                       body := VDict {[ "symbol" := VStr "IBM";
                                        "date" := VStr "2024-01-01";
                                        "open" := VFloat (binary64 101 0);
                                        "high" := VFloat (binary64 101 0);
                                        "low" := VFloat (binary64 101 0);
                                        "close" := VFloat (binary64 101 0);
                                        "volume" := VInt 1000 ]} |},
             {[ "IBM.json" := Samples.two_days ]})) as Hrun
    by (vm_compute; reflexivity).
  split; [exact Hrun|].
  exact (latest_is_smallest_date id Samples.parse_float Samples.parse_int _ _ _ _ _
           Hrun eq_refl).
Defined.

(** ** The chat proxy: the conversation store *)

Lemma string_app_nil_r (s : string) : s ++ "" = s.
Proof.
  induction s as [|c s IH]; [done|].
  change (String c (s ++ "") = String c s). by rewrite IH.
Qed.

Lemma string_app_assoc (s1 s2 s3 : string) : (s1 ++ s2) ++ s3 = s1 ++ (s2 ++ s3).
Proof.
  induction s1 as [|c s1 IH]; [done|].
  change (String c ((s1 ++ s2) ++ s3) = String c (s1 ++ (s2 ++ s3))). by rewrite IH.
Qed.

Ltac run_M :=
  unfold ChatProxy.get_item, ChatProxy.put_item, ChatProxy.update_item,
    ChatProxy.delete_item, ChatProxy.scan, ChatProxy.store_call, ChatProxy.key_of,
    ChatProxy.time_time, ChatProxy.print, try_except, raise, modify, gets, lift,
    mbind, M_bind, mret, M_ret; simpl.

Section StoreFacts.
Import ChatProxy.

(** The messages of an item as they are read. *)
Lemma messages_as_read (it : Item.t) :
  default [] (Item.messages (Item.as_read it)) = as_read <$> default [] (Item.messages it).
Proof. by destruct it as [? [msgs|] ? ? ? ? ?]. Qed.

(** A save either raises and leaves the table as it was, or returns and
    has written one item under the key, stamped with the time of the
    save in milliseconds, with nothing printed and the agent left
    alone. *)
Lemma save_cases session_id user_message bot_response w :
  (∃ e w', save_message_to_db session_id user_message bot_response w = (Raise e, w') ∧
     table w' = table w) ∨
  (∃ k t w', session_id = VStr k ∧
     millis (clock w (ticks w)) = Return t ∧
     save_message_to_db session_id user_message bot_response w = (Return tt, w') ∧
     stdout w' = stdout w ∧
     invoked w' = invoked w ∧
     table w' = <[k := saved (table w !! k) user_message bot_response t]> (table w)).
Proof.
  unfold save_message_to_db. run_M.
  destruct (millis (clock w (ticks w))) as [t|e] eqn:Ht; simpl.
  2: { left. by eexists _, _. }
  destruct (db_fault w (db_calls w)) as [e|] eqn:Hf1; simpl.
  { left. by eexists _, _. }
  destruct session_id as [| | | |k| |]; simpl; try (left; by eexists _, _).
  destruct (table w !! k) as [it|] eqn:Hk; simpl;
    (destruct (db_fault w (S (db_calls w))) as [e|] eqn:Hf2; simpl;
     [left; by eexists _, _|]);
    right; eexists k, t, _; (split; [done|]); (split; [done|]); (split; [done|]);
    (split; [done|]); (split; [done|]);
    simpl; rewrite ?Hk; simpl; [|done].
  f_equal. unfold set_conversation.
  change ((λ msgs : list stored, as_read <$> msgs) <$> Item.messages it)
    with (Item.messages (Item.as_read it)).
  rewrite messages_as_read. f_equal.
  - by rewrite <- app_assoc.
  - f_equal. rewrite !length_app, length_fmap. simpl. lia.
Qed.

Lemma save_Return session_id user_message bot_response w w' :
  save_message_to_db session_id user_message bot_response w = (Return tt, w') →
  ∃ k t, session_id = VStr k ∧
    millis (clock w (ticks w)) = Return t ∧
    table w' = <[k := saved (table w !! k) user_message bot_response t]> (table w).
Proof.
  intros Hrun.
  destruct (save_cases session_id user_message bot_response w)
    as [(e & w1 & H & _)|(k & t & w1 & -> & Hms & H & _ & _ & Ht)]; [congruence|].
  exists k, t. split; [done|]. split; [done|]. congruence.
Qed.

Lemma save_Raise session_id user_message bot_response w w' e :
  save_message_to_db session_id user_message bot_response w = (Raise e, w') →
  table w' = table w.
Proof.
  intros Hrun.
  destruct (save_cases session_id user_message bot_response w)
    as [(e1 & w1 & H & Ht)|(k & t & w1 & _ & _ & H & _)]; congruence.
Qed.

(** The title rule of lines 164 to 167 and 194, spelled out. *)
Lemma title_of_cases (user_message : string) :
  title_of user_message =
  if decide (user_message = "") then DEFAULT_TITLE else slice_to 50 user_message.
Proof.
  unfold title_of. destruct user_message; [done|]. by rewrite decide_False.
Qed.

Lemma title_of_nonempty (user_message : string) : title_of user_message ≠ "".
Proof.
  rewrite title_of_cases. destruct user_message; [done|]. by rewrite decide_False.
Qed.

Lemma updated_title_cases (title : option string) (user_message : string) :
  updated_title title user_message =
  if decide (title = None ∨ title = Some "" ∨ title = Some DEFAULT_TITLE)
  then title_of user_message
  else default "" title.
Proof.
  unfold updated_title, not_title.
  case_decide as Hd.
  - destruct Hd as [-> | [-> | ->]]; done.
  - destruct title as [s|]; [|by destruct Hd; left].
    destruct (String.eqb_spec s "") as [->|Hne]; [by destruct Hd; right; left|].
    rewrite bool_decide_eq_false_2; [done|]. intros ?. apply Hd. by right; right.
Qed.

Lemma updated_title_nonempty (title : option string) (user_message : string) :
  updated_title title user_message ≠ "".
Proof.
  rewrite updated_title_cases. case_decide as Hd.
  - apply title_of_nonempty.
  - destruct title as [s|]; simpl; [|by destruct Hd; left].
    intros ->. apply Hd. by right; left.
Qed.

(** The saves of a run of exchanges leave under the key an item that was
    created when the one found there was, with the same unnamed
    attributes. *)
Lemma save_best_effort_kept k it user_message bot_response w :
  table w !! k = Some it →
  ∃ it', table (save_best_effort (VStr k) user_message bot_response w).2 !! k = Some it' ∧
    Item.createdAt it' = Item.createdAt it ∧ Item.extra it' = Item.extra it.
Proof.
  intros Hk. unfold save_best_effort, try_except.
  destruct (save_cases (VStr k) user_message bot_response w)
    as [(e & w1 & -> & Ht)|(k' & t & w1 & [= <-] & _ & -> & _ & _ & Ht)]; simpl.
  - exists it. by rewrite Ht.
  - rewrite Ht, lookup_insert_eq, Hk. by eexists.
Qed.

Lemma save_each_kept k it exchanges w :
  table w !! k = Some it →
  ∃ it', table (save_each (VStr k) exchanges w).2 !! k = Some it' ∧
    Item.createdAt it' = Item.createdAt it ∧ Item.extra it' = Item.extra it.
Proof.
  revert it w. induction exchanges as [|[um br] exchanges IH]; intros it w Hk; simpl.
  { by exists it. }
  destruct (save_best_effort_kept k it um br w Hk) as (it1 & Hk1 & Hc1 & He1).
  unfold mbind, M_bind.
  destruct (save_best_effort (VStr k) um br w) as [[[]|e] w1] eqn:Hrun; simpl in Hk1.
  - destruct (IH it1 w1 Hk1) as (it2 & Hk2 & Hc2 & He2).
    exists it2. split; [done|]. split; congruence.
  - exists it1. by split.
Qed.
End StoreFacts.

(** C3: every write of [save_message_to_db] stores a [messageCount] equal
    to the length of the [messages] stored with it: 2 when the record is
    created, the length found plus 2 when it is updated.  A save that
    raises has written nothing. *)
Theorem messageCount_is_length
    (session_id : value) (user_message bot_response : string) (w : ChatProxy.world) :
  let run := ChatProxy.save_message_to_db session_id user_message bot_response w in
  match run.1 with
  | Raise _ => ChatProxy.table run.2 = ChatProxy.table w
  | Return _ =>
      ∃ k it' msgs,
        session_id = VStr k ∧
        ChatProxy.table run.2 = <[k := it']> (ChatProxy.table w) ∧
        ChatProxy.Item.messages it' = Some msgs ∧
        ChatProxy.Item.messageCount it' = Some (Z.of_nat (length msgs)) ∧
        match ChatProxy.table w !! k with
        | None => length msgs = 2%nat
        | Some it =>
            length msgs = (length (default [] (ChatProxy.Item.messages it)) + 2)%nat
        end
  end.
Proof.
  intros run. subst run.
  destruct (save_cases session_id user_message bot_response w)
    as [(e & w' & -> & Ht)|(k & t & w' & -> & _ & -> & _ & _ & Ht)]; simpl; [done|].
  destruct (ChatProxy.table w !! k) as [it|] eqn:Hk; simpl in Ht.
  - eexists k, _, _. split; [done|]. split; [exact Ht|]. simpl.
    split; [done|]. rewrite length_app, length_fmap. simpl.
    split; [f_equal; lia|by rewrite Hk].
  - eexists k, _, _. split; [done|]. split; [exact Ht|]. simpl. by rewrite Hk.
Qed.

(** C5, as stated, fails on an update with an empty message: a record
    whose title is empty gets the placeholder, not the first 50
    characters of the message (which are none). *)
Lemma empty_message_update_writes_placeholder :
  let w := Samples.world_with {[ "s1" := Samples.titled "" ]} Samples.seconds [] in
  let run := ChatProxy.save_message_to_db (VStr "s1") "" "Hello." w in
  ChatProxy.table w !! "s1" ≫= ChatProxy.Item.title = Some "" ∧
  run.1 = Return tt ∧
  ChatProxy.table run.2 !! "s1" ≫= ChatProxy.Item.title = Some "New Chat" ∧
  ChatProxy.table run.2 !! "s1" ≫= ChatProxy.Item.title ≠ Some (slice_to 50 "").
Proof. by vm_compute. Qed.

(** C5 (amended): an update of an existing record keeps the stored title
    unless it is absent, empty or the placeholder; then the title becomes
    the first 50 characters of the new user message, or the placeholder
    if the message is empty.  A new record gets the first 50 characters
    of the user message, or the placeholder if the message is empty.
    Hence a second save to the session leaves the title of the first
    unless that was the placeholder. *)
Theorem title_rule
    (k user_message bot_response : string) (w w' : ChatProxy.world) :
  ChatProxy.save_message_to_db (VStr k) user_message bot_response w = (Return tt, w') →
  let fresh :=
    if decide (user_message = "") then ChatProxy.DEFAULT_TITLE
    else slice_to 50 user_message in
  ∃ it', ChatProxy.table w' !! k = Some it' ∧
    (ChatProxy.table w !! k = None → ChatProxy.Item.title it' = Some fresh) ∧
    (∀ it, ChatProxy.table w !! k = Some it →
       ChatProxy.Item.title it' =
       if decide (ChatProxy.Item.title it = None ∨ ChatProxy.Item.title it = Some "" ∨
                  ChatProxy.Item.title it = Some ChatProxy.DEFAULT_TITLE)
       then Some fresh
       else ChatProxy.Item.title it) ∧
    (∀ user_message2 bot_response2 w'',
       ChatProxy.save_message_to_db (VStr k) user_message2 bot_response2 w'
       = (Return tt, w'') →
       ChatProxy.Item.title it' ≠ Some ChatProxy.DEFAULT_TITLE →
       ∃ it'', ChatProxy.table w'' !! k = Some it'' ∧
         ChatProxy.Item.title it'' = ChatProxy.Item.title it').
Proof.
  intros Hrun fresh.
  apply save_Return in Hrun as (k0 & t & [= <-] & _ & Ht).
  eexists. split; [by rewrite Ht, lookup_insert_eq|].
  assert (ChatProxy.title_of user_message = fresh) as Hfresh by apply title_of_cases.
  split; [|split].
  - intros ->. simpl. by rewrite Hfresh.
  - intros it ->. simpl. rewrite updated_title_cases, Hfresh.
    case_decide as Hd; [done|].
    destruct (ChatProxy.Item.title it); [done|]. by destruct Hd; left.
  - intros um2 br2 w'' Hrun2 Hkept.
    apply save_Return in Hrun2 as (k0 & t2 & [= <-] & _ & Ht2).
    eexists. split; [by rewrite Ht2, lookup_insert_eq|].
    rewrite Ht, lookup_insert_eq. simpl. rewrite updated_title_cases.
    set (title1 := ChatProxy.Item.title
                     (ChatProxy.saved (ChatProxy.table w !! k) user_message bot_response
                        t)) in *.
    assert (∃ s, title1 = Some s ∧ s ≠ "") as (s & Hs & Hne).
    { subst title1. destruct (ChatProxy.table w !! k); simpl; eexists; split; try done.
      - apply updated_title_nonempty.
      - apply title_of_nonempty. }
    rewrite Hs in *. rewrite decide_False; [done|].
    intros [?|[[= ?]|?]]; done.
Qed.

Lemma title_rule_witness :
  let w := Samples.world_with {[ "s1" := Samples.started 5000 ]} Samples.seconds [] in
  let run := ChatProxy.save_message_to_db (VStr "s1") "And today?" "It closed at 102." w in
  run.1 = Return tt ∧
  ∃ it', ChatProxy.table run.2 !! "s1" = Some it' ∧
    (ChatProxy.table w !! "s1" = None → ChatProxy.Item.title it' = Some "And today?") ∧
    (∀ it, ChatProxy.table w !! "s1" = Some it →
       ChatProxy.Item.title it' =
       if decide (ChatProxy.Item.title it = None ∨ ChatProxy.Item.title it = Some "" ∨
                  ChatProxy.Item.title it = Some ChatProxy.DEFAULT_TITLE)
       then Some "And today?"
       else ChatProxy.Item.title it) ∧
    (∀ user_message2 bot_response2 w'',
       ChatProxy.save_message_to_db (VStr "s1") user_message2 bot_response2 run.2
       = (Return tt, w'') →
       ChatProxy.Item.title it' ≠ Some ChatProxy.DEFAULT_TITLE →
       ∃ it'', ChatProxy.table w'' !! "s1" = Some it'' ∧
         ChatProxy.Item.title it'' = ChatProxy.Item.title it').
Proof.
  split; [reflexivity|].
  exact (title_rule "s1" "And today?" "It closed at 102."
           (Samples.world_with {[ "s1" := Samples.started 5000 ]} Samples.seconds []) _
           eq_refl).
Defined.

(** C10: an update of an existing record leaves what it does not set
    (it sets messages, lastMessage, messageCount, updatedAt and title):
    the record stays under its key with the [createdAt] and the other
    attributes it had, the other records are untouched, and [createdAt]
    keeps that value through every later send to the session. *)
Theorem update_keeps_createdAt
    (k user_message bot_response : string) (it : ChatProxy.Item.t)
    (w w' : ChatProxy.world) :
  ChatProxy.table w !! k = Some it →
  ChatProxy.save_message_to_db (VStr k) user_message bot_response w = (Return tt, w') →
  (∃ it', ChatProxy.table w' !! k = Some it' ∧
     ChatProxy.Item.createdAt it' = ChatProxy.Item.createdAt it ∧
     ChatProxy.Item.extra it' = ChatProxy.Item.extra it) ∧
  (∀ k', k' ≠ k → ChatProxy.table w' !! k' = ChatProxy.table w !! k') ∧
  (∀ exchanges,
     ∃ it'', ChatProxy.table (ChatProxy.save_each (VStr k) exchanges w').2 !! k = Some it'' ∧
       ChatProxy.Item.createdAt it'' = ChatProxy.Item.createdAt it ∧
       ChatProxy.Item.extra it'' = ChatProxy.Item.extra it).
Proof.
  intros Hk Hrun.
  apply save_Return in Hrun as (k0 & t & [= <-] & _ & Ht). rewrite Hk in Ht. simpl in Ht.
  assert (∃ it', ChatProxy.table w' !! k = Some it' ∧
            ChatProxy.Item.createdAt it' = ChatProxy.Item.createdAt it ∧
            ChatProxy.Item.extra it' = ChatProxy.Item.extra it)
    as (it' & Hk' & Hcreated & Hextra).
  { eexists. by rewrite Ht, lookup_insert_eq. }
  split; [by exists it'|]. split.
  - intros k' Hne. by rewrite Ht, lookup_insert_ne.
  - intros exchanges.
    destruct (save_each_kept k it' exchanges w' Hk') as (it'' & Hk'' & Hc & He).
    exists it''. split; [done|]. split; congruence.
Qed.

Lemma update_keeps_createdAt_witness :
  let w := Samples.world_with {[ "s1" := Samples.started 5000 ]} Samples.seconds [] in
  let run := ChatProxy.save_message_to_db (VStr "s1") "And today?" "It closed at 102." w in
  (∃ it', ChatProxy.table run.2 !! "s1" = Some it' ∧
     ChatProxy.Item.createdAt it' = Some 5000 ∧
     ChatProxy.Item.extra it' = {[ "pinned" := SBool true ]}) ∧
  (∀ k', k' ≠ "s1" → ChatProxy.table run.2 !! k' = ChatProxy.table w !! k') ∧
  (∀ exchanges,
     ∃ it'', ChatProxy.table (ChatProxy.save_each (VStr "s1") exchanges run.2).2 !! "s1"
             = Some it'' ∧
       ChatProxy.Item.createdAt it'' = Some 5000 ∧
       ChatProxy.Item.extra it'' = {[ "pinned" := SBool true ]}).
Proof.
  exact (update_keeps_createdAt "s1" "And today?" "It closed at 102."
           (Samples.started 5000)
           (Samples.world_with {[ "s1" := Samples.started 5000 ]} Samples.seconds []) _
           eq_refl eq_refl).
Defined.

(** ** The chat proxy: sending a message *)

Section SendFacts.
Import ChatProxy.

(** The loop keeps the texts of the events up to the first one that is
    read after the budget, and nothing of what follows. *)
Lemma accumulate_prefix (stream_start : Q) (events : list event) :
  ∀ (k : nat) (acc : string) (w : world),
    (k ≤ length events)%nat →
    (∀ j, (j < k)%nat → timed_out stream_start (clock w (ticks w + j)%nat) = false) →
    (k = length events ∨ timed_out stream_start (clock w (ticks w + k)%nat) = true) →
    (accumulate stream_start (Yield <$> events) acc w).1
    = Return (acc ++ texts (take k events)).
Proof.
  induction events as [|ev events IH]; intros k acc w Hk Hbefore Hat; simpl.
  { by rewrite take_nil, string_app_nil_r. }
  unfold mbind, M_bind, time_time. simpl.
  destruct k as [|k].
  - destruct Hat as [|Hat]; [done|].
    rewrite Nat.add_0_r in Hat. rewrite Hat. simpl. by rewrite string_app_nil_r.
  - rewrite <- (Nat.add_0_r (ticks w)), (Hbefore 0%nat) by lia.
    assert ((accumulate stream_start (Yield <$> events) (acc ++ chunk_text ev) (tick w)).1
            = Return ((acc ++ chunk_text ev) ++ texts (take k events))) as Hrest.
    { apply IH.
      - simpl in Hk. lia.
      - intros j Hj. simpl. rewrite <- Nat.add_succ_r. apply Hbefore. lia.
      - destruct Hat as [Hat|Hat]; [left; simpl in Hat; lia|right].
        simpl. by rewrite <- Nat.add_succ_r. }
    rewrite string_app_assoc in Hrest.
    destruct ev as [[[text|]|]|]; simpl in *;
      rewrite ?string_app_nil_r in Hrest; exact Hrest.
Qed.

Lemma timed_out_false (stream_start now : Q) :
  (now - stream_start <= 30)%Q → timed_out stream_start now = false.
Proof. unfold timed_out. intros H. apply Qle_bool_iff in H. by rewrite H. Qed.

Lemma timed_out_true (stream_start now : Q) :
  (30 < now - stream_start)%Q → timed_out stream_start now = true.
Proof.
  unfold timed_out. intros H.
  destruct (Qle_bool (now - stream_start) 30) eqn:E; [|done].
  apply Qle_bool_iff in E. by apply Qlt_not_le in H.
Qed.

(** The save of line 102 never raises out of its [try]. *)
Lemma save_best_effort_run session_id user_message bot_response w :
  save_best_effort session_id user_message bot_response w =
  match save_message_to_db session_id user_message bot_response w with
  | (Return _, w') => (Return tt, w')
  | (Raise e, w') =>
      (Return tt, write_line ("Failed to save message (non-critical): " ++ exn_str e) w')
  end.
Proof.
  unfold save_best_effort, try_except.
  by destruct (save_message_to_db session_id user_message bot_response w)
    as [[[]|e] w'].
Qed.

(** Once the agent has replied, the response is settled: the save that
    follows changes the world only. *)
Lemma send_after_reply body ctx user_message session_id completion w w1 :
  get body "message" (VStr "") ≫= strip_method = Return user_message →
  user_message ≠ "" →
  get body "sessionId" (VStr ("session-" ++ aws_request_id ctx)) = Return session_id →
  agent_reply session_id user_message w = (Return completion, w1) →
  handle_send_message body ctx w =
  (Return (ok_response (strip completion) session_id),
   (save_best_effort session_id user_message (strip completion) w1).2).
Proof.
  intros Hmessage Hne Hsession Hreply. unfold handle_send_message.
  erewrite bind_run; [|unfold lift; by rewrite Hmessage].
  erewrite bind_run; [|unfold lift; by rewrite Hsession].
  destruct (String.eqb_spec user_message "") as [|_]; [done|].
  unfold try_except_ClientError.
  erewrite bind_run; [|exact Hreply].
  rewrite save_best_effort_run. unfold mbind, M_bind.
  rewrite save_best_effort_run.
  by destruct (save_message_to_db session_id user_message (strip completion) w1)
    as [[[]|e] w2].
Qed.

(** The reply of the agent when its stream yields [events] and raises
    nothing. *)
Lemma agent_reply_prefix session_id user_message (events : list event) (k : nat) w :
  invoke_agent w session_id user_message
  = Return {| completion := Some (Yield <$> events) |} →
  (k ≤ length events)%nat →
  (∀ j, (j < k)%nat →
     timed_out (clock w (ticks w)) (clock w (S (ticks w) + j)%nat) = false) →
  (k = length events ∨
   timed_out (clock w (ticks w)) (clock w (S (ticks w) + k)%nat) = true) →
  ∃ completion w1,
    agent_reply session_id user_message w = (Return completion, w1) ∧
    strip completion = response_text (texts (take k events)).
Proof.
  intros Hinvoke Hk Hbefore Hat. unfold agent_reply.
  erewrite bind_run; [|by rewrite Hinvoke].
  erewrite bind_run; [|reflexivity]. simpl.
  set (w0 := log_invocation session_id user_message w).
  pose proof (accumulate_prefix (clock w (ticks w)) events k "" (tick w0) Hk Hbefore Hat)
    as Hacc.
  unfold mbind, M_bind.
  destruct (accumulate (clock w (ticks w)) (Yield <$> events) "" (tick w0))
    as [[text|e] w1]; simpl in Hacc; [|done].
  injection Hacc as ->. by eexists _, _.
Qed.
End SendFacts.

(** C4: for every send request with a non-empty message, once the agent
    has replied the handler returns status 200 with a body that carries
    the accumulated response, whatever the save does; when the save
    raises, the error is caught and logged, nothing is stored, and the
    response is the same. *)
Theorem send_survives_save_failure
    (request : value) (ctx : ChatProxy.context) (user_message : string)
    (session_id : value) (completion : string) (w w1 : ChatProxy.world) :
  get request "message" (VStr "") ≫= strip_method = Return user_message →
  user_message ≠ "" →
  get request "sessionId" (VStr ("session-" ++ ChatProxy.aws_request_id ctx))
  = Return session_id →
  ChatProxy.agent_reply session_id user_message w = (Return completion, w1) →
  ∃ r,
    (ChatProxy.handle_send_message request ctx w).1 = Return r ∧
    statusCode r = 200 ∧
    body r = VDict {[ "response" := VStr (strip completion);
                      "sessionId" := session_id ]} ∧
    ∀ e w2,
      ChatProxy.save_message_to_db session_id user_message (strip completion) w1
      = (Raise e, w2) →
      (ChatProxy.handle_send_message request ctx w).2
      = ChatProxy.write_line ("Failed to save message (non-critical): " ++ exn_str e) w2 ∧
      ChatProxy.table (ChatProxy.handle_send_message request ctx w).2 = ChatProxy.table w1.
Proof.
  intros Hmessage Hne Hsession Hreply.
  rewrite (send_after_reply _ _ _ _ _ _ _ Hmessage Hne Hsession Hreply).
  eexists. split; [reflexivity|]. split; [done|]. split; [done|].
  intros e w2 Hsave. simpl.
  rewrite save_best_effort_run, Hsave. simpl. split; [done|].
  by apply save_Raise in Hsave.
Qed.

Lemma send_survives_save_failure_witness :
  let w := Samples.world_down Samples.seconds Samples.answer in
  let run := ChatProxy.handle_send_message Samples.send_body Samples.request w in
  ∃ r,
    run.1 = Return r ∧
    statusCode r = 200 ∧
    body r = VDict {[ "response" := VStr "It closed at 102."; "sessionId" := VStr "s1" ]} ∧
    ChatProxy.stdout run.2
    = ["❌ Error saving to DynamoDB: store is down";
       "Failed to save message (non-critical): store is down"] ∧
    ChatProxy.table run.2 = ∅.
Proof.
  destruct (send_survives_save_failure Samples.send_body Samples.request
              "And today?" (VStr "s1") "It closed at 102."
              (Samples.world_down Samples.seconds Samples.answer) _
              eq_refl ltac:(done) eq_refl eq_refl) as (r & Hr & Hstatus & Hbody & Hsave).
  exists r. split; [exact Hr|]. split; [exact Hstatus|]. split; [exact Hbody|].
  destruct (Hsave _ _ eq_refl) as [Hworld Htable].
  split; [by rewrite Hworld|exact Htable].
Defined.

(** C6, as stated, fails when the first chunk is slow: the budget runs
    from the reading taken before the first event is awaited, so a first
    chunk that is there 31 seconds later is discarded and the caller gets
    the notice, while a budget measured from the arrival of that chunk
    keeps it. *)
Lemma late_first_chunk_is_discarded :
  let clock := λ n : nat, if n is O then 0%Q else 31%Q in
  let stream := [ChatProxy.Yield (ChatProxy.Chunk (Some (ChatProxy.Text "It closed at 102.")))] in
  let w := Samples.world_with ∅ clock stream in
  (ChatProxy.handle_send_message Samples.send_body Samples.request w).1
  = Return (ChatProxy.ok_response ChatProxy.NO_RESPONSE (VStr "s1")) ∧
  (ChatProxy.accumulate_from_first_chunk stream "" (ChatProxy.tick w)).1
  = Return "It closed at 102.".
Proof. by vm_compute. Qed.

(** Among the first [n] naturals there is a first one, if any, at which
    a property with a decidable alternative gives way to the alternative. *)
Lemma first_failure (P Q : nat → Prop) (dec : ∀ j, {P j} + {Q j}) (n : nat) :
  ∃ k, (k ≤ n)%nat ∧ (∀ j, (j < k)%nat → P j) ∧ (k = n ∨ Q k).
Proof.
  induction n as [|n (k & Hk & Hbefore & [->|Hat])].
  - exists 0%nat. split; [done|]. split; [lia|by left].
  - destruct (dec n) as [Hn|Hn].
    + exists (S n). split; [done|]. split; [|by left].
      intros j Hj. destruct (decide (j = n)) as [->|]; [done|]. apply Hbefore. lia.
    + exists n. split; [lia|]. split; [done|by right].
  - exists k. split; [lia|]. split; [done|by right].
Qed.

(** C6 (amended): for every send request, accumulation of the agent's
    stream is bounded by a 30-second budget measured from the clock
    reading taken when the invocation has returned, before the first
    event is awaited: there is a [k] such that the first [k] events are
    read within the budget and the next one, if the stream has one,
    after it; that event and all later ones are discarded, and the
    response carries the text of the first [k] events and nothing that
    tells of the truncation. *)
Theorem stream_budget
    (body : value) (ctx : ChatProxy.context) (user_message : string)
    (session_id : value) (events : list ChatProxy.event)
    (w : ChatProxy.world) :
  get body "message" (VStr "") ≫= strip_method = Return user_message →
  user_message ≠ "" →
  get body "sessionId" (VStr ("session-" ++ ChatProxy.aws_request_id ctx))
  = Return session_id →
  ChatProxy.invoke_agent w session_id user_message
  = Return {| ChatProxy.completion := Some (ChatProxy.Yield <$> events) |} →
  let stream_start := ChatProxy.clock w (ChatProxy.ticks w) in
  let reading := λ j : nat, ChatProxy.clock w (S (ChatProxy.ticks w) + j)%nat in
  ∃ k,
    (k ≤ length events)%nat ∧
    (∀ j, (j < k)%nat → (reading j - stream_start <= 30)%Q) ∧
    (k = length events ∨ (30 < reading k - stream_start)%Q) ∧
    (ChatProxy.handle_send_message body ctx w).1
    = Return (ChatProxy.ok_response
                (ChatProxy.response_text (ChatProxy.texts (take k events))) session_id).
Proof.
  intros Hmessage Hne Hsession Hinvoke stream_start reading.
  destruct (first_failure
              (λ j, (reading j - stream_start <= 30)%Q)
              (λ j, (30 < reading j - stream_start)%Q)
              (λ j, match Qlt_le_dec 30 (reading j - stream_start) with
                    | left Hlate => right Hlate
                    | right Hintime => left Hintime
                    end)
              (length events)) as (k & Hk & Hbefore & Hat).
  exists k. split; [done|]. split; [done|]. split; [done|].
  destruct (agent_reply_prefix session_id user_message events k w Hinvoke Hk)
    as (completion & w1 & Hreply & Htext).
  - intros j Hj. apply timed_out_false. by apply Hbefore.
  - destruct Hat as [Hat|Hat]; [by left|right]. by apply timed_out_true.
  - rewrite (send_after_reply _ _ _ _ _ _ _ Hmessage Hne Hsession Hreply). simpl.
    by rewrite Htext.
Qed.

Lemma stream_budget_witness :
  let clock := λ n : nat, inject_Z (20 * Z.of_nat n) in
  let events := [ChatProxy.Chunk (Some (ChatProxy.Text "It closed "));
                 ChatProxy.Chunk (Some (ChatProxy.Text "at 102."))] in
  let w := Samples.world_with ∅ clock (ChatProxy.Yield <$> events) in
  (ChatProxy.handle_send_message Samples.send_body Samples.request w).1
  = Return (ChatProxy.ok_response "It closed" (VStr "s1")) ∧
  ∃ k,
    (k ≤ length events)%nat ∧
    (∀ j, (j < k)%nat → (clock (1 + j)%nat - clock 0%nat <= 30)%Q) ∧
    (k = length events ∨ (30 < clock (1 + k)%nat - clock 0%nat)%Q) ∧
    (ChatProxy.handle_send_message Samples.send_body Samples.request w).1
    = Return (ChatProxy.ok_response
                (ChatProxy.response_text (ChatProxy.texts (take k events))) (VStr "s1")).
Proof.
  split; [by vm_compute|].
  exact (stream_budget Samples.send_body Samples.request "And today?" (VStr "s1")
           [ChatProxy.Chunk (Some (ChatProxy.Text "It closed "));
            ChatProxy.Chunk (Some (ChatProxy.Text "at 102."))]
           (Samples.world_with ∅ (λ n : nat, inject_Z (20 * Z.of_nat n))
              (ChatProxy.Yield <$>
                 [ChatProxy.Chunk (Some (ChatProxy.Text "It closed "));
                  ChatProxy.Chunk (Some (ChatProxy.Text "at 102."))]))
           eq_refl ltac:(done) eq_refl eq_refl).
Defined.

(** ** The chat proxy: rename, load and list *)

(** C7, as stated, fails on a rename request whose title is not a
    string: the title is stripped before the sessionId is looked at, so
    a request without sessionId and with the title 5 gets 500, not 400. *)
Lemma rename_with_number_title_is_500 :
  let m : gmap string value := {[ "action" := VStr "rename"; "title" := VInt 5 ]} in
  let w := Samples.world_with {[ "s1" := Samples.started 5000 ]} Samples.seconds [] in
  m !! "sessionId" = None ∧
  (ChatProxy.handle_rename_conversation (VDict m) w).1
  = Return (ChatProxy.reply 500
              (VDict {[ "error" := VStr "'int' object has no attribute 'strip'" ]})).
Proof. by vm_compute. Qed.

(** C7 (amended): for every rename request whose title is absent or a
    string, a missing sessionId yields 400, and a title that is missing
    or empty after trimming yields 400; in both cases the handler leaves
    the world, and so the conversation store, as it was. *)
Theorem rename_requires_fields (m : gmap string value) (w : ChatProxy.world) :
  (m !! "title" = None ∨ ∃ s, m !! "title" = Some (VStr s)) →
  let run := ChatProxy.handle_rename_conversation (VDict m) w in
  (m !! "sessionId" = None →
     run = (Return (ChatProxy.reply 400 (VDict {[ "error" := VStr "sessionId required" ]})),
            w)) ∧
  ((m !! "title" = None ∨ ∃ s, m !! "title" = Some (VStr s) ∧ strip s = "") →
     ∃ error,
       run = (Return (ChatProxy.reply 400 (VDict {[ "error" := VStr error ]})), w)).
Proof.
  intros Htitle run. subst run.
  unfold ChatProxy.handle_rename_conversation, try_except.
  assert (∃ new_title,
            get (VDict m) "title" (VStr "") ≫= strip_method = Return new_title ∧
            ((m !! "title" = None ∨ ∃ s, m !! "title" = Some (VStr s) ∧ strip s = "") →
             new_title = "")) as (new_title & Hnew & Hempty).
  { simpl. destruct Htitle as [->|[s ->]]; simpl; eexists; (split; [done|]).
    - done.
    - by intros [?|(s' & [= <-] & ?)]. }
  erewrite bind_run; [|reflexivity].
  erewrite bind_run; [|unfold lift; by rewrite Hnew].
  split.
  - intros ->. done.
  - intros ->%Hempty.
    destruct (negb (truthy (from_option id VNone (m !! "sessionId")))); by eexists.
Qed.

Lemma rename_requires_fields_witness :
  let m : gmap string value :=
    {[ "action" := VStr "rename"; "sessionId" := VStr "s1"; "title" := VStr "   " ]} in
  let w := Samples.world_with {[ "s1" := Samples.started 5000 ]} Samples.seconds [] in
  ∃ error,
    ChatProxy.handle_rename_conversation (VDict m) w
    = (Return (ChatProxy.reply 400 (VDict {[ "error" := VStr error ]})), w).
Proof.
  apply (rename_requires_fields
           {[ "action" := VStr "rename"; "sessionId" := VStr "s1"; "title" := VStr "   " ]}
           (Samples.world_with {[ "s1" := Samples.started 5000 ]} Samples.seconds [])).
  - right. by eexists.
  - right. by eexists.
Defined.

(** C8, as stated, fails on a load request whose sessionId is not a
    string: the key of the table is a string, so the store refuses the
    lookup of the sessionId 5, under which no record exists, and the
    handler returns 500, not 200 with an empty list. *)
Lemma load_with_number_id_is_500 :
  let m : gmap string value := {[ "action" := VStr "load"; "sessionId" := VInt 5 ]} in
  let w := Samples.world_with ∅ Samples.seconds [] in
  let run := ChatProxy.handle_load_conversation (λ _, Return "") (λ _, "5") (λ _, "")
               (VDict m) w in
  ChatProxy.table w = ∅ ∧
  ∃ r text, run.1 = Return r ∧
    statusCode r = 500 ∧
    body r = VDict {[ "error" := VStr text ]} ∧
    body r ≠ VDict {[ "messages" := VList [] ]}.
Proof. split; [done|]. eexists _, _. by vm_compute. Qed.

(** C8 (amended): for every load request with a sessionId that is a
    non-empty string under which the store holds no record, the handler
    returns status 200 with an empty list of messages, and the store is
    as it was. *)
Theorem load_missing_record
    (isoformat : Q → outcome string) (str_of : value → string)
    (str_of_stored : stored → string)
    (m : gmap string value) (k : string) (w : ChatProxy.world) :
  m !! "sessionId" = Some (VStr k) →
  k ≠ "" →
  ChatProxy.db_fault w (ChatProxy.db_calls w) = None →
  ChatProxy.table w !! k = None →
  ∃ r w',
    ChatProxy.handle_load_conversation isoformat str_of str_of_stored (VDict m) w
    = (Return r, w') ∧
    statusCode r = 200 ∧
    body r = VDict {[ "messages" := VList [] ]} ∧
    ChatProxy.table w' = ChatProxy.table w.
Proof.
  intros Hsession Hne Hfault Hk.
  unfold ChatProxy.handle_load_conversation, try_except.
  erewrite bind_run; [|reflexivity]. simpl. rewrite Hsession. simpl.
  destruct (String.eqb_spec k "") as [|_]; [done|]. simpl.
  run_M. rewrite Hfault. simpl. rewrite Hk. by eexists _, _.
Qed.

Lemma load_missing_record_witness :
  let m : gmap string value := {[ "action" := VStr "load"; "sessionId" := VStr "s2" ]} in
  let w := Samples.world_with {[ "s1" := Samples.started 5000 ]} Samples.seconds [] in
  ∃ r w',
    ChatProxy.handle_load_conversation (λ _, Return "") (λ _, "s2") (λ _, "") (VDict m) w
    = (Return r, w') ∧
    statusCode r = 200 ∧
    body r = VDict {[ "messages" := VList [] ]} ∧
    ChatProxy.table w' = ChatProxy.table w.
Proof.
  apply (load_missing_record (λ _, Return "") (λ _, "s2") (λ _, "")
           {[ "action" := VStr "load"; "sessionId" := VStr "s2" ]} "s2"
           (Samples.world_with {[ "s1" := Samples.started 5000 ]} Samples.seconds []));
    done.
Defined.

(** [mapM] on computations that may raise. *)
Lemma mapM_cons {A B} (f : A → outcome B) (a : A) (l : list A) :
  mapM f (a :: l)
  = match f a with
    | Return b =>
        match mapM f l with
        | Return k => Return (b :: k)
        | Raise e => Raise e
        end
    | Raise e => Raise e
    end.
Proof. reflexivity. Qed.

Lemma mapM_Return {A B} (f : A → outcome B) (g : A → B) (l : list A) :
  (∀ x, x ∈ l → f x = Return (g x)) → mapM f l = Return (g <$> l).
Proof.
  induction l as [|a l IH]; intros Hf; [done|].
  rewrite mapM_cons, (Hf a) by left.
  rewrite IH; [done|]. intros x Hx. apply Hf. by right.
Qed.

Lemma mapM_Raise {A B} (f : A → outcome B) (e : exn) (l : list A) (x : A) :
  x ∈ l → f x = Raise e → (∀ y e', f y = Raise e' → e' = e) → mapM f l = Raise e.
Proof.
  intros Hx Hfx Honly. induction l as [|a l IH]; [by apply elem_of_nil in Hx|].
  rewrite mapM_cons.
  destruct (f a) as [b|e'] eqn:Hfa; [|by rewrite (Honly a e' Hfa)].
  apply elem_of_cons in Hx as [->|Hx]; [congruence|]. by rewrite IH.
Qed.

Section ListFacts.
Import ChatProxy.

(** The one failure of [json.dumps] on a projection. *)
Lemma Conversation_dumps_Raise (c : Conversation.t) (e : exn) :
  Conversation.dumps c = Raise e → e = not_serializable.
Proof.
  unfold Conversation.dumps, mbind, outcome_bind.
  destruct (Conversation.timestamp c), (Conversation.messageCount c); simpl; congruence.
Qed.

(** The projection of an item that holds a number is not serializable. *)
Lemma project_number (k : string) (it : Item.t) :
  is_Some (Item.updatedAt it) ∨ is_Some (Item.createdAt it) ∨
  is_Some (Item.messageCount it) →
  Conversation.dumps (project (k, Item.as_read it)) = Raise not_serializable.
Proof.
  unfold Conversation.dumps, mbind, outcome_bind. simpl.
  destruct (Item.updatedAt it), (Item.createdAt it), (Item.messageCount it); simpl;
    try done.
  intros [[? ?]|[[? ?]|[? ?]]]; done.
Qed.

(** The projection of an item that holds none is the dict of its
    strings, with the two defaults. *)
Lemma project_plain (k : string) (it : Item.t) :
  Item.updatedAt it = None → Item.createdAt it = None → Item.messageCount it = None →
  Conversation.dumps (project (k, Item.as_read it)) = Return (plain (project (k, it))).
Proof.
  intros Hu Hc Hn. unfold Conversation.dumps, plain, mbind, outcome_bind. simpl.
  by rewrite Hu, Hc, Hn.
Qed.

Lemma listed_elem_of (w : world) (k : string) (it : Item.t) :
  table w !! k = Some it → project (k, Item.as_read it) ∈ listed w.
Proof.
  intros Hk. unfold listed. rewrite sort_perm.
  apply list_elem_of_fmap. exists (k, Item.as_read it). split; [done|].
  apply list_elem_of_fmap. exists (k, it). split; [done|].
  by apply elem_of_map_to_list.
Qed.

Lemma listed_inv (w : world) (c : Conversation.t) :
  c ∈ listed w → ∃ k it, table w !! k = Some it ∧ c = project (k, Item.as_read it).
Proof.
  unfold listed. rewrite sort_perm.
  intros ([k it'] & -> & ([k' it] & [= -> ->] & Hk%elem_of_map_to_list)%list_elem_of_fmap)
    %list_elem_of_fmap.
  by exists k', it.
Qed.

(** The list of a store that answers. *)
Lemma list_run w :
  db_fault w (db_calls w) = None →
  handle_list_conversations w
  = match mapM Conversation.dumps (listed w) with
    | Return conversations =>
        (Return (reply 200 (VDict {[ "conversations" := VList conversations ]})),
         count_call w)
    | Raise e =>
        (Return (reply 500 (VDict {[ "error" := VStr (exn_str e) ]})),
         write_line ("Error listing conversations: " ++ exn_str e) (count_call w))
    end.
Proof.
  intros Hfault. unfold handle_list_conversations. run_M. rewrite Hfault. simpl.
  fold (listed w).
  by destruct (mapM Conversation.dumps (listed w)).
Qed.

(** The list of a store that answers and whose records hold no number:
    one dict per record. *)
Lemma list_run_plain w :
  db_fault w (db_calls w) = None →
  (∀ k it, table w !! k = Some it →
     Item.updatedAt it = None ∧ Item.createdAt it = None ∧ Item.messageCount it = None) →
  handle_list_conversations w
  = (Return (reply 200 (VDict {[ "conversations" := VList (plain <$> listed w) ]})),
     count_call w).
Proof.
  intros Hfault Hplain. rewrite list_run by done.
  rewrite (mapM_Return Conversation.dumps plain); [done|].
  intros c (k & it & Hk & ->)%listed_inv.
  destruct (Hplain k it Hk) as (Hu & Hc & Hn).
  by rewrite project_plain.
Qed.

(** One record with a number is enough for the list to fail. *)
Lemma list_run_number w k it :
  db_fault w (db_calls w) = None →
  table w !! k = Some it →
  is_Some (Item.updatedAt it) ∨ is_Some (Item.createdAt it) ∨
  is_Some (Item.messageCount it) →
  handle_list_conversations w
  = (Return (reply 500 (VDict {[ "error" := VStr (exn_str not_serializable) ]})),
     write_line ("Error listing conversations: " ++ exn_str not_serializable)
       (count_call w)).
Proof.
  intros Hfault Hk Hnumber. rewrite list_run by done.
  by rewrite (mapM_Raise Conversation.dumps not_serializable (listed w)
                (project (k, Item.as_read it)) (listed_elem_of w k it Hk)
                (project_number k it Hnumber) Conversation_dumps_Raise).
Qed.
End ListFacts.

(** C9 fails on the code: the table resource returns every number as a
    [Decimal], which [json.dumps] refuses.  For every state of the
    conversation store that the scan delivers and in which one record
    has an [updatedAt], a [createdAt] or a [messageCount] (as every
    record that [save_message_to_db] writes has), the list handler
    builds and sorts the projections and then fails at line 313: it
    returns status 500 with the text of the [TypeError], and no list. *)
Theorem list_with_number_is_500
    (w : ChatProxy.world) (k : string) (it : ChatProxy.Item.t) :
  ChatProxy.db_fault w (ChatProxy.db_calls w) = None →
  ChatProxy.table w !! k = Some it →
  is_Some (ChatProxy.Item.updatedAt it) ∨ is_Some (ChatProxy.Item.createdAt it) ∨
  is_Some (ChatProxy.Item.messageCount it) →
  ∃ r w',
    ChatProxy.handle_list_conversations w = (Return r, w') ∧
    statusCode r = 500 ∧
    body r = VDict {[ "error" := VStr "Object of type Decimal is not JSON serializable" ]} ∧
    ChatProxy.table w' = ChatProxy.table w.
Proof.
  intros Hfault Hk Hnumber.
  rewrite (list_run_number w k it Hfault Hk Hnumber). by eexists _, _.
Qed.

Lemma list_with_number_is_500_witness :
  let w := Samples.world_with {[ "s1" := Samples.started 5000 ]} Samples.seconds [] in
  ∃ r w',
    ChatProxy.handle_list_conversations w = (Return r, w') ∧
    statusCode r = 500 ∧
    body r = VDict {[ "error" := VStr "Object of type Decimal is not JSON serializable" ]} ∧
    ChatProxy.table w' = {[ "s1" := Samples.started 5000 ]}.
Proof.
  exact (list_with_number_is_500
           (Samples.world_with {[ "s1" := Samples.started 5000 ]} Samples.seconds [])
           "s1" (Samples.started 5000) eq_refl eq_refl
           (or_introl (ex_intro _ 5000 eq_refl))).
Defined.

(** * Further properties of the handlers *)

(** ** The quote fetcher: failures and the bucket *)

Section QuoteFetcherMore.
Import QuoteFetcher.
Context (str_upper : string → string).
Context (parse_float : string → option spec_float) (parse_int : string → option Z).

(** The success path either returns 200, after a put that went through
    and with the payload stored, or raises and leaves the bucket. *)
Lemma success_path_cases sv symbol data (b : bucket) :
  (∃ r, success_path parse_float parse_int sv symbol data b
        = (Return r, <[symbol ++ ".json" := data]> b) ∧
      statusCode r = 200 ∧
      put_object sv "stock-agent-sriram" (symbol ++ ".json") = Return tt) ∨
  (∃ e, success_path parse_float parse_int sv symbol data b = (Raise e, b)).
Proof.
  unfold success_path, mbind, M_bind, lift, modify, mret, M_ret.
  repeat match goal with
         | |- context [match ?o with Return _ => _ | Raise _ => _ end] =>
             destruct o as [?|?] eqn:?; try (right; by eexists)
         end.
  left. eexists. split; [reflexivity|]. split; [done|].
  match goal with |- Return ?u = _ => by destruct u end.
Qed.

(** The three checks return 400, 429 or 500 and leave the bucket, or
    raise and leave it, or hand over to the success path. *)
Lemma classify_cases sv symbol data (b : bucket) :
  (∃ r, classify parse_float parse_int sv symbol data b = (Return r, b) ∧
      statusCode r ≠ 200) ∨
  (∃ e, classify parse_float parse_int sv symbol data b = (Raise e, b)) ∨
  classify parse_float parse_int sv symbol data b
  = success_path parse_float parse_int sv symbol data b.
Proof.
  unfold classify, mbind, M_bind, lift, mret, M_ret.
  destruct (contains "Error Message" data) as [[]|e]; [left; by eexists| |right; left; by eexists].
  destruct (contains "Note" data) as [[]|e]; [left; by eexists| |right; left; by eexists].
  destruct (contains "Information" data) as [[]|e];
    [left; by eexists| |right; left; by eexists].
  destruct (contains "Time Series (Daily)" data) as [[]|e]; simpl;
    [by right; right|left; by eexists|right; left; by eexists].
Qed.
End QuoteFetcherMore.

(** X1: when the GET or the decoding of its body raises, the quote
    fetcher returns 500 with the text of the exception as the error, and
    stores nothing. *)
Theorem fetch_failure_is_500
    (str_upper : string → string)
    (parse_float : string → option spec_float) (parse_int : string → option Z)
    (sv : QuoteFetcher.services) (event secret api_key : value) (symbol : string)
    (e : exn) (b : QuoteFetcher.bucket) :
  QuoteFetcher.get_secret_value sv "/api/key" = Return secret →
  getitem secret "api_key" = Return api_key →
  get event "symbol" (VStr "TSLA") ≫= QuoteFetcher.upper str_upper = Return symbol →
  QuoteFetcher.urlopen sv symbol api_key = Raise e →
  QuoteFetcher.lambda_handler str_upper parse_float parse_int sv event b
  = (Return (QuoteFetcher.reply 500 (VDict {[ "error" := VStr (exn_str e) ]})), b).
Proof.
  intros Hsecret Hkey Hsymbol Hget. unfold QuoteFetcher.lambda_handler.
  erewrite bind_run; [|unfold lift; by rewrite Hsecret].
  erewrite bind_run; [|unfold lift; by rewrite Hkey].
  erewrite bind_run; [|unfold lift; by rewrite Hsymbol].
  by rewrite Hget.
Qed.

Lemma fetch_failure_is_500_witness :
  QuoteFetcher.lambda_handler id Samples.parse_float Samples.parse_int
    Samples.services_offline Samples.ibm_event ∅
  = (Return (QuoteFetcher.reply 500
               (VDict {[ "error" := VStr "<urlopen error timed out>" ]})), ∅).
Proof.
  exact (fetch_failure_is_500 id Samples.parse_float Samples.parse_int
           Samples.services_offline Samples.ibm_event
           (VDict {[ "api_key" := VStr "demo" ]}) (VStr "demo") "IBM"
           (PyError "URLError" "<urlopen error timed out>") ∅
           eq_refl eq_refl eq_refl eq_refl).
Defined.

(** X2: the quote fetcher writes to the bucket only when it returns 200:
    then the put went through and the raw payload is stored under
    "<symbol>.json"; in every other case, a response with another status
    or an exception, the bucket is as it was. *)
Theorem payload_stored_only_on_200
    (str_upper : string → string)
    (parse_float : string → option spec_float) (parse_int : string → option Z)
    (sv : QuoteFetcher.services) (event : value) (b : QuoteFetcher.bucket) :
  let run := QuoteFetcher.lambda_handler str_upper parse_float parse_int sv event b in
  (∃ r symbol data,
     run = (Return r, <[symbol ++ ".json" := data]> b) ∧
     statusCode r = 200 ∧
     QuoteFetcher.fetched str_upper sv event symbol data ∧
     QuoteFetcher.put_object sv "stock-agent-sriram" (symbol ++ ".json") = Return tt) ∨
  (run.2 = b ∧ ∀ r, run.1 = Return r → statusCode r ≠ 200).
Proof.
  intros run. subst run. unfold QuoteFetcher.lambda_handler.
  destruct (QuoteFetcher.get_secret_value sv "/api/key") as [secret|e] eqn:Hsecret.
  2: { right. by erewrite bind_raise by reflexivity. }
  erewrite bind_run by reflexivity. cbv beta.
  destruct (getitem secret "api_key") as [api_key|e] eqn:Hkey.
  2: { right. by erewrite bind_raise by reflexivity. }
  erewrite bind_run by reflexivity. cbv beta.
  destruct (get event "symbol" (VStr "TSLA") ≫= QuoteFetcher.upper str_upper)
    as [symbol|e] eqn:Hsymbol.
  2: { right. by erewrite bind_raise by reflexivity. }
  erewrite bind_run by reflexivity. cbv beta.
  destruct (QuoteFetcher.urlopen sv symbol api_key) as [data|e] eqn:Hget;
    [|right; split; [done|]; by intros r [= <-]].
  destruct (classify_cases parse_float parse_int sv symbol data b)
    as [(r & -> & Hr) | [(e & ->) | ->]].
  - right. split; [done|]. by intros r' [= <-].
  - by right.
  - destruct (success_path_cases parse_float parse_int sv symbol data b)
      as [(r & -> & Hr & Hput) | (e & ->)]; [left|by right].
    exists r, symbol, data. repeat split; try done. by exists secret, api_key.
Qed.

(** X3: a payload that passes the three checks with an empty
    "Time Series (Daily)" map makes the quote fetcher raise [IndexError]
    at [sorted(...)[0]]: no response is returned and nothing is stored. *)
Theorem empty_series_raises
    (str_upper : string → string)
    (parse_float : string → option spec_float) (parse_int : string → option Z)
    (sv : QuoteFetcher.services) (event : value) (symbol : string)
    (m : gmap string value) (b : QuoteFetcher.bucket) :
  QuoteFetcher.fetched str_upper sv event symbol (VDict m) →
  m !! "Error Message" = None → m !! "Note" = None → m !! "Information" = None →
  m !! "Time Series (Daily)" = Some (VDict ∅) →
  QuoteFetcher.lambda_handler str_upper parse_float parse_int sv event b
  = (Raise (IndexError "list index out of range"), b).
Proof.
  intros Hfetched Hem Hnote Hinfo Hts.
  rewrite (lambda_handler_fetched _ _ _ _ _ _ _ _ Hfetched), classify_dict.
  rewrite Hem, Hnote, Hinfo, Hts.
  rewrite !bool_decide_eq_false_2 by (by intros [? ?]).
  rewrite bool_decide_eq_true_2 by (by eexists). simpl.
  unfold QuoteFetcher.success_path.
  erewrite bind_run; [|unfold lift; simpl; by rewrite Hts].
  erewrite bind_run; [|reflexivity].
  apply bind_raise. unfold lift. simpl. by rewrite map_to_list_empty.
Qed.

Lemma empty_series_raises_witness :
  QuoteFetcher.lambda_handler id Samples.parse_float Samples.parse_int
    (Samples.services_with (VDict Samples.no_days)) Samples.ibm_event ∅
  = (Raise (IndexError "list index out of range"), ∅).
Proof.
  apply (empty_series_raises id Samples.parse_float Samples.parse_int
           (Samples.services_with (VDict Samples.no_days)) Samples.ibm_event "IBM"
           Samples.no_days ∅); try reflexivity.
  by eexists _, _.
Defined.

(** X4: an event without a "symbol" is a request for TSLA: the GET is
    made for the upper-cased default, and the 400 of an invalid symbol
    names it. *)
Theorem default_symbol_is_TSLA
    (str_upper : string → string)
    (parse_float : string → option spec_float) (parse_int : string → option Z)
    (sv : QuoteFetcher.services) (ev : gmap string value) (secret api_key : value)
    (m : gmap string value) (b : QuoteFetcher.bucket) :
  ev !! "symbol" = None →
  QuoteFetcher.get_secret_value sv "/api/key" = Return secret →
  getitem secret "api_key" = Return api_key →
  QuoteFetcher.urlopen sv (str_upper "TSLA") api_key = Return (VDict m) →
  is_Some (m !! "Error Message") →
  QuoteFetcher.lambda_handler str_upper parse_float parse_int sv (VDict ev) b
  = (Return (QuoteFetcher.reply 400
               (VDict {[ "error" := VStr ("Invalid symbol: " ++ str_upper "TSLA") ]})), b).
Proof.
  intros Hev Hsecret Hkey Hget Hem.
  assert (QuoteFetcher.fetched str_upper sv (VDict ev) (str_upper "TSLA") (VDict m))
    as Hfetched.
  { exists secret, api_key. repeat split; try done. simpl. by rewrite Hev. }
  rewrite (lambda_handler_fetched _ _ _ _ _ _ _ _ Hfetched), classify_dict.
  by rewrite bool_decide_eq_true_2.
Qed.

Lemma default_symbol_is_TSLA_witness :
  QuoteFetcher.lambda_handler id Samples.parse_float Samples.parse_int
    (Samples.services_with (VDict Samples.unknown_symbol)) (VDict ∅) ∅
  = (Return (QuoteFetcher.reply 400
               (VDict {[ "error" := VStr "Invalid symbol: TSLA" ]})), ∅).
Proof.
  apply (default_symbol_is_TSLA id Samples.parse_float Samples.parse_int
           (Samples.services_with (VDict Samples.unknown_symbol)) ∅
           (VDict {[ "api_key" := VStr "demo" ]}) (VStr "demo")
           Samples.unknown_symbol ∅); try reflexivity.
  by eexists.
Defined.

(** ** The chat proxy: what the handlers leave alone *)

Section KeepsTable.
Import ChatProxy.

Lemma keeps_table_ret {A} (a : A) : keeps_table (mret a).
Proof. by intros w. Qed.

Lemma keeps_table_raise {A} (e : exn) : keeps_table (raise (A:=A) e).
Proof. by intros w. Qed.

Lemma keeps_table_lift {A} (o : outcome A) : keeps_table (lift o).
Proof. by intros w. Qed.

Lemma keeps_table_print (line : string) : keeps_table (print line).
Proof. by intros w. Qed.

Lemma keeps_table_time_time : keeps_table time_time.
Proof. by intros w. Qed.

Lemma keeps_table_bind {A B} (m : M world A) (f : A → M world B) :
  keeps_table m → (∀ a, keeps_table (f a)) → keeps_table (m ≫= f).
Proof.
  intros Hm Hf w. unfold mbind, M_bind. specialize (Hm w).
  destruct (m w) as [[a|e] w1]; simpl in *; [|done].
  by rewrite Hf.
Qed.

Lemma keeps_table_try_except {A} (m : M world A) (h : exn → M world A) :
  keeps_table m → (∀ e, keeps_table (h e)) → keeps_table (try_except m h).
Proof.
  intros Hm Hh w. unfold try_except. specialize (Hm w).
  destruct (m w) as [[a|e] w1]; simpl in *; [done|].
  by rewrite Hh.
Qed.

Lemma keeps_table_get_item session_id : keeps_table (get_item session_id).
Proof.
  intros w. unfold get_item. run_M.
  destruct (db_fault w (db_calls w)); [done|]. by destruct session_id.
Qed.

Lemma keeps_table_scan : keeps_table scan.
Proof. intros w. unfold scan. run_M. by destruct (db_fault w (db_calls w)). Qed.

Lemma always_returns_try_except {A} (m : M world A) (h : exn → M world A) :
  (∀ e, always_returns (h e)) → always_returns (try_except m h).
Proof.
  intros Hh w. unfold try_except.
  destruct (m w) as [[a|e] w1]; [by exists a|]. apply Hh.
Qed.

Lemma always_returns_report {A} (line : string) (a : A) :
  always_returns (print line;; mret a).
Proof. intros w. by exists a. Qed.

Context (isoformat : Q → outcome string) (str_of : value → string)
    (str_of_stored : stored → string).

Lemma keeps_table_format_message msg :
  keeps_table (format_message isoformat str_of_stored msg).
Proof.
  apply keeps_table_try_except.
  - repeat (apply keeps_table_bind; [apply keeps_table_lift|intros ?]).
    destruct (number _); [|apply keeps_table_ret].
    apply keeps_table_bind; [apply keeps_table_lift|intros ?]. apply keeps_table_ret.
  - intros e. apply keeps_table_bind; [apply keeps_table_print|intros ?].
    repeat (apply keeps_table_bind; [apply keeps_table_lift|intros ?]).
    apply keeps_table_bind; [apply keeps_table_time_time|intros ?].
    apply keeps_table_bind; [apply keeps_table_lift|intros ?]. apply keeps_table_ret.
Qed.

Lemma keeps_table_format_messages msgs :
  keeps_table (format_messages isoformat str_of_stored msgs).
Proof.
  induction msgs as [|msg msgs IH]; simpl; [apply keeps_table_ret|].
  apply keeps_table_bind; [apply keeps_table_format_message|intros ?].
  apply keeps_table_bind; [exact IH|intros ?]. apply keeps_table_ret.
Qed.

Lemma keeps_table_load body :
  keeps_table (handle_load_conversation isoformat str_of str_of_stored body).
Proof.
  apply keeps_table_try_except.
  - apply keeps_table_bind; [apply keeps_table_lift|intros session_id].
    destruct (negb (truthy session_id)).
    + apply keeps_table_bind; [apply keeps_table_print|intros ?]. apply keeps_table_ret.
    + apply keeps_table_bind; [apply keeps_table_get_item|intros [item|]].
      * apply keeps_table_bind; [apply keeps_table_format_messages|intros ?].
        apply keeps_table_bind; [apply keeps_table_lift|intros ?].
        apply keeps_table_ret.
      * apply keeps_table_bind; [apply keeps_table_print|intros ?]. apply keeps_table_ret.
  - intros e. apply keeps_table_bind; [apply keeps_table_print|intros ?].
    apply keeps_table_ret.
Qed.

Lemma keeps_table_list : keeps_table handle_list_conversations.
Proof.
  apply keeps_table_try_except.
  - apply keeps_table_bind; [apply keeps_table_scan|intros ?].
    apply keeps_table_bind; [apply keeps_table_lift|intros ?]. apply keeps_table_ret.
  - intros e. apply keeps_table_bind; [apply keeps_table_print|intros ?].
    apply keeps_table_ret.
Qed.
End KeepsTable.

(** X5: the load handler is read-only and total: for every body and
    every world it returns a response, whatever the store and the
    formatting of the messages do, and it leaves the table as it was. *)
Theorem load_is_read_only
    (isoformat : Q → outcome string) (str_of : value → string)
    (str_of_stored : stored → string)
    (body : value) (w : ChatProxy.world) :
  let run := ChatProxy.handle_load_conversation isoformat str_of str_of_stored body w in
  (∃ r, run.1 = Return r) ∧ ChatProxy.table run.2 = ChatProxy.table w.
Proof.
  split; [|apply keeps_table_load].
  apply always_returns_try_except. intros e. apply always_returns_report.
Qed.

(** X6: the list handler is read-only and total: it returns a response
    for every world, also when the scan fails, and it leaves the table
    as it was. *)
Theorem list_is_read_only (w : ChatProxy.world) :
  let run := ChatProxy.handle_list_conversations w in
  (∃ r, run.1 = Return r) ∧ ChatProxy.table run.2 = ChatProxy.table w.
Proof.
  split; [|apply keeps_table_list].
  apply always_returns_try_except. intros e. apply always_returns_report.
Qed.

(** X7: the dispatcher lets no exception out: for every event, whatever
    the decoder, the agent, the store and the clock do, it returns a
    response. *)
Theorem dispatcher_never_raises
    (isoformat : Q → outcome string) (str_of : value → string)
    (str_of_stored : stored → string)
    (json_loads : value → outcome value)
    (event : value) (ctx : ChatProxy.context) (w : ChatProxy.world) :
  ∃ r, (ChatProxy.lambda_handler isoformat str_of str_of_stored json_loads event ctx w).1 = Return r.
Proof.
  apply always_returns_try_except. intros e w'.
  destruct (ChatProxy.is_JSONDecodeError e); by eexists.
Qed.

(** ** The chat proxy: more on sending *)

Section SendMore.
Import ChatProxy.

Lemma keeps_table_accumulate stream_start events completion :
  keeps_table (accumulate stream_start events completion).
Proof.
  revert completion. induction events as [|[ev|e] events IH]; intros completion; simpl.
  - apply keeps_table_ret.
  - apply keeps_table_bind; [apply keeps_table_time_time|intros now].
    destruct (timed_out stream_start now).
    + apply keeps_table_bind; [apply keeps_table_print|intros ?]. apply keeps_table_ret.
    + destruct ev as [[[text|]|]|]; apply IH.
  - apply keeps_table_raise.
Qed.

Lemma keeps_table_agent_reply session_id user_message :
  keeps_table (agent_reply session_id user_message).
Proof.
  apply keeps_table_bind; [by intros w|intros response].
  apply keeps_table_bind; [apply keeps_table_time_time|intros stream_start].
  apply keeps_table_bind; [apply keeps_table_accumulate|intros ?]. apply keeps_table_ret.
Qed.

(** A stream that raises after events that all came in time: the loop
    raises the same exception, and prints nothing. *)
Lemma accumulate_throw stream_start (events : list event) e rest :
  ∀ completion w,
    (∀ j, (j < length events)%nat →
       timed_out stream_start (clock w (ticks w + j)%nat) = false) →
    ∃ w', accumulate stream_start ((Yield <$> events) ++ Throw e :: rest)%list completion w
          = (Raise e, w') ∧ stdout w' = stdout w.
Proof.
  induction events as [|ev events IH]; intros completion w Hbefore; simpl.
  { by eexists. }
  unfold mbind, M_bind, time_time. simpl.
  rewrite <- (Nat.add_0_r (ticks w)), (Hbefore 0%nat) by (simpl; lia).
  assert (∀ c, ∃ w', accumulate stream_start ((Yield <$> events) ++ Throw e :: rest)%list c
                       (tick w) = (Raise e, w') ∧ stdout w' = stdout w) as Hrest.
  { intros c. destruct (IH c (tick w)) as (w' & Hrun & Hout); [|by exists w'].
    intros j Hj. simpl. rewrite <- Nat.add_succ_r. apply Hbefore. simpl. lia. }
  destruct ev as [[[text|]|]|]; apply Hrest.
Qed.

(** The loop leaves the list of invocations, and the agent phase adds
    its one invocation to it, whatever it returns or raises. *)
Lemma invoked_accumulate stream_start events completion w :
  invoked (accumulate stream_start events completion w).2 = invoked w.
Proof.
  revert completion w. induction events as [|[ev|e] events IH]; intros completion w; simpl;
    [done| |done].
  unfold mbind, M_bind, time_time. simpl.
  destruct (timed_out stream_start (clock w (ticks w))); [done|].
  destruct ev as [[[text|]|]|]; by rewrite IH.
Qed.

Lemma invoked_agent_reply session_id user_message w :
  invoked (agent_reply session_id user_message w).2
  = (invoked w ++ [(session_id, user_message)])%list.
Proof.
  unfold agent_reply, mbind, M_bind, time_time.
  destruct (invoke_agent w session_id user_message) as [response|e]; [|done]. simpl.
  pose proof (invoked_accumulate
                (clock w (ticks w)) (default [] (completion response)) ""
                (tick (log_invocation session_id user_message w))) as Hacc.
  by destruct (accumulate _ _ _ _) as [[text|e] w1].
Qed.

Lemma strip_NO_RESPONSE : strip NO_RESPONSE = NO_RESPONSE.
Proof. reflexivity. Qed.

(** With a string key, a time that has its milliseconds and a store
    that answers its next two calls, the save returns and has written
    the item. *)
Lemma save_no_fault k user_message bot_response t w :
  millis (clock w (ticks w)) = Return t →
  db_fault w (db_calls w) = None →
  db_fault w (S (db_calls w)) = None →
  ∃ w', save_message_to_db (VStr k) user_message bot_response w = (Return tt, w') ∧
    invoked w' = invoked w ∧
    table w' = <[k := saved (table w !! k) user_message bot_response t]> (table w).
Proof.
  intros Hms Hf1 Hf2.
  destruct (save_cases (VStr k) user_message bot_response w)
    as [(e & w' & Hrun & _) | (k' & t' & w' & [= <-] & Hms' & Hrun & _ & Hinv & Ht)].
  - exfalso. revert Hrun. unfold save_message_to_db. run_M. rewrite Hms, Hf1. simpl.
    destruct (table w !! k); simpl; by rewrite Hf2.
  - exists w'. rewrite Hms in Hms'. injection Hms' as <-. done.
Qed.
End SendMore.

(** X8: a send request whose message is missing, empty or nothing but
    whitespace gets 400 "Empty message"; the world is as it was: the
    agent has not been invoked and the store has not been called. *)
Theorem empty_message_is_400
    (m : gmap string value) (ctx : ChatProxy.context) (w : ChatProxy.world) :
  (m !! "message" = None ∨ ∃ s, m !! "message" = Some (VStr s) ∧ strip s = "") →
  let run := ChatProxy.handle_send_message (VDict m) ctx w in
  run = (Return {| statusCode := 400; isBase64Encoded := Some false;
                   headers := Some ChatProxy.cors;
                   body := VDict {[ "error" := VStr "Empty message" ]} |}, w) ∧
  ChatProxy.invoked run.2 = ChatProxy.invoked w ∧
  ChatProxy.db_calls run.2 = ChatProxy.db_calls w.
Proof.
  intros Hmessage run. subst run. unfold ChatProxy.handle_send_message.
  assert (get (VDict m) "message" (VStr "") ≫= strip_method = Return "") as Hstrip.
  { simpl. by destruct Hmessage as [->|(s & -> & <-)]. }
  erewrite bind_run; [|unfold lift; by rewrite Hstrip].
  by erewrite bind_run.
Qed.

Lemma empty_message_is_400_witness :
  let m : gmap string value := {[ "action" := VStr "send"; "message" := VStr "  " ]} in
  let w := Samples.world_with ∅ Samples.seconds Samples.answer in
  let run := ChatProxy.handle_send_message (VDict m) Samples.request w in
  run = (Return {| statusCode := 400; isBase64Encoded := Some false;
                   headers := Some ChatProxy.cors;
                   body := VDict {[ "error" := VStr "Empty message" ]} |}, w) ∧
  ChatProxy.invoked run.2 = [] ∧
  ChatProxy.db_calls run.2 = 0%nat.
Proof.
  apply (empty_message_is_400 {[ "action" := VStr "send"; "message" := VStr "  " ]}
           Samples.request (Samples.world_with ∅ Samples.seconds Samples.answer)).
  right. by eexists.
Defined.

(** X9: when the agent invocation raises a [ClientError], the send
    handler returns 500 "Bedrock service error" with the error's message
    as details, logs the code and the message, and saves nothing: but
    for the log line and the one invocation, the world is as it was. *)
Theorem agent_ClientError_is_500
    (body : value) (ctx : ChatProxy.context) (user_message : string)
    (session_id : value) (code msg text : string) (w : ChatProxy.world) :
  get body "message" (VStr "") ≫= strip_method = Return user_message →
  user_message ≠ "" →
  get body "sessionId" (VStr ("session-" ++ ChatProxy.aws_request_id ctx))
  = Return session_id →
  ChatProxy.invoke_agent w session_id user_message = Raise (ClientError code msg text) →
  ChatProxy.handle_send_message body ctx w
  = (Return (ChatProxy.reply 500 (VDict {[ "error" := VStr "Bedrock service error";
                                           "details" := VStr msg ]})),
     ChatProxy.write_line ("Bedrock ClientError " ++ code ++ ": " ++ msg)
       (ChatProxy.log_invocation session_id user_message w)).
Proof.
  intros Hmessage Hne Hsession Hinvoke. unfold ChatProxy.handle_send_message.
  erewrite bind_run; [|unfold lift; by rewrite Hmessage].
  erewrite bind_run; [|unfold lift; by rewrite Hsession].
  destruct (String.eqb_spec user_message "") as [|_]; [done|].
  unfold ChatProxy.try_except_ClientError.
  erewrite bind_raise
    by (unfold ChatProxy.agent_reply; apply bind_raise; by rewrite Hinvoke).
  done.
Qed.

Lemma agent_ClientError_is_500_witness :
  let w := Samples.world_of {[ "s1" := Samples.started 5000 ]}
             (λ _ _, Raise Samples.throttling) in
  ChatProxy.handle_send_message Samples.send_body Samples.request w
  = (Return (ChatProxy.reply 500 (VDict {[ "error" := VStr "Bedrock service error";
                                           "details" := VStr "Rate exceeded" ]})),
     ChatProxy.write_line "Bedrock ClientError ThrottlingException: Rate exceeded"
       (ChatProxy.log_invocation (VStr "s1") "And today?" w)).
Proof.
  exact (agent_ClientError_is_500 Samples.send_body Samples.request "And today?"
           (VStr "s1") "ThrottlingException" "Rate exceeded"
           "An error occurred (ThrottlingException): Rate exceeded"
           (Samples.world_of {[ "s1" := Samples.started 5000 ]}
              (λ _ _, Raise Samples.throttling))
           eq_refl ltac:(done) eq_refl eq_refl).
Defined.

(** X10: when the stream raises a [ClientError] after chunks that came
    in time, the text of those chunks is dropped: the send handler
    returns 500 "Bedrock service error" and the table is as it was. *)
Theorem stream_error_is_500
    (body : value) (ctx : ChatProxy.context) (user_message : string)
    (session_id : value) (events : list ChatProxy.event)
    (code msg text : string) (rest : list ChatProxy.stream_item)
    (w : ChatProxy.world) :
  get body "message" (VStr "") ≫= strip_method = Return user_message →
  user_message ≠ "" →
  get body "sessionId" (VStr ("session-" ++ ChatProxy.aws_request_id ctx))
  = Return session_id →
  ChatProxy.invoke_agent w session_id user_message
  = Return {| ChatProxy.completion :=
                Some ((ChatProxy.Yield <$> events) ++
                      ChatProxy.Throw (ClientError code msg text) :: rest)%list |} →
  (∀ j, (j < length events)%nat →
     (ChatProxy.clock w (S (ChatProxy.ticks w) + j)%nat
      - ChatProxy.clock w (ChatProxy.ticks w) <= 30)%Q) →
  let run := ChatProxy.handle_send_message body ctx w in
  run.1 = Return (ChatProxy.reply 500 (VDict {[ "error" := VStr "Bedrock service error";
                                              "details" := VStr msg ]})) ∧
  ChatProxy.table run.2 = ChatProxy.table w ∧
  ChatProxy.stdout run.2
  = (ChatProxy.stdout w ++ [("Bedrock ClientError " ++ code ++ ": " ++ msg)%string])%list.
Proof.
  intros Hmessage Hne Hsession Hinvoke Hbefore run. subst run.
  unfold ChatProxy.handle_send_message.
  erewrite bind_run; [|unfold lift; by rewrite Hmessage].
  erewrite bind_run; [|unfold lift; by rewrite Hsession].
  destruct (String.eqb_spec user_message "") as [|_]; [done|].
  destruct (accumulate_throw (ChatProxy.clock w (ChatProxy.ticks w)) events
              (ClientError code msg text) rest ""
              (ChatProxy.tick (ChatProxy.log_invocation session_id user_message w)))
    as (w1 & Hacc & Hout).
  { intros j Hj. apply timed_out_false. by apply Hbefore. }
  assert (ChatProxy.agent_reply session_id user_message w
          = (Raise (ClientError code msg text), w1)) as Hreply.
  { unfold ChatProxy.agent_reply.
    erewrite bind_run; [|by rewrite Hinvoke].
    erewrite bind_run; [|reflexivity]. simpl. by apply bind_raise. }
  pose proof (keeps_table_agent_reply session_id user_message w) as Htable.
  rewrite Hreply in Htable. simpl in Htable.
  unfold ChatProxy.try_except_ClientError.
  erewrite bind_raise; [|exact Hreply]. simpl.
  split; [done|]. split; [done|]. by rewrite Hout.
Qed.

Lemma stream_error_is_500_witness :
  let stream := [ChatProxy.Yield (ChatProxy.Chunk (Some (ChatProxy.Text "It closed ")));
                 ChatProxy.Throw Samples.throttling] in
  let w := Samples.world_with {[ "s1" := Samples.started 5000 ]} Samples.seconds stream in
  let run := ChatProxy.handle_send_message Samples.send_body Samples.request w in
  run.1 = Return (ChatProxy.reply 500 (VDict {[ "error" := VStr "Bedrock service error";
                                              "details" := VStr "Rate exceeded" ]})) ∧
  ChatProxy.table run.2 = {[ "s1" := Samples.started 5000 ]} ∧
  ChatProxy.stdout run.2 = ["Bedrock ClientError ThrottlingException: Rate exceeded"].
Proof.
  assert (∀ j, (j < 1)%nat →
            (Samples.seconds (1 + j) - Samples.seconds 0 <= 30)%Q) as Hbefore.
  { intros j Hj. assert (j = 0%nat) as -> by lia. by vm_compute. }
  exact (stream_error_is_500 Samples.send_body Samples.request "And today?" (VStr "s1")
           [ChatProxy.Chunk (Some (ChatProxy.Text "It closed "))]
           "ThrottlingException" "Rate exceeded"
           "An error occurred (ThrottlingException): Rate exceeded" []
           (Samples.world_with {[ "s1" := Samples.started 5000 ]} Samples.seconds
              [ChatProxy.Yield (ChatProxy.Chunk (Some (ChatProxy.Text "It closed ")));
               ChatProxy.Throw Samples.throttling])
           eq_refl ltac:(done) eq_refl eq_refl Hbefore).
Defined.

(** X11: a 200 of the send handler never carries a blank response: its
    body is {response, sessionId} with the sessionId the request named
    (or the one derived from the request id) and a response text that
    is not empty. *)
Theorem response_is_never_blank
    (request : value) (ctx : ChatProxy.context) (w w' : ChatProxy.world) (r : response) :
  ChatProxy.handle_send_message request ctx w = (Return r, w') →
  statusCode r = 200 →
  ∃ text session_id,
    body r = VDict {[ "response" := VStr text; "sessionId" := session_id ]} ∧
    text ≠ "" ∧
    get request "sessionId" (VStr ("session-" ++ ChatProxy.aws_request_id ctx))
    = Return session_id.
Proof.
  unfold ChatProxy.handle_send_message. intros Hrun H200.
  apply bind_Return in Hrun as (user_message & w1 & [Hmessage ->]%lift_Return & Hrun).
  apply bind_Return in Hrun as (session_id & w1 & [Hsession ->]%lift_Return & Hrun).
  destruct (String.eqb user_message ""); [by injection Hrun as <- _|].
  unfold ChatProxy.try_except_ClientError in Hrun.
  match type of Hrun with
  | (let (_, _) := ?m w in _) = _ => destruct (m w) as [[r0|[code msg text|cls text]] w0] eqn:Hm
  end; [|by injection Hrun as <- _|done].
  injection Hrun as -> ->.
  apply bind_Return in Hm as (completion & w1 & Hreply & Hm).
  apply bind_Return in Hm as ([] & w2 & _ & [= <- _]).
  exists (strip completion), session_id. split; [done|]. split; [|done].
  unfold ChatProxy.agent_reply in Hreply.
  apply bind_Return in Hreply as (response & w3 & _ & Hreply).
  apply bind_Return in Hreply as (stream_start & w4 & _ & Hreply).
  apply bind_Return in Hreply as (text & w5 & _ & [= <- _]).
  destruct (String.eqb_spec (strip text) "") as [|Hne]; [done|exact Hne].
Qed.

Lemma response_is_never_blank_witness :
  let stream := [ChatProxy.Yield (ChatProxy.Chunk (Some (ChatProxy.Text "   ")));
                 ChatProxy.Yield (ChatProxy.Chunk (Some ChatProxy.Undecodable))] in
  let w := Samples.world_with ∅ Samples.seconds stream in
  let run := ChatProxy.handle_send_message Samples.send_body Samples.request w in
  run.1 = Return (ChatProxy.ok_response ChatProxy.NO_RESPONSE (VStr "s1")) ∧
  ∃ text session_id,
    VDict {[ "response" := VStr "Agent returned no response. Try rephrasing your query.";
             "sessionId" := VStr "s1" ]}
    = VDict {[ "response" := VStr text; "sessionId" := session_id ]} ∧
    text ≠ "" ∧
    get Samples.send_body "sessionId" (VStr "session-r-1") = Return session_id.
Proof.
  split; [reflexivity|].
  exact (response_is_never_blank Samples.send_body Samples.request
           (Samples.world_with ∅ Samples.seconds
              [ChatProxy.Yield (ChatProxy.Chunk (Some (ChatProxy.Text "   ")));
               ChatProxy.Yield (ChatProxy.Chunk (Some ChatProxy.Undecodable))])
           _ _ eq_refl eq_refl).
Defined.

(** X12: a send whose agent phase returns and whose store answers
    returns 200 with the stripped response and stores the exchange
    under the session's key: the item found there, or a new one, with
    the user message and the stripped response appended and stamped
    with the time of the save, in a table that is otherwise the one
    before the request.  The agent has been invoked once, with the
    session and the stripped message. *)
Theorem send_persists_exchange
    (request : value) (ctx : ChatProxy.context) (user_message k completion : string)
    (t : Z) (w w1 : ChatProxy.world) :
  get request "message" (VStr "") ≫= strip_method = Return user_message →
  user_message ≠ "" →
  get request "sessionId" (VStr ("session-" ++ ChatProxy.aws_request_id ctx))
  = Return (VStr k) →
  ChatProxy.agent_reply (VStr k) user_message w = (Return completion, w1) →
  int_of_float (float_mul (float_of_Q (ChatProxy.clock w1 (ChatProxy.ticks w1)))
                  (binary64 1000 0)) = Return t →
  ChatProxy.db_fault w1 (ChatProxy.db_calls w1) = None →
  ChatProxy.db_fault w1 (S (ChatProxy.db_calls w1)) = None →
  let run := ChatProxy.handle_send_message request ctx w in
  (∃ r, run.1 = Return r ∧ statusCode r = 200 ∧
     body r = VDict {[ "response" := VStr (strip completion); "sessionId" := VStr k ]}) ∧
  (∃ it', ChatProxy.table run.2 !! k = Some it' ∧
     ChatProxy.Item.messages it'
     = Some ((as_read <$> default [] (ChatProxy.table w !! k ≫= ChatProxy.Item.messages)) ++
             [SDict {[ "role" := SStr "user"; "content" := SStr user_message;
                       "timestamp" := SInt t ]};
              SDict {[ "role" := SStr "assistant"; "content" := SStr (strip completion);
                       "timestamp" := SInt (t + 1) ]}])%list ∧
     ChatProxy.Item.updatedAt it' = Some t) ∧
  (∀ k', k' ≠ k → ChatProxy.table run.2 !! k' = ChatProxy.table w !! k') ∧
  ChatProxy.invoked run.2 = (ChatProxy.invoked w ++ [(VStr k, user_message)])%list.
Proof.
  intros Hmessage Hne Hsession Hreply Hms Hf1 Hf2 run. subst run.
  rewrite (send_after_reply _ _ _ _ _ _ _ Hmessage Hne Hsession Hreply).
  split; [by eexists|]. simpl. rewrite save_best_effort_run.
  destruct (save_no_fault k user_message (strip completion) t w1 Hms Hf1 Hf2)
    as (w2 & Hsave & Hinvoked & Htable).
  rewrite Hsave. simpl.
  pose proof (keeps_table_agent_reply (VStr k) user_message w) as Hkept.
  rewrite Hreply in Hkept. simpl in Hkept.
  pose proof (invoked_agent_reply (VStr k) user_message w) as Hlogged.
  rewrite Hreply in Hlogged. simpl in Hlogged.
  rewrite Htable, Hkept. split; [|split].
  - eexists. split; [apply lookup_insert_eq|].
    destruct (ChatProxy.table w !! k) as [it|]; simpl; [|done].
    by destruct (ChatProxy.Item.messages it).
  - intros k' Hk'. by rewrite lookup_insert_ne.
  - by rewrite Hinvoked.
Qed.

Lemma send_persists_exchange_witness :
  let w := Samples.world_with {[ "s1" := Samples.started 5000 ]} Samples.seconds
             Samples.answer in
  let run := ChatProxy.handle_send_message Samples.send_body Samples.request w in
  (∃ r, run.1 = Return r ∧ statusCode r = 200 ∧
     body r = VDict {[ "response" := VStr "It closed at 102."; "sessionId" := VStr "s1" ]}) ∧
  (∃ it', ChatProxy.table run.2 !! "s1" = Some it' ∧
     ChatProxy.Item.messages it'
     = Some [SDict {[ "role" := SStr "user"; "content" := SStr "Price of IBM";
                      "timestamp" := SDecimal 5000 ]};
             SDict {[ "role" := SStr "assistant"; "content" := SStr "It closed at 101.";
                      "timestamp" := SDecimal 5001 ]};
             SDict {[ "role" := SStr "user"; "content" := SStr "And today?";
                      "timestamp" := SInt 3000 ]};
             SDict {[ "role" := SStr "assistant"; "content" := SStr "It closed at 102.";
                      "timestamp" := SInt 3001 ]}] ∧
     ChatProxy.Item.updatedAt it' = Some 3000) ∧
  (∀ k', k' ≠ "s1" → ChatProxy.table run.2 !! k' = ChatProxy.table w !! k') ∧
  ChatProxy.invoked run.2 = [(VStr "s1", "And today?")].
Proof.
  exact (send_persists_exchange Samples.send_body Samples.request "And today?" "s1"
           "It closed at 102." 3000
           (Samples.world_with {[ "s1" := Samples.started 5000 ]} Samples.seconds
              Samples.answer) _
           eq_refl ltac:(done) eq_refl eq_refl eq_refl eq_refl eq_refl).
Defined.

(** ** The chat proxy: what a save stores *)

Lemma slice_to_length (n : nat) (s : string) :
  String.length (slice_to n s) = Nat.min n (String.length s).
Proof.
  revert s. induction n as [|n IH]; intros [|c s]; simpl; try done.
  by rewrite IH.
Qed.

Lemma slice_to_prefix (n : nat) (s : string) : ∃ rest, s = slice_to n s ++ rest.
Proof.
  revert s. induction n as [|n IH]; intros s.
  - exists s. by destruct s.
  - destruct s as [|c s]; [by exists ""|].
    destruct (IH s) as [rest Hrest]. exists rest.
    change (String c s = String c (slice_to n s ++ rest)). by rewrite <- Hrest.
Qed.

(** X13: a save only appends: the messages stored are the ones read
    under the key followed by the user message and the response, whose
    timestamps are the time of the save in milliseconds, the [int] of
    the float product of the reading and 1000, and the millisecond
    after; [updatedAt] is that time, and so is [createdAt] of a record
    that is new. *)
Theorem save_appends_exchange
    (k user_message bot_response : string) (w w' : ChatProxy.world) :
  ChatProxy.save_message_to_db (VStr k) user_message bot_response w = (Return tt, w') →
  let now := ChatProxy.clock w (ChatProxy.ticks w) in
  let before := default [] (ChatProxy.table w !! k ≫= ChatProxy.Item.messages) in
  ∃ t it',
    int_of_float (float_mul (float_of_Q now) (binary64 1000 0)) = Return t ∧
    ChatProxy.table w' !! k = Some it' ∧
    ChatProxy.Item.messages it'
    = Some ((as_read <$> before) ++
            [SDict {[ "role" := SStr "user"; "content" := SStr user_message;
                      "timestamp" := SInt t ]};
             SDict {[ "role" := SStr "assistant"; "content" := SStr bot_response;
                      "timestamp" := SInt (t + 1) ]}])%list ∧
    ChatProxy.Item.updatedAt it' = Some t ∧
    (ChatProxy.table w !! k = None → ChatProxy.Item.createdAt it' = Some t).
Proof.
  intros Hrun now before. subst now before.
  apply save_Return in Hrun as (k0 & t & [= <-] & Hms & Ht).
  eexists t, _. split; [exact Hms|].
  split; [by rewrite Ht, lookup_insert_eq|].
  destruct (ChatProxy.table w !! k) as [it|]; simpl; [|done].
  by destruct (ChatProxy.Item.messages it).
Qed.

Lemma save_appends_exchange_witness :
  let w := Samples.world_with {[ "s1" := Samples.started 5000 ]} Samples.november [] in
  let run := ChatProxy.save_message_to_db (VStr "s1") "And today?" "It closed at 102." w in
  ∃ t it',
    int_of_float (float_mul (float_of_Q (7130316800515899 # 4194304)) (binary64 1000 0))
    = Return t ∧
    ChatProxy.table run.2 !! "s1" = Some it' ∧
    ChatProxy.Item.messages it'
    = Some [SDict {[ "role" := SStr "user"; "content" := SStr "Price of IBM";
                     "timestamp" := SDecimal 5000 ]};
            SDict {[ "role" := SStr "assistant"; "content" := SStr "It closed at 101.";
                     "timestamp" := SDecimal 5001 ]};
            SDict {[ "role" := SStr "user"; "content" := SStr "And today?";
                     "timestamp" := SInt t ]};
            SDict {[ "role" := SStr "assistant"; "content" := SStr "It closed at 102.";
                     "timestamp" := SInt (t + 1) ]}] ∧
    ChatProxy.Item.updatedAt it' = Some t ∧
    (ChatProxy.table w !! "s1" = None → ChatProxy.Item.createdAt it' = Some t).
Proof.
  exact (save_appends_exchange "s1" "And today?" "It closed at 102."
           (Samples.world_with {[ "s1" := Samples.started 5000 ]} Samples.november []) _
           eq_refl).
Defined.

(** The time of that save: the milliseconds of the float that the clock
    reads, one more than the exact product of the reading and 1000
    has. *)
Example millis_of_november :
  ChatProxy.millis (Samples.november 0) = Return 1700000000123 ∧
  (Qnum (Samples.november 0 * 1000) / Z.pos (Qden (Samples.november 0 * 1000)))%Z
  = 1700000000122.
Proof. split; by vm_compute. Qed.

(** X14: what a save stores of the texts is bounded: [lastMessage] is a
    prefix of the response of at most 100 characters, and the title of a
    record that is new has between 1 and 50 characters. *)
Theorem saved_texts_are_short
    (k user_message bot_response : string) (w w' : ChatProxy.world) :
  ChatProxy.save_message_to_db (VStr k) user_message bot_response w = (Return tt, w') →
  ∃ it' last,
    ChatProxy.table w' !! k = Some it' ∧
    ChatProxy.Item.lastMessage it' = Some last ∧
    (String.length last ≤ 100)%nat ∧
    (∃ rest, bot_response = last ++ rest) ∧
    (ChatProxy.table w !! k = None →
     ∃ title, ChatProxy.Item.title it' = Some title ∧
       (1 ≤ String.length title ≤ 50)%nat).
Proof.
  intros Hrun.
  apply save_Return in Hrun as (k0 & t & [= <-] & _ & Ht).
  eexists _, (slice_to 100 bot_response).
  split; [by rewrite Ht, lookup_insert_eq|].
  split; [by destruct (ChatProxy.table w !! k)|].
  split; [rewrite slice_to_length; lia|].
  split; [apply slice_to_prefix|].
  intros ->. simpl. eexists. split; [done|].
  unfold ChatProxy.title_of. destruct user_message as [|c s]; simpl; [lia|].
  rewrite slice_to_length. lia.
Qed.

Lemma saved_texts_are_short_witness :
  let w := Samples.world_with ∅ Samples.seconds [] in
  let run := ChatProxy.save_message_to_db (VStr "s1") "And today?" "It closed at 102." w in
  ∃ it' last,
    ChatProxy.table run.2 !! "s1" = Some it' ∧
    ChatProxy.Item.lastMessage it' = Some last ∧
    (String.length last ≤ 100)%nat ∧
    (∃ rest, "It closed at 102." = last ++ rest) ∧
    (ChatProxy.table w !! "s1" = None →
     ∃ title, ChatProxy.Item.title it' = Some title ∧
       (1 ≤ String.length title ≤ 50)%nat).
Proof.
  exact (saved_texts_are_short "s1" "And today?" "It closed at 102."
           (Samples.world_with ∅ Samples.seconds []) _ eq_refl).
Defined.

(** ** The chat proxy: load, delete and rename against the store *)

Section StoreRuns.
Import ChatProxy.
Context (isoformat : Q → outcome string) (str_of : value → string)
    (str_of_stored : stored → string).

(** A message as the save writes it comes back with a [Decimal] for its
    time, which is not formatted as a date: its text is what [str]
    makes of the [Decimal]. *)
Lemma format_message_saved role content t w :
  format_message isoformat str_of_stored (as_read (message role content t)) w
  = (Return {| Formatted.role := SStr role; Formatted.content := SStr content;
               Formatted.timestamp := str_of_stored (SDecimal t) |}, w).
Proof. reflexivity. Qed.

Lemma format_messages_cons msg msgs f fs w w1 w2 :
  format_message isoformat str_of_stored msg w = (Return f, w1) →
  format_messages isoformat str_of_stored msgs w1 = (Return fs, w2) →
  format_messages isoformat str_of_stored (msg :: msgs) w = (Return (f :: fs), w2).
Proof.
  intros Hf Hfs. simpl.
  erewrite bind_run by exact Hf. by erewrite bind_run by exact Hfs.
Qed.

Lemma get_item_run k w :
  db_fault w (db_calls w) = None →
  get_item (VStr k) w = (Return (Item.as_read <$> table w !! k), count_call w).
Proof. intros Hfault. unfold get_item. run_M. by rewrite Hfault. Qed.

(** The load of a store that answers and holds a record for the key. *)
Lemma load_found (m : gmap string value) k it w :
  m !! "sessionId" = Some (VStr k) →
  k ≠ "" →
  db_fault w (db_calls w) = None →
  table w !! k = Some it →
  handle_load_conversation isoformat str_of str_of_stored (VDict m) w
  = try_except
      (formatted_messages ← format_messages isoformat str_of_stored
                              (as_read <$> default [] (Item.messages it));
       body ← lift (messages ← mapM Formatted.dumps formatted_messages;
                    Return (VDict {[ "messages" := VList messages ]}));
       mret (reply 200 body))
      (λ e,
        print ("❌ Error loading conversation: " ++ exn_str e);;
        mret (reply 500 (VDict {[ "error" := VStr (exn_str e) ]})))
      (count_call w).
Proof.
  intros Hsession Hne Hfault Hk.
  unfold handle_load_conversation, try_except.
  erewrite bind_run; [|reflexivity]. simpl. rewrite Hsession. simpl.
  destruct (String.eqb_spec k "") as [|_]; [done|]. simpl.
  erewrite bind_run; [|by apply get_item_run]. rewrite Hk.
  cbn [fmap option_fmap option_map]. by rewrite messages_as_read.
Qed.

(** The load of a record with one message, when the message is
    formatted without a failure. *)
Lemma load_one (m : gmap string value) k it msg f w w1 :
  m !! "sessionId" = Some (VStr k) →
  k ≠ "" →
  db_fault w (db_calls w) = None →
  table w !! k = Some it →
  Item.messages it = Some [msg] →
  format_message isoformat str_of_stored (as_read msg) (count_call w) = (Return f, w1) →
  handle_load_conversation isoformat str_of str_of_stored (VDict m) w
  = match Formatted.dumps f with
    | Return j => (Return (reply 200 (VDict {[ "messages" := VList [j] ]})), w1)
    | Raise e =>
        (Return (reply 500 (VDict {[ "error" := VStr (exn_str e) ]})),
         write_line ("❌ Error loading conversation: " ++ exn_str e) w1)
    end.
Proof.
  intros Hsession Hne Hfault Hk Hmessages Hformat.
  rewrite (load_found m k it w Hsession Hne Hfault Hk), Hmessages.
  unfold try_except. simpl.
  erewrite (bind_run (format_message _ _ _ ≫= _))
    by (erewrite bind_run by exact Hformat; reflexivity).
  unfold mbind at 1, M_bind at 1, lift. rewrite mapM_cons. simpl.
  by destruct (Formatted.dumps f).
Qed.
End StoreRuns.

(** X15: save and load round trip: after the first save of a session,
    a load of it returns 200 with exactly the two messages, the user's
    and the assistant's, with their contents; their times come back as
    [Decimal]s and are returned as what [str] makes of them, not as
    dates. *)
Theorem save_then_load
    (isoformat : Q → outcome string) (str_of : value → string)
    (str_of_stored : stored → string)
    (k user_message bot_response : string) (m : gmap string value)
    (w w' : ChatProxy.world) :
  k ≠ "" →
  ChatProxy.table w !! k = None →
  ChatProxy.save_message_to_db (VStr k) user_message bot_response w = (Return tt, w') →
  ChatProxy.db_fault w' (ChatProxy.db_calls w') = None →
  m !! "sessionId" = Some (VStr k) →
  ∃ t r,
    int_of_float (float_mul (float_of_Q (ChatProxy.clock w (ChatProxy.ticks w)))
                    (binary64 1000 0)) = Return t ∧
    (ChatProxy.handle_load_conversation isoformat str_of str_of_stored (VDict m) w').1
    = Return r ∧
    statusCode r = 200 ∧
    body r = VDict {[ "messages" :=
      VList [VDict {[ "role" := VStr "user"; "content" := VStr user_message;
                      "timestamp" := VStr (str_of_stored (SDecimal t)) ]};
             VDict {[ "role" := VStr "assistant"; "content" := VStr bot_response;
                      "timestamp" := VStr (str_of_stored (SDecimal (t + 1))) ]}] ]}.
Proof.
  intros Hne Hk Hsave Hfault Hsession.
  apply save_Return in Hsave as (k0 & t & [= <-] & Hms & Ht). rewrite Hk in Ht. simpl in Ht.
  exists t. eexists. split; [exact Hms|].
  erewrite (load_found isoformat str_of str_of_stored m k _ w' Hsession Hne Hfault)
    by (by rewrite Ht, lookup_insert_eq).
  cbn [ChatProxy.Item.messages default from_option id fmap list_fmap].
  unfold try_except. cbn [ChatProxy.format_messages].
  erewrite bind_run; [|by erewrite bind_run by apply format_message_saved;
                          erewrite bind_run by
                            (by erewrite bind_run by apply format_message_saved)].
  done.
Qed.

Lemma save_then_load_witness :
  let w := Samples.world_with ∅ Samples.november [] in
  let w' := (ChatProxy.save_message_to_db (VStr "s1") "Price of IBM" "It closed at 101." w).2 in
  let m : gmap string value := {[ "action" := VStr "load"; "sessionId" := VStr "s1" ]} in
  let str_of_stored := λ v : stored,
    match v with
    | SDecimal 1700000000123 => "1700000000123"
    | SDecimal 1700000000124 => "1700000000124"
    | _ => "?"
    end in
  ∃ t r,
    int_of_float (float_mul (float_of_Q (7130316800515899 # 4194304)) (binary64 1000 0))
    = Return t ∧
    (ChatProxy.handle_load_conversation (λ _, Return "1970-01-01T00:00:00") (λ _, "")
       str_of_stored (VDict m) w').1
    = Return r ∧
    statusCode r = 200 ∧
    body r = VDict {[ "messages" :=
      VList [VDict {[ "role" := VStr "user"; "content" := VStr "Price of IBM";
                      "timestamp" := VStr (str_of_stored (SDecimal t)) ]};
             VDict {[ "role" := VStr "assistant"; "content" := VStr "It closed at 101.";
                      "timestamp" := VStr (str_of_stored (SDecimal (t + 1))) ]}] ]}.
Proof.
  exact (save_then_load (λ _, Return "1970-01-01T00:00:00") (λ _, "") _ "s1"
           "Price of IBM" "It closed at 101."
           {[ "action" := VStr "load"; "sessionId" := VStr "s1" ]}
           (Samples.world_with ∅ Samples.november []) _
           ltac:(done) eq_refl eq_refl eq_refl eq_refl).
Defined.

(** X16: a load or a delete whose sessionId is missing or falsy (null,
    the empty string, 0) gets 400 "sessionId required" before the store
    is called. *)
Theorem missing_sessionId_is_400
    (isoformat : Q → outcome string) (str_of : value → string)
    (str_of_stored : stored → string)
    (m : gmap string value) (w : ChatProxy.world) :
  (m !! "sessionId" = None ∨ ∃ v, m !! "sessionId" = Some v ∧ truthy v = false) →
  ChatProxy.handle_load_conversation isoformat str_of str_of_stored (VDict m) w
  = (Return (ChatProxy.reply 400 (VDict {[ "error" := VStr "sessionId required" ]})),
     ChatProxy.write_line "❌ No sessionId provided" w) ∧
  ChatProxy.handle_delete_conversation (VDict m) w
  = (Return (ChatProxy.reply 400 (VDict {[ "error" := VStr "sessionId required" ]})), w).
Proof.
  intros Hsession.
  assert (truthy (from_option id VNone (m !! "sessionId")) = false) as Hfalsy.
  { by destruct Hsession as [->|(v & -> & ?)]. }
  unfold ChatProxy.handle_load_conversation, ChatProxy.handle_delete_conversation,
    try_except.
  split; (erewrite bind_run; [|reflexivity]); simpl; by rewrite Hfalsy.
Qed.

Lemma missing_sessionId_is_400_witness :
  let m : gmap string value := {[ "action" := VStr "delete"; "sessionId" := VStr "" ]} in
  let w := Samples.world_with {[ "s1" := Samples.started 5000 ]} Samples.seconds [] in
  ChatProxy.handle_load_conversation (λ _, Return "") (λ _, "") (λ _, "") (VDict m) w
  = (Return (ChatProxy.reply 400 (VDict {[ "error" := VStr "sessionId required" ]})),
     ChatProxy.write_line "❌ No sessionId provided" w) ∧
  ChatProxy.handle_delete_conversation (VDict m) w
  = (Return (ChatProxy.reply 400 (VDict {[ "error" := VStr "sessionId required" ]})), w).
Proof.
  apply (missing_sessionId_is_400 (λ _, Return "") (λ _, "") (λ _, "")
           {[ "action" := VStr "delete"; "sessionId" := VStr "" ]}).
  right. by eexists.
Defined.

(** X17: a delete that the store answers returns 200 and removes the
    record of the session, whether there was one or not; every other
    record is untouched. *)
Theorem delete_removes_record
    (m : gmap string value) (k : string) (w : ChatProxy.world) :
  m !! "sessionId" = Some (VStr k) →
  k ≠ "" →
  ChatProxy.db_fault w (ChatProxy.db_calls w) = None →
  let run := ChatProxy.handle_delete_conversation (VDict m) w in
  run.1 = Return (ChatProxy.reply 200 (VDict {[ "success" := VBool true ]})) ∧
  ChatProxy.table run.2 !! k = None ∧
  (∀ k', k' ≠ k → ChatProxy.table run.2 !! k' = ChatProxy.table w !! k') ∧
  ChatProxy.stdout run.2 = ChatProxy.stdout w.
Proof.
  intros Hsession Hne Hfault run. subst run.
  unfold ChatProxy.handle_delete_conversation, try_except.
  erewrite bind_run; [|reflexivity]. simpl. rewrite Hsession. simpl.
  destruct (String.eqb_spec k "") as [|_]; [done|]. simpl.
  unfold ChatProxy.delete_item. run_M. rewrite Hfault. simpl.
  split; [done|]. split; [apply lookup_delete_eq|]. split; [|done].
  intros k' Hk'. by apply lookup_delete_ne.
Qed.

Lemma delete_removes_record_witness :
  let m : gmap string value := {[ "action" := VStr "delete"; "sessionId" := VStr "s1" ]} in
  let w := Samples.world_with {[ "s1" := Samples.started 5000; "s2" := Samples.titled "Kept" ]}
             Samples.seconds [] in
  let run := ChatProxy.handle_delete_conversation (VDict m) w in
  run.1 = Return (ChatProxy.reply 200 (VDict {[ "success" := VBool true ]})) ∧
  ChatProxy.table run.2 !! "s1" = None ∧
  (∀ k', k' ≠ "s1" → ChatProxy.table run.2 !! k' = ChatProxy.table w !! k') ∧
  ChatProxy.stdout run.2 = [].
Proof.
  exact (delete_removes_record
           {[ "action" := VStr "delete"; "sessionId" := VStr "s1" ]} "s1"
           (Samples.world_with
              {[ "s1" := Samples.started 5000; "s2" := Samples.titled "Kept" ]}
              Samples.seconds [])
           eq_refl ltac:(done) eq_refl).
Defined.

(** X18: after a delete, a load of the session returns 200 with an empty
    list of messages, as for a session that never was. *)
Theorem delete_then_load
    (isoformat : Q → outcome string) (str_of : value → string)
    (str_of_stored : stored → string)
    (m : gmap string value) (k : string) (w : ChatProxy.world) :
  m !! "sessionId" = Some (VStr k) →
  k ≠ "" →
  ChatProxy.db_fault w (ChatProxy.db_calls w) = None →
  ChatProxy.db_fault w (S (ChatProxy.db_calls w)) = None →
  let w' := (ChatProxy.handle_delete_conversation (VDict m) w).2 in
  (ChatProxy.handle_load_conversation isoformat str_of str_of_stored (VDict m) w').1
  = Return (ChatProxy.reply 200 (VDict {[ "messages" := VList [] ]})).
Proof.
  intros Hsession Hne Hf1 Hf2 w'.
  assert (w' = ChatProxy.set_table (delete k) (ChatProxy.count_call w)) as ->.
  { subst w'. unfold ChatProxy.handle_delete_conversation, try_except.
    erewrite bind_run; [|reflexivity]. simpl. rewrite Hsession. simpl.
    destruct (String.eqb_spec k "") as [|_]; [done|]. simpl.
    unfold ChatProxy.delete_item. run_M. by rewrite Hf1. }
  unfold ChatProxy.handle_load_conversation, try_except.
  erewrite bind_run; [|reflexivity]. simpl. rewrite Hsession. simpl.
  destruct (String.eqb_spec k "") as [|_]; [done|]. simpl.
  erewrite bind_run; [|by apply get_item_run].
  simpl. by rewrite lookup_delete_eq.
Qed.

Lemma delete_then_load_witness :
  let m : gmap string value := {[ "sessionId" := VStr "s1" ]} in
  let w := Samples.world_with {[ "s1" := Samples.started 5000 ]} Samples.seconds [] in
  let w' := (ChatProxy.handle_delete_conversation (VDict m) w).2 in
  (ChatProxy.handle_load_conversation (λ _, Return "") (λ _, "s1") (λ _, "") (VDict m) w').1
  = Return (ChatProxy.reply 200 (VDict {[ "messages" := VList [] ]})).
Proof.
  exact (delete_then_load (λ _, Return "") (λ _, "s1") (λ _, "") {[ "sessionId" := VStr "s1" ]} "s1"
           (Samples.world_with {[ "s1" := Samples.started 5000 ]} Samples.seconds [])
           eq_refl ltac:(done) eq_refl eq_refl).
Defined.

(** X19: a rename that the store answers returns 200 and sets the title
    of the session's record to the trimmed title; every other attribute
    of the record, its timestamps among them, and every other record
    are untouched. *)
Theorem rename_sets_title
    (m : gmap string value) (k s : string) (it : ChatProxy.Item.t)
    (w : ChatProxy.world) :
  m !! "sessionId" = Some (VStr k) →
  k ≠ "" →
  m !! "title" = Some (VStr s) →
  strip s ≠ "" →
  ChatProxy.db_fault w (ChatProxy.db_calls w) = None →
  ChatProxy.table w !! k = Some it →
  let run := ChatProxy.handle_rename_conversation (VDict m) w in
  run.1 = Return (ChatProxy.reply 200 (VDict {[ "success" := VBool true ]})) ∧
  (∃ it', ChatProxy.table run.2 !! k = Some it' ∧
     ChatProxy.Item.title it' = Some (strip s) ∧
     ChatProxy.Item.messages it' = ChatProxy.Item.messages it ∧
     ChatProxy.Item.lastMessage it' = ChatProxy.Item.lastMessage it ∧
     ChatProxy.Item.messageCount it' = ChatProxy.Item.messageCount it ∧
     ChatProxy.Item.createdAt it' = ChatProxy.Item.createdAt it ∧
     ChatProxy.Item.updatedAt it' = ChatProxy.Item.updatedAt it ∧
     ChatProxy.Item.extra it' = ChatProxy.Item.extra it) ∧
  (∀ k', k' ≠ k → ChatProxy.table run.2 !! k' = ChatProxy.table w !! k').
Proof.
  intros Hsession Hne Htitle Hstrip Hfault Hk run. subst run.
  unfold ChatProxy.handle_rename_conversation, try_except.
  erewrite bind_run; [|reflexivity].
  erewrite bind_run; [|unfold lift; simpl; by rewrite Htitle].
  simpl. rewrite Hsession. simpl.
  destruct (String.eqb_spec k "") as [|_]; [done|]. simpl.
  destruct (String.eqb_spec (strip s) "") as [|_]; [done|].
  unfold ChatProxy.update_item. run_M. rewrite Hfault. simpl.
  split; [done|]. split.
  - eexists. split; [apply lookup_insert_eq|]. by rewrite Hk.
  - intros k' Hk'. by apply lookup_insert_ne.
Qed.

Lemma rename_sets_title_witness :
  let m : gmap string value :=
    {[ "action" := VStr "rename"; "sessionId" := VStr "s1"; "title" := VStr " IBM " ]} in
  let w := Samples.world_with {[ "s1" := Samples.started 5000 ]} Samples.seconds [] in
  let run := ChatProxy.handle_rename_conversation (VDict m) w in
  run.1 = Return (ChatProxy.reply 200 (VDict {[ "success" := VBool true ]})) ∧
  (∃ it', ChatProxy.table run.2 !! "s1" = Some it' ∧
     ChatProxy.Item.title it' = Some "IBM" ∧
     ChatProxy.Item.messages it' = ChatProxy.Item.messages (Samples.started 5000) ∧
     ChatProxy.Item.lastMessage it' = Some "It closed at 101." ∧
     ChatProxy.Item.messageCount it' = Some 2 ∧
     ChatProxy.Item.createdAt it' = Some 5000 ∧
     ChatProxy.Item.updatedAt it' = Some 5000 ∧
     ChatProxy.Item.extra it' = {[ "pinned" := SBool true ]}) ∧
  (∀ k', k' ≠ "s1" → ChatProxy.table run.2 !! k' = ChatProxy.table w !! k').
Proof.
  exact (rename_sets_title
           {[ "action" := VStr "rename"; "sessionId" := VStr "s1"; "title" := VStr " IBM " ]}
           "s1" " IBM " (Samples.started 5000)
           (Samples.world_with {[ "s1" := Samples.started 5000 ]} Samples.seconds [])
           eq_refl ltac:(done) eq_refl ltac:(done) eq_refl eq_refl).
Defined.

(** X20: a rename of a session that has no record creates one, with the
    title and nothing else; in a store whose records hold no number, a
    list that follows returns 200 and shows the session with the
    timestamp 0, no last message and the message count 0. *)
Theorem rename_creates_record
    (m : gmap string value) (k s : string) (w : ChatProxy.world) :
  m !! "sessionId" = Some (VStr k) →
  k ≠ "" →
  m !! "title" = Some (VStr s) →
  strip s ≠ "" →
  ChatProxy.db_fault w (ChatProxy.db_calls w) = None →
  ChatProxy.db_fault w (S (ChatProxy.db_calls w)) = None →
  ChatProxy.table w !! k = None →
  (∀ k' it, ChatProxy.table w !! k' = Some it →
     ChatProxy.Item.updatedAt it = None ∧ ChatProxy.Item.createdAt it = None ∧
     ChatProxy.Item.messageCount it = None) →
  let w' := (ChatProxy.handle_rename_conversation (VDict m) w).2 in
  ChatProxy.table w' !! k
  = Some {| ChatProxy.Item.title := Some (strip s);
            ChatProxy.Item.messages := None;
            ChatProxy.Item.lastMessage := None;
            ChatProxy.Item.messageCount := None;
            ChatProxy.Item.createdAt := None;
            ChatProxy.Item.updatedAt := None;
            ChatProxy.Item.extra := ∅ |} ∧
  ∃ r conversations,
    (ChatProxy.handle_list_conversations w').1 = Return r ∧
    statusCode r = 200 ∧
    body r = VDict {[ "conversations" := VList conversations ]} ∧
    VDict {[ "sessionId" := VStr k;
             "title" := VStr (strip s);
             "lastMessage" := VStr "";
             "timestamp" := VInt 0;
             "messageCount" := VInt 0 ]} ∈ conversations.
Proof.
  intros Hsession Hne Htitle Hstrip Hf1 Hf2 Hk Hplain w'.
  assert (w' = ChatProxy.set_table
                 (λ t, <[k := ChatProxy.set_title (strip s)
                                (default ChatProxy.Item.empty (t !! k))]> t)
                 (ChatProxy.count_call w)) as ->.
  { subst w'. unfold ChatProxy.handle_rename_conversation, try_except.
    erewrite bind_run; [|reflexivity].
    erewrite bind_run; [|unfold lift; simpl; by rewrite Htitle].
    simpl. rewrite Hsession. simpl.
    destruct (String.eqb_spec k "") as [|_]; [done|]. simpl.
    destruct (String.eqb_spec (strip s) "") as [|_]; [done|].
    unfold ChatProxy.update_item. run_M. by rewrite Hf1. }
  simpl. rewrite Hk. split; [apply lookup_insert_eq|].
  rewrite list_run_plain.
  - eexists _, _. split; [reflexivity|]. split; [done|]. split; [done|].
    apply list_elem_of_fmap.
    exists (ChatProxy.project
              (k, ChatProxy.Item.as_read
                    (ChatProxy.set_title (strip s) ChatProxy.Item.empty))).
    split; [reflexivity|].
    apply listed_elem_of. simpl. by rewrite Hk, lookup_insert_eq.
  - done.
  - simpl. intros k' it Hk'.
    destruct (decide (k' = k)) as [->|Hne'].
    + rewrite lookup_insert_eq, Hk in Hk'. by injection Hk' as <-.
    + rewrite lookup_insert_ne in Hk' by done. by apply (Hplain k').
Qed.

Lemma rename_creates_record_witness :
  let m : gmap string value :=
    {[ "action" := VStr "rename"; "sessionId" := VStr "s9"; "title" := VStr "Ghost" ]} in
  let w := Samples.world_with {[ "s2" := Samples.titled "Kept" ]} Samples.seconds [] in
  let w' := (ChatProxy.handle_rename_conversation (VDict m) w).2 in
  ChatProxy.table w' !! "s9" = Some (Samples.titled "Ghost") ∧
  ∃ r conversations,
    (ChatProxy.handle_list_conversations w').1 = Return r ∧
    statusCode r = 200 ∧
    body r = VDict {[ "conversations" := VList conversations ]} ∧
    VDict {[ "sessionId" := VStr "s9";
             "title" := VStr "Ghost";
             "lastMessage" := VStr "";
             "timestamp" := VInt 0;
             "messageCount" := VInt 0 ]} ∈ conversations.
Proof.
  apply (rename_creates_record
           {[ "action" := VStr "rename"; "sessionId" := VStr "s9"; "title" := VStr "Ghost" ]}
           "s9" "Ghost"
           (Samples.world_with {[ "s2" := Samples.titled "Kept" ]} Samples.seconds []));
    try done.
  intros k' it Hk'. simpl in Hk'.
  apply lookup_singleton_Some in Hk' as [_ <-]. done.
Defined.

(** X21: when the store fails, the load, list, delete and rename
    handlers return 500 with the text of the exception as the error, and
    the table is as it was. *)
Theorem store_failure_is_500
    (isoformat : Q → outcome string) (str_of : value → string)
    (str_of_stored : stored → string)
    (m : gmap string value) (k s : string) (e : exn) (w : ChatProxy.world) :
  m !! "sessionId" = Some (VStr k) →
  k ≠ "" →
  m !! "title" = Some (VStr s) →
  strip s ≠ "" →
  ChatProxy.db_fault w (ChatProxy.db_calls w) = Some e →
  let failed := Return (ChatProxy.reply 500 (VDict {[ "error" := VStr (exn_str e) ]})) in
  let load := ChatProxy.handle_load_conversation isoformat str_of str_of_stored (VDict m) w in
  let list := ChatProxy.handle_list_conversations w in
  let delete := ChatProxy.handle_delete_conversation (VDict m) w in
  let rename := ChatProxy.handle_rename_conversation (VDict m) w in
  (load.1 = failed ∧ ChatProxy.table load.2 = ChatProxy.table w) ∧
  (list.1 = failed ∧ ChatProxy.table list.2 = ChatProxy.table w) ∧
  (delete.1 = failed ∧ ChatProxy.table delete.2 = ChatProxy.table w) ∧
  (rename.1 = failed ∧ ChatProxy.table rename.2 = ChatProxy.table w).
Proof.
  intros Hsession Hne Htitle Hstrip Hfault failed load list delete rename.
  subst failed load list delete rename.
  unfold ChatProxy.handle_load_conversation, ChatProxy.handle_list_conversations,
    ChatProxy.handle_delete_conversation, ChatProxy.handle_rename_conversation,
    try_except.
  repeat split.
  all: try (erewrite bind_run; [|reflexivity]).
  all: try (erewrite bind_run; [|unfold lift; simpl; by rewrite Htitle]).
  all: simpl; rewrite ?Hsession; simpl.
  all: destruct (String.eqb_spec k "") as [|_]; [done|]; simpl.
  all: try (destruct (String.eqb_spec (strip s) "") as [|_]; [done|]).
  all: unfold ChatProxy.delete_item, ChatProxy.update_item; run_M; by rewrite Hfault.
Qed.

Lemma store_failure_is_500_witness :
  let m : gmap string value := {[ "sessionId" := VStr "s1"; "title" := VStr "IBM" ]} in
  let w := Samples.world_down Samples.seconds [] in
  let failed := Return (ChatProxy.reply 500 (VDict {[ "error" := VStr "store is down" ]})) in
  let load := ChatProxy.handle_load_conversation (λ _, Return "") (λ _, "") (λ _, "") (VDict m) w in
  let list := ChatProxy.handle_list_conversations w in
  let delete := ChatProxy.handle_delete_conversation (VDict m) w in
  let rename := ChatProxy.handle_rename_conversation (VDict m) w in
  (load.1 = failed ∧ ChatProxy.table load.2 = ∅) ∧
  (list.1 = failed ∧ ChatProxy.table list.2 = ∅) ∧
  (delete.1 = failed ∧ ChatProxy.table delete.2 = ∅) ∧
  (rename.1 = failed ∧ ChatProxy.table rename.2 = ∅).
Proof.
  exact (store_failure_is_500 (λ _, Return "") (λ _, "") (λ _, "")
           {[ "sessionId" := VStr "s1"; "title" := VStr "IBM" ]} "s1" "IBM"
           (ClientError "ServiceUnavailable" "down" "store is down")
           (Samples.world_down Samples.seconds [])
           eq_refl ltac:(done) eq_refl ltac:(done) eq_refl).
Defined.

(** ** The chat proxy: the dispatcher *)

(** X22: a body whose action is none of send, load, list, delete and
    rename gets 400 "Unknown action: ..." from the dispatcher, and the
    world is as it was. *)
Theorem unknown_action_is_400
    (isoformat : Q → outcome string) (str_of : value → string)
    (str_of_stored : stored → string)
    (json_loads : value → outcome value)
    (event text action : value) (m : gmap string value)
    (ctx : ChatProxy.context) (w : ChatProxy.world) :
  get event "body" (VStr "{}") = Return text →
  json_loads text = Return (VDict m) →
  m !! "action" = Some action →
  (∀ name, name ∈ ["send"; "load"; "list"; "delete"; "rename"] → action ≠ VStr name) →
  ChatProxy.lambda_handler isoformat str_of str_of_stored json_loads event ctx w
  = (Return (ChatProxy.reply 400
               (VDict {[ "error" := VStr ("Unknown action: " ++ str_of action) ]})), w).
Proof.
  intros Hbody Hloads Haction Hunknown.
  assert (∀ name, name ∈ ["send"; "load"; "list"; "delete"; "rename"] →
            eq_str action name = false) as Hneq.
  { intros name Hname. destruct action as [| | | |s| |]; try done. simpl.
    destruct (String.eqb_spec s name) as [->|]; [|done]. by destruct (Hunknown name). }
  unfold ChatProxy.lambda_handler, try_except.
  erewrite bind_run; [|unfold lift; by rewrite Hbody].
  erewrite bind_run; [|unfold lift; by rewrite Hloads].
  erewrite bind_run; [|unfold lift; simpl; by rewrite Haction]. simpl.
  rewrite !Hneq; [done|..]; set_solver.
Qed.

Lemma unknown_action_is_400_witness :
  let event : value := VDict {[ "body" := VStr "{...}" ]} in
  let m : gmap string value := {[ "action" := VStr "purge" ]} in
  let w := Samples.world_with {[ "s1" := Samples.started 5000 ]} Samples.seconds [] in
  ChatProxy.lambda_handler (λ _, Return "") (λ _, "purge") (λ _, "") (λ _, Return (VDict m))
    event Samples.request w
  = (Return (ChatProxy.reply 400 (VDict {[ "error" := VStr "Unknown action: purge" ]})), w).
Proof.
  apply (unknown_action_is_400 (λ _, Return "") (λ _, "purge") (λ _, "")
           (λ _, Return (VDict {[ "action" := VStr "purge" ]}))
           (VDict {[ "body" := VStr "{...}" ]}) (VStr "{...}") (VStr "purge")
           {[ "action" := VStr "purge" ]}); try reflexivity.
  intros name Hname [= <-].
  repeat (apply elem_of_cons in Hname as [?|Hname]; [done|]).
  by apply elem_of_nil in Hname.
Defined.

(** X23: a body that is not JSON gets 400 "Invalid JSON in request" from
    the dispatcher; nothing is logged and the world is as it was. *)
Theorem invalid_json_is_400
    (isoformat : Q → outcome string) (str_of : value → string)
    (str_of_stored : stored → string)
    (json_loads : value → outcome value)
    (event text : value) (reason : string)
    (ctx : ChatProxy.context) (w : ChatProxy.world) :
  get event "body" (VStr "{}") = Return text →
  json_loads text = Raise (PyError "JSONDecodeError" reason) →
  ChatProxy.lambda_handler isoformat str_of str_of_stored json_loads event ctx w
  = (Return (ChatProxy.reply 400 (VDict {[ "error" := VStr "Invalid JSON in request" ]})), w).
Proof.
  intros Hbody Hloads. unfold ChatProxy.lambda_handler, try_except.
  erewrite bind_run; [|unfold lift; by rewrite Hbody].
  erewrite bind_raise; [|unfold lift; by rewrite Hloads]. done.
Qed.

Lemma invalid_json_is_400_witness :
  let event : value := VDict {[ "body" := VStr "{oops" ]} in
  let w := Samples.world_with {[ "s1" := Samples.started 5000 ]} Samples.seconds [] in
  ChatProxy.lambda_handler (λ _, Return "") (λ _, "") (λ _, "")
    (λ _, Raise (PyError "JSONDecodeError" "Expecting property name")) event
    Samples.request w
  = (Return (ChatProxy.reply 400 (VDict {[ "error" := VStr "Invalid JSON in request" ]})), w).
Proof.
  exact (invalid_json_is_400 (λ _, Return "") (λ _, "") (λ _, "")
           (λ _, Raise (PyError "JSONDecodeError" "Expecting property name"))
           (VDict {[ "body" := VStr "{oops" ]}) (VStr "{oops") "Expecting property name"
           Samples.request
           (Samples.world_with {[ "s1" := Samples.started 5000 ]} Samples.seconds [])
           eq_refl eq_refl).
Defined.

(** X24: an exception of the agent invocation that is not a
    [ClientError] goes through the send handler and is turned by the
    dispatcher into 500 "Internal server error"; its text is logged, not
    returned, and nothing is saved: but for the log line and the one
    invocation, the world is as it was.  A body without action is a
    send. *)
Theorem agent_crash_is_internal_error
    (isoformat : Q → outcome string) (str_of : value → string)
    (str_of_stored : stored → string)
    (json_loads : value → outcome value)
    (event text session_id : value) (m : gmap string value)
    (user_message cls reason : string)
    (ctx : ChatProxy.context) (w : ChatProxy.world) :
  get event "body" (VStr "{}") = Return text →
  json_loads text = Return (VDict m) →
  (m !! "action" = None ∨ m !! "action" = Some (VStr "send")) →
  get (VDict m) "message" (VStr "") ≫= strip_method = Return user_message →
  user_message ≠ "" →
  get (VDict m) "sessionId" (VStr ("session-" ++ ChatProxy.aws_request_id ctx))
  = Return session_id →
  ChatProxy.invoke_agent w session_id user_message = Raise (PyError cls reason) →
  cls ≠ "JSONDecodeError" →
  ChatProxy.lambda_handler isoformat str_of str_of_stored json_loads event ctx w
  = (Return (ChatProxy.reply 500 (VDict {[ "error" := VStr "Internal server error" ]})),
     ChatProxy.write_line ("Unexpected error: " ++ reason)
       (ChatProxy.log_invocation session_id user_message w)).
Proof.
  intros Hbody Hloads Haction Hmessage Hne Hsession Hinvoke Hcls.
  assert (ChatProxy.handle_send_message (VDict m) ctx w
          = (Raise (PyError cls reason),
             ChatProxy.log_invocation session_id user_message w))
    as Hsend.
  { unfold ChatProxy.handle_send_message.
    erewrite bind_run; [|unfold lift; by rewrite Hmessage].
    erewrite bind_run; [|unfold lift; by rewrite Hsession].
    destruct (String.eqb_spec user_message "") as [|_]; [done|].
    unfold ChatProxy.try_except_ClientError.
    erewrite bind_raise
      by (unfold ChatProxy.agent_reply; apply bind_raise; by rewrite Hinvoke).
    done. }
  unfold ChatProxy.lambda_handler, try_except.
  erewrite bind_run; [|unfold lift; by rewrite Hbody].
  erewrite bind_run; [|unfold lift; by rewrite Hloads].
  erewrite bind_run; [|reflexivity].
  assert (eq_str (from_option id (VStr "send") (m !! "action")) "send" = true) as ->.
  { by destruct Haction as [->| ->]. }
  rewrite Hsend. simpl.
  by destruct (String.eqb_spec cls "JSONDecodeError").
Qed.

Lemma agent_crash_is_internal_error_witness :
  let event : value := VDict {[ "body" := VStr "{...}" ]} in
  let m : gmap string value := {[ "message" := VStr "And today?" ]} in
  let w := Samples.world_of {[ "s1" := Samples.started 5000 ]}
             (λ _ _, Raise (PyError "ParamValidationError" "Invalid length for sessionId")) in
  ChatProxy.lambda_handler (λ _, Return "") (λ _, "") (λ _, "") (λ _, Return (VDict m))
    event Samples.request w
  = (Return (ChatProxy.reply 500 (VDict {[ "error" := VStr "Internal server error" ]})),
     ChatProxy.write_line "Unexpected error: Invalid length for sessionId"
       (ChatProxy.log_invocation (VStr "session-r-1") "And today?" w)).
Proof.
  apply (agent_crash_is_internal_error (λ _, Return "") (λ _, "") (λ _, "")
           (λ _, Return (VDict {[ "message" := VStr "And today?" ]}))
           (VDict {[ "body" := VStr "{...}" ]}) (VStr "{...}") (VStr "session-r-1")
           {[ "message" := VStr "And today?" ]} "And today?"
           "ParamValidationError" "Invalid length for sessionId" Samples.request
           (Samples.world_of {[ "s1" := Samples.started 5000 ]}
              (λ _ _, Raise (PyError "ParamValidationError" "Invalid length for sessionId"))));
    try done.
  by left.
Defined.

(** X25: a send whose message is not a string (a number, null, a list)
    is not a 400: [.strip()] raises, and the dispatcher returns 500
    "Internal server error"; but for the log line the world is as it
    was: the agent has not been invoked and nothing is saved. *)
Theorem non_string_message_is_internal_error
    (isoformat : Q → outcome string) (str_of : value → string)
    (str_of_stored : stored → string)
    (json_loads : value → outcome value)
    (event text message : value) (m : gmap string value)
    (ctx : ChatProxy.context) (w : ChatProxy.world) :
  get event "body" (VStr "{}") = Return text →
  json_loads text = Return (VDict m) →
  (m !! "action" = None ∨ m !! "action" = Some (VStr "send")) →
  m !! "message" = Some message →
  (∀ s, message ≠ VStr s) →
  let run := ChatProxy.lambda_handler isoformat str_of str_of_stored json_loads event ctx w in
  run = (Return (ChatProxy.reply 500 (VDict {[ "error" := VStr "Internal server error" ]})),
         ChatProxy.write_line
           ("Unexpected error: " ++ exn_str (AttributeError message "strip")) w) ∧
  ChatProxy.invoked run.2 = ChatProxy.invoked w ∧
  ChatProxy.table run.2 = ChatProxy.table w.
Proof.
  intros Hbody Hloads Haction Hmessage Hnot run. subst run.
  assert (ChatProxy.handle_send_message (VDict m) ctx w
          = (Raise (AttributeError message "strip"), w)) as Hsend.
  { unfold ChatProxy.handle_send_message. apply bind_raise.
    unfold lift. simpl. rewrite Hmessage. simpl.
    destruct message as [| | | |s| |]; try done. by destruct (Hnot s). }
  unfold ChatProxy.lambda_handler, try_except.
  erewrite bind_run; [|unfold lift; by rewrite Hbody].
  erewrite bind_run; [|unfold lift; by rewrite Hloads].
  erewrite bind_run; [|reflexivity].
  assert (eq_str (from_option id (VStr "send") (m !! "action")) "send" = true) as ->.
  { by destruct Haction as [->| ->]. }
  by rewrite Hsend.
Qed.

Lemma non_string_message_is_internal_error_witness :
  let event : value := VDict {[ "body" := VStr "{...}" ]} in
  let m : gmap string value := {[ "action" := VStr "send"; "message" := VInt 5 ]} in
  let w := Samples.world_with ∅ Samples.seconds Samples.answer in
  let run := ChatProxy.lambda_handler (λ _, Return "") (λ _, "") (λ _, "")
               (λ _, Return (VDict m)) event Samples.request w in
  run = (Return (ChatProxy.reply 500 (VDict {[ "error" := VStr "Internal server error" ]})),
         ChatProxy.write_line "Unexpected error: 'int' object has no attribute 'strip'" w) ∧
  ChatProxy.invoked run.2 = [] ∧
  ChatProxy.table run.2 = ∅.
Proof.
  apply (non_string_message_is_internal_error (λ _, Return "") (λ _, "") (λ _, "")
           (λ _, Return (VDict {[ "action" := VStr "send"; "message" := VInt 5 ]}))
           (VDict {[ "body" := VStr "{...}" ]}) (VStr "{...}") (VInt 5)
           {[ "action" := VStr "send"; "message" := VInt 5 ]} Samples.request
           (Samples.world_with ∅ Samples.seconds Samples.answer)); try done.
  by right.
Defined.

(** X26: a conversation that has been saved breaks the list: after a
    save that returns, the record holds numbers, which the list reads
    back as [Decimal]s, and the list of a store that answers returns 500
    with the text of the [TypeError] of [json.dumps]. *)
Theorem saved_conversation_breaks_list
    (k user_message bot_response : string) (w w' : ChatProxy.world) :
  ChatProxy.save_message_to_db (VStr k) user_message bot_response w = (Return tt, w') →
  ChatProxy.db_fault w' (ChatProxy.db_calls w') = None →
  ∃ r,
    (ChatProxy.handle_list_conversations w').1 = Return r ∧
    statusCode r = 500 ∧
    body r = VDict {[ "error" := VStr "Object of type Decimal is not JSON serializable" ]}.
Proof.
  intros Hsave Hfault.
  apply save_Return in Hsave as (k0 & t & [= <-] & _ & Ht).
  erewrite (list_run_number w' k) by
    (first [done | by rewrite Ht, lookup_insert_eq
           | left; destruct (ChatProxy.table w !! k); by eexists]).
  by eexists.
Qed.

Lemma saved_conversation_breaks_list_witness :
  let w := Samples.world_with ∅ Samples.seconds [] in
  let w' := (ChatProxy.save_message_to_db (VStr "s1") "Price of IBM" "It closed at 101." w).2 in
  ∃ r,
    (ChatProxy.handle_list_conversations w').1 = Return r ∧
    statusCode r = 500 ∧
    body r = VDict {[ "error" := VStr "Object of type Decimal is not JSON serializable" ]}.
Proof.
  exact (saved_conversation_breaks_list "s1" "Price of IBM" "It closed at 101."
           (Samples.world_with ∅ Samples.seconds []) _ eq_refl eq_refl).
Defined.

(** ** Payloads and messages of an unexpected shape *)

(** X27: a decoded payload that is no container (null, a boolean, a
    number) makes the quote fetcher raise [TypeError] at the first
    membership test: no response is returned and nothing is stored. *)
Theorem scalar_payload_raises
    (str_upper : string → string)
    (parse_float : string → option spec_float) (parse_int : string → option Z)
    (sv : QuoteFetcher.services) (event data : value) (symbol : string)
    (b : QuoteFetcher.bucket) :
  QuoteFetcher.fetched str_upper sv event symbol data →
  (∀ s, data ≠ VStr s) → (∀ l, data ≠ VList l) → (∀ m, data ≠ VDict m) →
  QuoteFetcher.lambda_handler str_upper parse_float parse_int sv event b
  = (Raise (TypeError ("argument of type '" ++ type_name data ++ "' is not iterable")), b).
Proof.
  intros Hfetched Hstr Hlist Hdict.
  rewrite (lambda_handler_fetched _ _ _ _ _ _ _ _ Hfetched).
  unfold QuoteFetcher.classify. apply bind_raise. unfold lift.
  destruct data as [| | | |s|l|m]; try done.
  - by destruct (Hstr s).
  - by destruct (Hlist l).
  - by destruct (Hdict m).
Qed.

Lemma scalar_payload_raises_witness :
  QuoteFetcher.lambda_handler id Samples.parse_float Samples.parse_int
    (Samples.services_with (VInt 429)) Samples.ibm_event ∅
  = (Raise (TypeError "argument of type 'int' is not iterable"), ∅).
Proof.
  apply (scalar_payload_raises id Samples.parse_float Samples.parse_int
           (Samples.services_with (VInt 429)) Samples.ibm_event (VInt 429) "IBM" ∅);
    try done.
  by eexists _, _.
Defined.

Section LoadShapes.
Import ChatProxy.
Context (isoformat : Q → outcome string) (str_of : value → string)
    (str_of_stored : stored → string).

Lemma format_message_not_dict v w :
  (∀ d, v ≠ SDict d) →
  format_message isoformat str_of_stored v w
  = (Raise (no_attribute v "get"),
     write_line ("Error formatting message timestamp: " ++ exn_str (no_attribute v "get")) w).
Proof.
  intros Hnot. unfold format_message, try_except.
  assert (∀ key d, stored_get v key d = Raise (no_attribute v "get")) as Hget.
  { intros key d. destruct v as [| | | | | |m]; try done. by destruct (Hnot m). }
  erewrite bind_raise; [|unfold lift; by rewrite Hget].
  erewrite bind_run; [|reflexivity].
  by erewrite bind_raise; [|unfold lift; by rewrite Hget].
Qed.

Lemma as_read_not_dict v : (∀ d, v ≠ SDict d) → ∀ d, as_read v ≠ SDict d.
Proof. intros Hnot d. destruct v as [| | | | | |m]; try done. by destruct (Hnot m). Qed.

(** The one failure of [json.dumps]. *)
Lemma dumps_Raise v e : dumps v = Raise e → e = not_serializable.
Proof. unfold dumps. destruct (to_json v); congruence. Qed.

(** A formatted message whose content is a [Decimal] is not
    serializable, whatever its role is. *)
Lemma Formatted_dumps_Decimal role n timestamp :
  Formatted.dumps {| Formatted.role := role; Formatted.content := SDecimal n;
                     Formatted.timestamp := timestamp |}
  = Raise not_serializable.
Proof.
  unfold Formatted.dumps, mbind, outcome_bind. simpl.
  destruct (dumps role) as [j|e] eqn:Hrole; [done|].
  by rewrite (dumps_Raise role e Hrole).
Qed.
End LoadShapes.

(** X28: the [try] around the formatting of a message does not protect
    the load from a stored message that is not a dict: its handler fails
    in the same way, and the whole load returns 500 with the text of the
    [AttributeError]. *)
Theorem load_of_broken_message_is_500
    (isoformat : Q → outcome string) (str_of : value → string)
    (str_of_stored : stored → string)
    (m : gmap string value) (k : string) (it : ChatProxy.Item.t)
    (v : stored) (rest : list stored) (w : ChatProxy.world) :
  m !! "sessionId" = Some (VStr k) →
  k ≠ "" →
  ChatProxy.db_fault w (ChatProxy.db_calls w) = None →
  ChatProxy.table w !! k = Some it →
  ChatProxy.Item.messages it = Some (v :: rest) →
  (∀ d, v ≠ SDict d) →
  (ChatProxy.handle_load_conversation isoformat str_of str_of_stored (VDict m) w).1
  = Return (ChatProxy.reply 500
              (VDict {[ "error" := VStr (exn_str (no_attribute (as_read v) "get")) ]})).
Proof.
  intros Hsession Hne Hfault Hk Hmessages Hnot.
  rewrite (load_found isoformat str_of str_of_stored m k it w Hsession Hne Hfault Hk),
    Hmessages.
  unfold try_except. simpl.
  erewrite bind_raise
    by (apply bind_raise; by apply format_message_not_dict, as_read_not_dict).
  done.
Qed.

Lemma load_of_broken_message_is_500_witness :
  let m : gmap string value := {[ "sessionId" := VStr "s1" ]} in
  let w := Samples.world_with {[ "s1" := Samples.with_messages [SStr "hello"] ]}
             Samples.seconds [] in
  (ChatProxy.handle_load_conversation (λ _, Return "") (λ _, "") (λ _, "") (VDict m) w).1
  = Return (ChatProxy.reply 500
              (VDict {[ "error" := VStr "'str' object has no attribute 'get'" ]})).
Proof.
  exact (load_of_broken_message_is_500 (λ _, Return "") (λ _, "") (λ _, "")
           {[ "sessionId" := VStr "s1" ]} "s1"
           (Samples.with_messages [SStr "hello"]) (SStr "hello") []
           (Samples.world_with {[ "s1" := Samples.with_messages [SStr "hello"] ]}
              Samples.seconds [])
           eq_refl ltac:(done) eq_refl eq_refl eq_refl ltac:(done)).
Defined.

(** X29: a stored message whose content is a number fails the whole
    load: the number comes back as a [Decimal], the message is formatted
    without a failure, and [json.dumps] at line 276 raises; the handler
    returns 500 with the text of the [TypeError], also when every other
    message is in order. *)
Theorem load_of_number_content_is_500
    (isoformat : Q → outcome string) (str_of : value → string)
    (str_of_stored : stored → string)
    (m : gmap string value) (k : string) (it : ChatProxy.Item.t)
    (d : gmap string stored) (n t : Z) (rest : list stored)
    (others : list ChatProxy.Formatted.t) (w w1 : ChatProxy.world) :
  m !! "sessionId" = Some (VStr k) →
  k ≠ "" →
  ChatProxy.db_fault w (ChatProxy.db_calls w) = None →
  ChatProxy.table w !! k = Some it →
  ChatProxy.Item.messages it = Some (SDict d :: rest) →
  d !! "content" = Some (SInt n) →
  d !! "timestamp" = Some (SInt t) →
  ChatProxy.format_messages isoformat str_of_stored (as_read <$> rest)
    (ChatProxy.count_call w) = (Return others, w1) →
  ∃ r,
    (ChatProxy.handle_load_conversation isoformat str_of str_of_stored (VDict m) w).1
    = Return r ∧
    statusCode r = 500 ∧
    body r = VDict {[ "error" := VStr "Object of type Decimal is not JSON serializable" ]}.
Proof.
  intros Hsession Hne Hfault Hk Hmessages Hcontent Htimestamp Hrest.
  rewrite (load_found isoformat str_of str_of_stored m k it w Hsession Hne Hfault Hk),
    Hmessages.
  assert (ChatProxy.format_message isoformat str_of_stored (as_read (SDict d))
            (ChatProxy.count_call w)
          = (Return {| ChatProxy.Formatted.role :=
                         from_option id (SStr "user") (as_read <$> d !! "role");
                       ChatProxy.Formatted.content := SDecimal n;
                       ChatProxy.Formatted.timestamp := str_of_stored (SDecimal t) |},
             ChatProxy.count_call w)) as Hformat.
  { unfold ChatProxy.format_message, try_except. simpl.
    erewrite bind_run; [|unfold lift; by rewrite lookup_fmap, Htimestamp].
    erewrite bind_run; [|unfold lift; by rewrite lookup_fmap].
    erewrite bind_run; [|unfold lift; by rewrite lookup_fmap, Hcontent].
    done. }
  unfold try_except.
  change (as_read <$> default [] (Some (SDict d :: rest)))
    with (as_read (SDict d) :: (as_read <$> rest)).
  erewrite bind_run
    by (eapply format_messages_cons; [exact Hformat|exact Hrest]).
  unfold mbind at 1, M_bind at 1, lift.
  rewrite mapM_cons, Formatted_dumps_Decimal. by eexists.
Qed.

Lemma load_of_number_content_is_500_witness :
  let d : gmap string stored :=
    {[ "role" := SStr "user"; "content" := SInt 42; "timestamp" := SInt 5000 ]} in
  let it := Samples.with_messages
              [SDict d; ChatProxy.message "assistant" "It closed at 101." 5001] in
  let m : gmap string value := {[ "sessionId" := VStr "s1" ]} in
  let w := Samples.world_with {[ "s1" := it ]} Samples.seconds [] in
  ∃ r,
    (ChatProxy.handle_load_conversation (λ _, Return "") (λ _, "") (λ _, "") (VDict m) w).1
    = Return r ∧
    statusCode r = 500 ∧
    body r = VDict {[ "error" := VStr "Object of type Decimal is not JSON serializable" ]}.
Proof.
  exact (load_of_number_content_is_500 (λ _, Return "") (λ _, "") (λ _, "")
           {[ "sessionId" := VStr "s1" ]} "s1"
           (Samples.with_messages
              [SDict {[ "role" := SStr "user"; "content" := SInt 42;
                        "timestamp" := SInt 5000 ]};
               ChatProxy.message "assistant" "It closed at 101." 5001])
           {[ "role" := SStr "user"; "content" := SInt 42; "timestamp" := SInt 5000 ]}
           42 5000 [ChatProxy.message "assistant" "It closed at 101." 5001] _
           (Samples.world_with
              {[ "s1" := Samples.with_messages
                           [SDict {[ "role" := SStr "user"; "content" := SInt 42;
                                     "timestamp" := SInt 5000 ]};
                            ChatProxy.message "assistant" "It closed at 101." 5001] ]}
              Samples.seconds []) _
           eq_refl ltac:(done) eq_refl eq_refl eq_refl eq_refl eq_refl eq_refl).
Defined.

(** X30: a stored message that lacks role, content and timestamp is
    loaded with the defaults: role "user", empty content, and the
    formatted time of the epoch. *)
Theorem stored_message_defaults
    (isoformat : Q → outcome string) (str_of : value → string)
    (str_of_stored : stored → string)
    (m : gmap string value) (d : gmap string stored) (k epoch : string)
    (it : ChatProxy.Item.t) (w : ChatProxy.world) :
  m !! "sessionId" = Some (VStr k) →
  k ≠ "" →
  ChatProxy.db_fault w (ChatProxy.db_calls w) = None →
  ChatProxy.table w !! k = Some it →
  ChatProxy.Item.messages it = Some [SDict d] →
  d !! "role" = None → d !! "content" = None → d !! "timestamp" = None →
  isoformat (inject_Z 0 / 1000)%Q = Return epoch →
  ChatProxy.handle_load_conversation isoformat str_of str_of_stored (VDict m) w
  = (Return (ChatProxy.reply 200
               (VDict {[ "messages" :=
                           VList [VDict {[ "role" := VStr "user";
                                           "content" := VStr "";
                                           "timestamp" := VStr epoch ]}] ]})),
     ChatProxy.count_call w).
Proof.
  intros Hsession Hne Hfault Hk Hmessages Hrole Hcontent Htimestamp Hepoch.
  assert (ChatProxy.format_message isoformat str_of_stored (as_read (SDict d))
            (ChatProxy.count_call w)
          = (Return {| ChatProxy.Formatted.role := SStr "user";
                       ChatProxy.Formatted.content := SStr "";
                       ChatProxy.Formatted.timestamp := epoch |},
             ChatProxy.count_call w)) as Hformat.
  { unfold ChatProxy.format_message, try_except. simpl.
    erewrite bind_run; [|unfold lift; by rewrite lookup_fmap, Htimestamp].
    erewrite bind_run; [|unfold lift; by rewrite lookup_fmap, Hrole].
    erewrite bind_run; [|unfold lift; by rewrite lookup_fmap, Hcontent].
    simpl. by erewrite bind_run; [|unfold lift; by rewrite Hepoch]. }
  by rewrite (load_one isoformat str_of str_of_stored m k it (SDict d) _ w
                _ Hsession Hne Hfault Hk Hmessages Hformat).
Qed.

Lemma stored_message_defaults_witness :
  let m : gmap string value := {[ "sessionId" := VStr "s1" ]} in
  let w := Samples.world_with {[ "s1" := Samples.with_messages [SDict ∅] ]}
             Samples.seconds [] in
  ChatProxy.handle_load_conversation Samples.isoformat_first_second (λ _, "") (λ _, "")
    (VDict m) w
  = (Return (ChatProxy.reply 200
               (VDict {[ "messages" :=
                           VList [VDict {[ "role" := VStr "user";
                                           "content" := VStr "";
                                           "timestamp" := VStr "1970-01-01T00:00:00" ]}] ]})),
     ChatProxy.count_call w).
Proof.
  exact (stored_message_defaults Samples.isoformat_first_second (λ _, "") (λ _, "")
           {[ "sessionId" := VStr "s1" ]} ∅ "s1" "1970-01-01T00:00:00"
           (Samples.with_messages [SDict ∅])
           (Samples.world_with {[ "s1" := Samples.with_messages [SDict ∅] ]}
              Samples.seconds [])
           eq_refl ltac:(done) eq_refl eq_refl eq_refl eq_refl eq_refl eq_refl eq_refl).
Defined.
